(** * Learner-profile engine: a shallow embedding of the personalization agents

    The development follows the Python sources of the backend:
    - [Py]: the few Python built-ins the agents rely on (string search,
      [lower], [split], [min] on floats, list slices, exceptions, methods
      that mutate their object);
    - [Binary64]: sign and range facts about IEEE binary64 arithmetic,
      Python's [float], taken from Rocq's primitive floats;
    - [Wire]: the answer dictionary and the text-generation collaborator;
    - [AdvancedAgent]: advanced_personalization_agent.py;
    - [EnhancedAgent]: enhanced_learning_agent.py;
    - [DbAgent]: personalization_agent.py (the Supabase-backed agent);
    - [FileAgent]: personalization/agent.py (the file-backed agent);
    - [Fallback]: what the two agents answer when the collaborator fails;
    - [Router]: personalization/router.py, the /personalize route;
    - [UserContext]: personalization/user_context.py.

    Timestamps ([datetime.now().isoformat()]) are passed in as a parameter
    [now]; persistence calls that swallow their own errors are left out. A
    method that mutates the profile of its agent is a function from the
    profile to the profile it leaves behind and to its result, so that what
    was written before an exception stays written. *)

From Stdlib Require Import ZArith List String Ascii Bool Floats Lia.
From Stdlib Require Import DecimalString.
From stdpp Require Import base option list gmap strings.

Set Warnings "-inexact-float,-register-all".
Local Open Scope string_scope.
Local Open Scope list_scope.
Local Open Scope Z_scope.

(** ** Python built-ins *)
Module Py.

(** [min(a, b)]: the first argument is kept unless the second is strictly
    smaller. *)
Definition min (a b : float) : float :=
  if PrimFloat.ltb b a then b else a.

(** [sum(xs)] over floats: the integer start value 0 becomes [0.0] at the
    first addition, then the items are added from left to right (CPython
    from 3.12 on also carries a compensation term, which can change the
    last bit of an inexact sum). *)
Definition sum (xs : list float) : float :=
  fold_left PrimFloat.add xs 0%float.

(** [float(n)] for a small natural number such as a list length. *)
Definition float_of_nat (n : nat) : float :=
  PrimFloat.of_uint63 (Uint63.of_Z (Z.of_nat n)).

(** [l[-n:]] for [n > 0]: the last [n] items, or all of them. *)
Definition last_n {A} (n : nat) (l : list A) : list A :=
  skipn (length l - n) l.

(** [0 <= x <= 1] as Python evaluates it on floats. *)
Definition in_unit (x : float) : bool :=
  PrimFloat.leb 0%float x && PrimFloat.leb x 1%float.

(** Strings are ASCII strings; [lower] touches the letters A to Z only. *)
Definition lower_char (c : ascii) : ascii :=
  let n := N_of_ascii c in
  if ((65 <=? n) && (n <=? 90))%N then ascii_of_N (n + 32) else c.

Fixpoint lower (s : string) : string :=
  match s with
  | EmptyString => EmptyString
  | String c t => String (lower_char c) (lower t)
  end.

(** [needle in hay]: [needle] occurs somewhere in [hay]. *)
Fixpoint contains (needle hay : string) : bool :=
  String.prefix needle hay ||
  match hay with
  | EmptyString => false
  | String _ t => contains needle t
  end.

(** [x in xs] for a list of strings. *)
Definition mem (x : string) (xs : list string) : bool :=
  existsb (String.eqb x) xs.

Definition is_alpha (c : ascii) : bool :=
  let n := N_of_ascii c in
  (((65 <=? n) && (n <=? 90)) || ((97 <=? n) && (n <=? 122)))%N.

Definition is_digit (c : ascii) : bool :=
  let n := N_of_ascii c in ((48 <=? n) && (n <=? 57))%N.

(** [c.isalnum()] on an ASCII character. *)
Definition isalnum (c : ascii) : bool := is_alpha c || is_digit c.

Definition upper_char (c : ascii) : ascii :=
  let n := N_of_ascii c in
  if ((97 <=? n) && (n <=? 122))%N then ascii_of_N (n - 32) else c.

Fixpoint title_go (after_letter : bool) (s : string) : string :=
  match s with
  | EmptyString => EmptyString
  | String c t =>
      String (if after_letter then lower_char c else upper_char c)
             (title_go (is_alpha c) t)
  end.

(** [s.title()]: a letter that follows a letter is lowered, any other
    letter is raised. *)
Definition title (s : string) : string := title_go false s.

(** [str(n)] for a natural number. *)
Definition str_of_nat (n : nat) : string :=
  NilEmpty.string_of_uint (Nat.to_uint n).

(** [any(k in s for k in keywords)]. *)
Definition any_in (keywords : list string) (s : string) : bool :=
  existsb (fun k => contains k s) keywords.

(** The ASCII characters that [str.split()] and [str.strip()] treat as
    white space. *)
Definition is_space (c : ascii) : bool :=
  let n := N_of_ascii c in
  (((9 <=? n) && (n <=? 13)) || ((28 <=? n) && (n <=? 32)))%N.

Fixpoint split_go (s word : string) (acc : list string) : list string :=
  match s with
  | EmptyString =>
      rev (if String.eqb word "" then acc else word :: acc)
  | String c t =>
      if is_space c
      then split_go t "" (if String.eqb word "" then acc else word :: acc)
      else split_go t (word +:+ String c "") acc
  end.

(** [s.split()]: the maximal runs of characters that are not white space. *)
Definition split (s : string) : list string := split_go s "" [].

Fixpoint lstrip (s : string) : string :=
  match s with
  | String c t => if is_space c then lstrip t else s
  | EmptyString => EmptyString
  end.

Fixpoint rstrip (s : string) : string :=
  match s with
  | EmptyString => EmptyString
  | String c t =>
      let t' := rstrip t in
      if is_space c && String.eqb t' "" then "" else String c t'
  end.

(** [s.strip()]. *)
Definition strip (s : string) : string := rstrip (lstrip s).

Fixpoint find_from (c : ascii) (s : string) (i : Z) : Z :=
  match s with
  | EmptyString => -1
  | String d t => if Ascii.eqb c d then i else find_from c t (i + 1)
  end.

(** [s.find(c)] for a one-character pattern: first index or -1. *)
Definition find (c : ascii) (s : string) : Z := find_from c s 0.

Fixpoint rfind_from (c : ascii) (s : string) (i last : Z) : Z :=
  match s with
  | EmptyString => last
  | String d t => rfind_from c t (i + 1) (if Ascii.eqb c d then i else last)
  end.

(** [s.rfind(c)] for a one-character pattern: last index or -1. *)
Definition rfind (c : ascii) (s : string) : Z := rfind_from c s 0 (-1).

(** A value as [json.load] returns it; a dictionary literal keeps the
    order in which its keys are written. *)
Inductive json :=
| JNull
| JBool (b : bool)
| JInt (n : Z)
| JFloat (f : float)
| JStr (s : string)
| JList (items : list json)
| JDict (items : list (string * json)).

(** Exceptions, and computations that return or raise. *)
Inductive exn :=
| JSONDecodeError | ValueError | CollaboratorError
| KeyError | TypeError | AttributeError.

Inductive result (A : Type) :=
| Ok (a : A)
| Raise (e : exn).
Arguments Ok {A} a.
Arguments Raise {A} e.

(** [except json.JSONDecodeError]: a plain [ValueError] is not caught. *)
Definition is_JSONDecodeError (e : exn) : bool :=
  match e with JSONDecodeError => true | _ => false end.

(** [except Exception]. *)
Definition is_Exception (e : exn) : bool := true.

(** A method that mutates the object it is called on: the state that it
    leaves behind, whether it returns or raises, and its result. *)
Definition method (St A : Type) : Type := St -> St * result A.

Definition returns {St A} (a : A) : method St A := fun s => (s, Ok a).

(** A computation that does not touch the state. *)
Definition lift {St A} (r : result A) : method St A := fun s => (s, r).

Definition read {St} : method St St := fun s => (s, Ok s).

Definition write {St} (f : St -> St) : method St unit := fun s => (f s, Ok tt).

(** Sequencing: what was written before an exception stays written. *)
Definition and_then {St A B} (m : method St A) (k : A -> method St B)
    : method St B :=
  fun s =>
    match m s with
    | (s', Ok a) => k a s'
    | (s', Raise e) => (s', Raise e)
    end.

(** [try: body / except <catches>: handler] around a method: the handler
    runs on the state that the body left behind. *)
Definition attempt {St A} (body : method St A) (catches : exn -> bool)
    (handler : method St A) : method St A :=
  fun s =>
    match body s with
    | (s', Ok a) => (s', Ok a)
    | (s', Raise e) => if catches e then handler s' else (s', Raise e)
    end.

(** The result with the state, for a caller that only looks at a call that
    returned. *)
Definition outcome {St A} (r : St * result A) : result (A * St) :=
  match r with
  | (s, Ok a) => Ok (a, s)
  | (_, Raise e) => Raise e
  end.

(** [s[a:b]] for [0 <= a <= b]. *)
Definition slice (s : string) (a b : Z) : string :=
  String.substring (Z.to_nat a) (Z.to_nat (b - a)) s.

(** [s.split(sep)] for a separator that is not empty: [skip] counts the
    characters of a separator just found that are still to be passed
    over. *)
Fixpoint split_on_go (sep s : string) (skip : nat) (cur : string)
    : list string :=
  match s with
  | EmptyString => [cur]
  | String c t =>
      match skip with
      | S k => split_on_go sep t k cur
      | O =>
          if String.prefix sep s
          then cur :: split_on_go sep t (String.length sep - 1) ""
          else split_on_go sep t 0 (cur +:+ String c "")
      end
  end.

Definition split_on (sep s : string) : list string := split_on_go sep s 0 "".

(** [sep.join(parts)]. *)
Fixpoint join (sep : string) (parts : list string) : string :=
  match parts with
  | [] => ""
  | [part] => part
  | part :: rest => part +:+ sep +:+ join sep rest
  end.

(** [s.replace(old, new)] for a pattern that is not empty. *)
Definition replace (old new s : string) : string :=
  join new (split_on old s).

(** [s.rstrip(c)] for a single character. *)
Fixpoint rstrip_char (ch : ascii) (s : string) : string :=
  match s with
  | EmptyString => EmptyString
  | String c t =>
      let t' := rstrip_char ch t in
      if Ascii.eqb c ch && String.eqb t' "" then "" else String c t'
  end.

End Py.

(** ** IEEE binary64: the sign of sums and products *)
Module Binary64.

(** Zero of either sign, a positive finite number or plus infinity. *)
Definition nonneg (x : spec_float) : Prop :=
  match x with
  | S754_zero _ => True
  | S754_finite s _ _ => s = false
  | S754_infinity s => s = false
  | S754_nan => False
  end.

(** Zero of either sign or a positive finite number. *)
Definition fin_nonneg (x : spec_float) : Prop :=
  match x with
  | S754_zero _ => True
  | S754_finite s _ _ => s = false
  | _ => False
  end.

Lemma fin_nonneg_nonneg x : fin_nonneg x -> nonneg x.
Proof. destruct x; simpl; tauto. Qed.

Lemma leb_zero_nonneg x : SFleb (S754_zero false) x = true <-> nonneg x.
Proof.
  destruct x as [s|s| |s m e]; simpl; unfold SFleb; simpl;
    try destruct s; simpl; intuition congruence.
Qed.

Lemma shr_1_nonneg mrs : 0 <= shr_m mrs -> 0 <= shr_m (shr_1 mrs).
Proof.
  destruct mrs as [m r s]; simpl.
  destruct m as [|p|p]; [simpl; lia| |lia].
  destruct p; simpl; lia.
Qed.

Lemma iter_pos_inv {A} (P : A -> Prop) (f : A -> A) :
  (forall x, P x -> P (f x)) -> forall n x, P x -> P (SpecFloat.iter_pos f n x).
Proof.
  intros Hf n. induction n as [n IH|n IH|]; intros x Hx; simpl; auto.
Qed.

Lemma shr_fexp_nonneg m e l :
  0 <= m -> 0 <= shr_m (fst (shr_fexp prec emax m e l)).
Proof.
  intros Hm. unfold shr_fexp, shr.
  assert (H0 : 0 <= shr_m (shr_record_of_loc m l))
    by (destruct l as [|[]]; simpl; exact Hm).
  destruct (fexp prec emax (Zdigits2 m + e) - e) as [|p|p]; simpl; auto.
  apply (iter_pos_inv (fun r => 0 <= shr_m r)); auto using shr_1_nonneg.
Qed.

Lemma round_nearest_even_nonneg m l : 0 <= m -> 0 <= round_nearest_even m l.
Proof.
  intros Hm. destruct l as [|[]]; simpl; try lia.
  destruct (Z.even m); lia.
Qed.

Lemma binary_round_aux_nonneg m e l :
  0 <= m -> nonneg (binary_round_aux prec emax false m e l).
Proof.
  intros Hm. unfold binary_round_aux.
  pose proof (shr_fexp_nonneg m e l Hm) as H1.
  destruct (shr_fexp prec emax m e l) as [mrs1 e1]; simpl in H1.
  pose proof (shr_fexp_nonneg
    (round_nearest_even (shr_m mrs1) (loc_of_shr_record mrs1)) e1 loc_Exact
    (round_nearest_even_nonneg _ _ H1)) as H2.
  destruct (shr_fexp prec emax _ e1 loc_Exact) as [mrs2 e2]; simpl in H2.
  destruct (shr_m mrs2) as [|p|p]; simpl; [exact I| |lia].
  destruct (e2 <=? emax - prec); reflexivity.
Qed.

Lemma SFmul_nonneg x y :
  fin_nonneg x -> fin_nonneg y -> nonneg (SF64mul x y).
Proof.
  destruct x as [sx|sx| |sx mx ex], y as [sy|sy| |sy my ey]; simpl;
    try tauto; intros Hx Hy; subst.
  apply binary_round_aux_nonneg. lia.
Qed.

Lemma SFadd_nonneg x y :
  fin_nonneg x -> nonneg y -> nonneg (SF64add x y).
Proof.
  destruct x as [sx|sx| |sx mx ex], y as [sy|sy| |sy my ey]; simpl;
    try tauto; intros Hx Hy; subst; try reflexivity.
  - destruct sx, sy; exact I.
  - unfold binary_normalize, binary_round.
    destruct (shl_align mx ex (Z.min ex ey)) as [m1 e1],
             (shl_align my ey (Z.min ex ey)) as [m2 e2]; simpl.
    destruct (shl_align (m1 + m2) _ _) as [mz ez].
    apply binary_round_aux_nonneg. lia.
Qed.

Lemma ltb_leb x y : SFltb x y = true -> SFleb x y = true.
Proof. unfold SFltb, SFleb. destruct (SFcompare x y) as [[]|]; congruence. Qed.

Lemma in_unit_fin_nonneg x :
  Py.in_unit x = true -> fin_nonneg (Prim2SF x).
Proof.
  unfold Py.in_unit. rewrite andb_true_iff, !leb_spec. intros [H0 H1].
  change (Prim2SF 0) with (S754_zero false) in H0.
  apply leb_zero_nonneg in H0.
  destruct (Prim2SF x) as [s|s| |s m e]; simpl in *; auto.
  subst. vm_compute in H1. discriminate.
Qed.

(** The update [min(1.0, cur + sr * 0.1)] stays in the unit interval. *)
Lemma update_in_unit cur sr :
  Py.in_unit cur = true -> Py.in_unit sr = true ->
  Py.in_unit (Py.min 1 (cur + sr * 0.1)) = true.
Proof.
  intros Hc Hs. unfold Py.min.
  destruct (PrimFloat.ltb (cur + sr * 0.1) 1) eqn:Hlt; [|reflexivity].
  unfold Py.in_unit. rewrite andb_true_iff, !leb_spec. split.
  - change (Prim2SF 0) with (S754_zero false). apply leb_zero_nonneg.
    rewrite add_spec, mul_spec.
    apply SFadd_nonneg; [now apply in_unit_fin_nonneg|].
    apply SFmul_nonneg; [now apply in_unit_fin_nonneg|].
    vm_compute. reflexivity.
  - rewrite ltb_spec in Hlt. now apply ltb_leb.
Qed.

End Binary64.

#[global] Instance method_bind {St} : MBind (Py.method St) :=
  fun A B k m => Py.and_then m k.

(** ** The dictionary that [process_query] returns *)
Module Wire.

(** The keys are those of the prompt's JSON shapes; a key may be absent. *)
Record Response := mkResponse {
  query_type : option string;
  response : option string;
  level : option string;
  learning_style : option (list string);
  emphasis : option (list string);
  knowledge_gaps : option (list string);
  connections : option (list string);
  tailored_instruction : option string;
  tailored_query : option string;
  personalized_greeting : option string
}.

(** [{"query_type": qt, "response": text}]. *)
Definition direct (qt text : string) : Response :=
  mkResponse (Some qt) (Some text) None None None None None None None None.

(** What the text-generation collaborator did when called. *)
Inductive chain_outcome :=
| chain_raises
| chain_returns (text : string).

Definition run (o : chain_outcome) : Py.result string :=
  match o with
  | chain_raises => Py.Raise Py.CollaboratorError
  | chain_returns text => Py.Ok text
  end.

End Wire.

(** ** advanced_personalization_agent.py *)
Module AdvancedAgent.

(** An entry of [profile['knowledge_areas']]. *)
Record KnowledgeArea := mkArea {
  proficiency : float;
  interactions : Z;
  last_practiced : string
}.

(** The [interaction_data] dictionary: the keys the agent reads may be
    absent; [timestamp] is set by [track_learning_progress]. *)
Record Interaction := mkInteraction {
  topic : option string;
  success_rate : option float;
  timestamp : string
}.

(** The parts of the profile that [track_learning_progress] reads or
    writes. *)
Record Profile := mkProfile {
  knowledge_areas : gmap string KnowledgeArea;
  learning_history : list Interaction;
  learning_velocity : float;
  updated_at : string
}.

(** The same parts of the profile that [get_advanced_user_profile] builds
    for a user without a stored one. *)
Definition new_user_profile (now : string) : Profile :=
  mkProfile ∅ [] 0.5 now.

Definition learning_rate : float := 0.1.

(** [interaction.get('success_rate', 0.5)]. *)
Definition rate_of (i : Interaction) : float :=
  default 0.5%float (success_rate i).

(** The knowledge-area part of [track_learning_progress] for a topic that
    is not the empty string. *)
Definition update_area (now : string) (sr : float)
    (areas : gmap string KnowledgeArea) (t : string)
    : gmap string KnowledgeArea :=
  let area := default (mkArea 0.1 0 now) (areas !! t) in
  <[t := mkArea (Py.min 1 (proficiency area + sr * learning_rate))
                (interactions area + 1) now]> areas.

(** The mean that the agent stores as the learning velocity. *)
Definition avg_success (recent : list Interaction) : float :=
  (Py.sum (map rate_of recent) / Py.float_of_nat (length recent))%float.

Definition track_learning_progress (now : string) (profile : Profile)
    (interaction_data : Interaction) : Profile :=
  let entry := mkInteraction (topic interaction_data)
                 (success_rate interaction_data) now in
  let history := learning_history profile ++ [entry] in
  let t := default "" (topic interaction_data) in
  let sr := rate_of interaction_data in
  let areas :=
    if String.eqb t "" then knowledge_areas profile
    else update_area now sr (knowledge_areas profile) t in
  let recent_interactions := Py.last_n 10 history in
  let velocity :=
    if (5 <=? length recent_interactions)%nat
    then avg_success recent_interactions
    else learning_velocity profile in
  mkProfile areas history velocity now.

(** A sequence of calls, each on the profile the previous one saved. *)
Definition track_all (now : string) (profile : Profile)
    (calls : list Interaction) : Profile :=
  fold_left (track_learning_progress now) calls profile.

(** Every knowledge area has a proficiency within [0, 1]. *)
Definition proficiencies_in_unit (p : Profile) : Prop :=
  map_Forall (fun _ a => Py.in_unit (proficiency a) = true)
             (knowledge_areas p).

(** Every success rate given in a call lies within [0, 1]. *)
Definition rates_in_unit (calls : list Interaction) : Prop :=
  Forall (fun i => Py.in_unit (rate_of i) = true) calls.

(** *** The stored dictionary *)

(** [default_profile] of [get_advanced_user_profile]. *)
Definition default_profile (user_id now : string)
    : list (string * Py.json) :=
  [ ("user_id", Py.JStr user_id);
    ("created_at", Py.JStr now);
    ("updated_at", Py.JStr now);
    ("coding_style", Py.JDict
       [ ("preferred_naming", Py.JStr "camelCase");
         ("indentation", Py.JStr "spaces");
         ("comment_frequency", Py.JStr "moderate");
         ("function_length_preference", Py.JStr "short");
         ("error_handling_style", Py.JStr "try-catch");
         ("preferred_paradigm", Py.JStr "mixed") ]);
    ("learning_preferences", Py.JDict
       [ ("primary_style", Py.JStr "hands_on");
         ("secondary_style", Py.JStr "example_based");
         ("explanation_depth", Py.JStr "detailed");
         ("prefers_visual_aids", Py.JBool true);
         ("learns_best_with",
          Py.JList [Py.JStr "examples"; Py.JStr "practice";
                    Py.JStr "feedback"]) ]);
    ("knowledge_areas", Py.JDict []);
    ("project_contexts", Py.JDict []);
    ("learning_history", Py.JList []);
    ("skill_progression", Py.JDict
       [ ("overall_level", Py.JStr "beginner");
         ("areas_of_strength", Py.JList []);
         ("areas_for_improvement", Py.JList []);
         ("learning_velocity", Py.JFloat 0.5) ]);
    ("interaction_patterns", Py.JDict
       [ ("most_active_times", Py.JList []);
         ("preferred_session_length", Py.JStr "30min");
         ("feedback_receptivity", Py.JStr "high");
         ("challenge_tolerance", Py.JStr "moderate") ]) ].

(** The loop [for key, value in default_profile.items(): if key not in
    existing_profile: existing_profile[key] = value]. *)
Definition merge_defaults (defaults : list (string * Py.json))
    (existing_profile : gmap string Py.json) : gmap string Py.json :=
  fold_left
    (fun existing kv =>
       match existing !! kv.1 with
       | Some _ => existing
       | None => <[kv.1 := kv.2]> existing
       end)
    defaults existing_profile.

(** [get_advanced_user_profile]; [stored] is the dictionary read from the
    profile file, [None] when the file is missing or cannot be read. *)
Definition get_advanced_user_profile (user_id now : string)
    (stored : option (gmap string Py.json)) : gmap string Py.json :=
  match stored with
  | Some existing_profile =>
      merge_defaults (default_profile user_id now) existing_profile
  | None => list_to_map (default_profile user_id now)
  end.

(** The history entry that a call appends. *)
Definition stamp (now : string) (i : Interaction) : Interaction :=
  mkInteraction (topic i) (success_rate i) now.

(** The scenario of a single interaction on "recursion" at rate 0.5. *)
Definition recursion_half : Interaction :=
  mkInteraction (Some "recursion") (Some 0.5%float) "".

Definition full_marks : Interaction :=
  mkInteraction (Some "recursion") (Some 1%float) "".

(** *** One call *)

Example second_interaction_on_recursion :
  proficiency <$>
    (knowledge_areas
       (track_all "" (new_user_profile "") [recursion_half; full_marks])
       !! "recursion")
  = Some 0.25%float.
Proof. reflexivity. Qed.

Example tenth_full_mark_is_clamped :
  proficiency <$>
    (knowledge_areas
       (track_all "" (new_user_profile "") (repeat full_marks 10))
       !! "recursion")
  = Some 1%float.
Proof. reflexivity. Qed.

Lemma track_knowledge_areas now p d :
  knowledge_areas (track_learning_progress now p d) =
  if String.eqb (default "" (topic d)) "" then knowledge_areas p
  else update_area now (rate_of d) (knowledge_areas p) (default "" (topic d)).
Proof. reflexivity. Qed.

Lemma track_history now p d :
  learning_history (track_learning_progress now p d) =
  learning_history p ++ [stamp now d].
Proof. reflexivity. Qed.

Lemma track_velocity now p d :
  learning_velocity (track_learning_progress now p d) =
  let recent := Py.last_n 10 (learning_history p ++ [stamp now d]) in
  if (5 <=? length recent)%nat then avg_success recent
  else learning_velocity p.
Proof. reflexivity. Qed.

Lemma track_all_snoc now p calls d :
  track_all now p (calls ++ [d]) =
  track_learning_progress now (track_all now p calls) d.
Proof. unfold track_all. now rewrite fold_left_app. Qed.

Lemma update_area_in_unit now sr areas t :
  map_Forall (fun _ a => Py.in_unit (proficiency a) = true) areas ->
  Py.in_unit sr = true ->
  map_Forall (fun _ a => Py.in_unit (proficiency a) = true)
             (update_area now sr areas t).
Proof.
  intros Hareas Hsr. unfold update_area.
  apply map_Forall_insert_2; [|exact Hareas]. simpl.
  apply Binary64.update_in_unit; [|exact Hsr].
  destruct (areas !! t) as [a|] eqn:Ht; simpl.
  - exact (Hareas t a Ht).
  - reflexivity.
Qed.

Lemma track_in_unit now p d :
  proficiencies_in_unit p -> Py.in_unit (rate_of d) = true ->
  proficiencies_in_unit (track_learning_progress now p d).
Proof.
  unfold proficiencies_in_unit. intros Hp Hd.
  rewrite track_knowledge_areas.
  destruct (String.eqb _ _); [exact Hp|].
  now apply update_area_in_unit.
Qed.

Lemma track_all_in_unit now calls : forall p,
  proficiencies_in_unit p -> rates_in_unit calls ->
  proficiencies_in_unit (track_all now p calls).
Proof.
  induction calls as [|d calls IH]; intros p Hp Hcalls; [exact Hp|].
  apply Forall_cons in Hcalls as [Hd Hcalls].
  apply IH; [|exact Hcalls]. now apply track_in_unit.
Qed.

Lemma track_all_history now calls : forall p,
  learning_history (track_all now p calls) =
  learning_history p ++ map (stamp now) calls.
Proof.
  induction calls as [|d calls IH]; intros p; simpl.
  - now rewrite app_nil_r.
  - unfold track_all in *. simpl. rewrite IH, track_history.
    now rewrite <- app_assoc.
Qed.

Lemma last_n_length {A} n (l : list A) :
  length (Py.last_n n l) = Nat.min n (length l).
Proof. unfold Py.last_n. rewrite length_skipn. lia. Qed.

(** *** Sequences of calls *)

(** C1: starting from proficiencies within [0, 1], every prefix of a
    sequence of [track_learning_progress] calls whose success rates lie
    within [0, 1] leaves the proficiency of every knowledge area within
    [0, 1]. *)
Theorem proficiency_in_unit_after_every_step now p calls n :
  proficiencies_in_unit p -> rates_in_unit calls ->
  proficiencies_in_unit (track_all now p (take n calls)).
Proof.
  intros Hp Hcalls. apply track_all_in_unit; [exact Hp|].
  now apply Forall_take.
Qed.

Lemma proficiency_in_unit_after_every_step_witness :
  proficiencies_in_unit
    (track_all "" (new_user_profile "") (take 2 [recursion_half; full_marks])).
Proof.
  apply (proficiency_in_unit_after_every_step "" (new_user_profile "")
           [recursion_half; full_marks] 2).
  - apply map_Forall_empty.
  - repeat constructor.
Defined.

(** C2, as stated, fails on binary64: after the single interaction on
    "recursion" at rate 0.5 the stored proficiency does not compare equal
    to 0.15. *)
Lemma first_interaction_not_exactly_0_15 :
  ~ exists a,
      knowledge_areas
        (track_learning_progress "" (new_user_profile "") recursion_half)
        !! "recursion" = Some a
      /\ PrimFloat.eqb (proficiency a) 0.15 = true
      /\ interactions a = 1.
Proof.
  intros (a & Ha & Heq & _).
  vm_compute in Ha. injection Ha as <-.
  vm_compute in Heq. discriminate.
Qed.

(** C2, amended: a call on a topic without a knowledge area creates the
    area at base proficiency 0.1 with no interaction, then counts the
    interaction and applies the additive update, so that interactions = 1
    and proficiency = min(1.0, 0.1 + success_rate * 0.1) in binary64; at
    success_rate 0.5 this float is 0.15000000000000002, less than 1e-16
    away from 0.15. *)
Theorem first_interaction_on_new_topic now p t sr ts :
  knowledge_areas p !! t = None -> t <> "" ->
  let a := mkArea (Py.min 1 (0.1 + sr * learning_rate)) 1 now in
  knowledge_areas
    (track_learning_progress now p (mkInteraction (Some t) (Some sr) ts))
    !! t = Some a
  /\ (sr = 0.5%float ->
      proficiency a = 0.15000000000000002%float
      /\ PrimFloat.ltb (PrimFloat.abs (proficiency a - 0.15)) 1e-16 = true).
Proof.
  intros Hnew Ht a. split.
  - rewrite track_knowledge_areas. simpl.
    destruct (String.eqb t "") eqn:E; [apply String.eqb_eq in E; contradiction|].
    unfold update_area, rate_of. rewrite Hnew. simpl.
    now rewrite lookup_insert_eq.
  - intros ->. split; reflexivity.
Qed.

Lemma first_interaction_on_new_topic_witness :
  knowledge_areas
    (track_learning_progress "" (new_user_profile "") recursion_half)
    !! "recursion" = Some (mkArea 0.15000000000000002 1 "").
Proof.
  apply (first_interaction_on_new_topic "" (new_user_profile "")
           "recursion" 0.5%float "").
  - reflexivity.
  - discriminate.
Defined.

(** C7, as stated, fails: after three recorded interactions, all at
    success rate 1.0, three samples exist and their mean is 1.0, yet the
    learning velocity is still the default 0.5. *)
Lemma velocity_not_updated_at_three_samples :
  let p := track_all "" (new_user_profile "")
             [full_marks; full_marks; full_marks] in
  length (learning_history p) = 3%nat
  /\ avg_success (Py.last_n 10 (learning_history p)) = 1%float
  /\ learning_velocity p = 0.5%float
  /\ PrimFloat.eqb (learning_velocity p)
       (avg_success (Py.last_n 10 (learning_history p))) = false.
Proof. vm_compute. repeat split; reflexivity. Qed.

(** C7, amended: after a sequence of calls the learning velocity is
    sum/len of the success rates (0.5 where a call gave none) over the last
    10 entries of the learning history, the newest included, as soon as
    that history has at least 5 entries; until then, and when no call was
    made, it keeps its previous value (0.5 for a new profile). *)
Theorem velocity_after_calls now p calls :
  learning_velocity (track_all now p calls) =
  let history := learning_history p ++ map (stamp now) calls in
  if (length calls =? 0)%nat || (length history <? 5)%nat
  then learning_velocity p
  else avg_success (Py.last_n 10 history).
Proof.
  induction calls as [|d calls IH] using rev_ind; [reflexivity|].
  rewrite track_all_snoc, track_velocity, track_all_history. cbv zeta.
  rewrite map_app, app_assoc. simpl map.
  rewrite last_n_length, !length_app. simpl length.
  replace (length calls + 1 =? 0)%nat with false
    by (symmetry; apply Nat.eqb_neq; lia).
  simpl orb.
  destruct (Nat.leb_spec 5
    (Nat.min 10 (length (learning_history p) + length (map (stamp now) calls) + 1)))
    as [Hge|Hlt];
  destruct (Nat.ltb_spec
    (length (learning_history p) + length (map (stamp now) calls) + 1) 5)
    as [Hlt'|Hge']; try lia; try reflexivity.
  rewrite IH. cbv zeta. rewrite length_app.
  destruct (length calls =? 0)%nat; [reflexivity|]. simpl orb.
  destruct (Nat.ltb_spec
    (length (learning_history p) + length (map (stamp now) calls)) 5);
    [reflexivity|lia].
Qed.

(** *** Loading a stored profile *)

Lemma merge_defaults_union defaults : forall existing,
  merge_defaults defaults existing = existing ∪ list_to_map defaults.
Proof.
  induction defaults as [|[k v] defaults IH]; intros existing; simpl.
  - now rewrite (right_id_L ∅ (∪)).
  - unfold merge_defaults in *. simpl. rewrite IH.
    destruct (existing !! k) as [w|] eqn:Hk.
    + apply map_eq. intros i. rewrite !lookup_union.
      destruct (decide (k = i)) as [<-|Hne].
      * rewrite Hk, lookup_insert_eq.
        now destruct (list_to_map defaults !! k).
      * now rewrite lookup_insert_ne.
    + now rewrite <- insert_union_l, insert_union_r.
Qed.

(** *** Further properties of [track_learning_progress] *)







(** X2: whatever the stored proficiency and the success rate are (negative,
    infinite or not a number), the proficiency that a call writes compares
    at most 1.0, hence is not NaN; nothing bounds it from below. *)
Theorem written_proficiency_at_most_one :
  (forall now sr areas t a,
     update_area now sr areas t !! t = Some a ->
     PrimFloat.leb (proficiency a) 1 = true)
  /\ exists sr a,
       update_area "" sr ∅ "recursion" !! "recursion" = Some a
       /\ PrimFloat.ltb (proficiency a) 0 = true.
Proof.
  split.
  - intros now sr areas t a. unfold update_area.
    rewrite lookup_insert_eq. intros [= <-]. simpl. unfold Py.min.
    destruct (PrimFloat.ltb _ 1) eqn:Hlt; [|reflexivity].
    rewrite ltb_spec in Hlt. rewrite leb_spec. now apply Binary64.ltb_leb.
  - exists (-20)%float. eexists. split; reflexivity.
Qed.

(** X3: the learning history is append-only: a sequence of calls adds one
    entry per call, in order and stamped with the time of the call, also for
    a call without a topic, and no earlier entry is ever dropped. *)
Theorem history_is_append_only now p calls :
  learning_history (track_all now p calls)
  = learning_history p ++ map (stamp now) calls
  /\ length (learning_history (track_all now p calls))
     = (length (learning_history p) + length calls)%nat.
Proof.
  rewrite track_all_history. split; [reflexivity|].
  now rewrite length_app, length_map.
Qed.

(** *** Further properties of [get_advanced_user_profile] *)

Lemma default_profile_keys user_id now :
  dom (list_to_map (default_profile user_id now) : gmap string Py.json)
  = list_to_set (default_profile "" "").*1.
Proof. rewrite dom_list_to_map_L. f_equal. Qed.

(** X4: a loaded profile holds every key of the default, so that
    [profile['knowledge_areas']] and the like cannot be missing, and loading
    what was loaded before adds nothing, at whatever later time. *)
Theorem loaded_profile_is_complete user_id now later
    (stored : gmap string Py.json) :
  (forall k, k ∈ (default_profile user_id now).*1 ->
     is_Some (get_advanced_user_profile user_id now (Some stored) !! k))
  /\ get_advanced_user_profile user_id later
       (Some (get_advanced_user_profile user_id now (Some stored)))
     = get_advanced_user_profile user_id now (Some stored).
Proof.
  unfold get_advanced_user_profile. rewrite !merge_defaults_union. split.
  - intros k Hk. apply elem_of_dom. rewrite dom_union_L, dom_list_to_map_L.
    apply elem_of_union_r. now apply elem_of_list_to_set.
  - pose proof (default_profile_keys user_id now) as Hnow.
    pose proof (default_profile_keys user_id later) as Hlater.
    set (D1 := list_to_map (default_profile user_id now)) in *.
    set (D2 := list_to_map (default_profile user_id later)) in *.
    apply map_eq. intros k. rewrite !lookup_union.
    destruct (stored !! k) as [v|]; simpl.
    + now destruct (D1 !! k), (D2 !! k).
    + destruct (D1 !! k) as [v|] eqn:Hk; simpl.
      * now destruct (D2 !! k).
      * apply not_elem_of_dom in Hk. rewrite Hnow, <- Hlater in Hk.
        apply not_elem_of_dom in Hk. now rewrite Hk.
Qed.

End AdvancedAgent.

(** ** enhanced_learning_agent.py *)
Module EnhancedAgent.

(** [_create_enhanced_profile]. *)
Definition _create_enhanced_profile (now : string)
    : list (string * Py.json) :=
  [ ("created_at", Py.JStr now);
    ("updated_at", Py.JStr now);
    ("interactions_count", Py.JInt 0);
    ("skill_level", Py.JStr "beginner");
    ("learning_style", Py.JList [Py.JStr "visual"]);
    ("knowledge_areas", Py.JDict []);
    ("coding_patterns", Py.JDict
       [ ("preferred_languages", Py.JList []);
         ("common_mistakes", Py.JList []);
         ("improvement_areas", Py.JList []);
         ("coding_style_preferences", Py.JDict []) ]);
    ("learning_progress", Py.JDict []);
    ("session_history", Py.JList []);
    ("personalization_data", Py.JDict
       [ ("explanation_complexity_preference", Py.JStr "simple");
         ("feedback_frequency", Py.JStr "moderate");
         ("preferred_learning_path", Py.JStr "structured") ]);
    ("performance_metrics", Py.JDict
       [ ("code_understanding_score", Py.JFloat 0);
         ("problem_solving_speed", Py.JFloat 0);
         ("concept_retention", Py.JFloat 0) ]);
    ("adaptive_recommendations", Py.JList []) ].

(** The keys that [_migrate_profile_structure] carries over. *)
Definition migrated_keys : list string :=
  ["created_at"; "interactions_count"; "skill_level"; "knowledge_areas";
   "session_history"].

(** [for key in keys: if key in old_profile: enhanced_profile[key] =
    old_profile[key]]. *)
Definition copy_keys (keys : list string) (old_profile : gmap string Py.json)
    (enhanced_profile : gmap string Py.json) : gmap string Py.json :=
  fold_left
    (fun enhanced key =>
       match old_profile !! key with
       | Some v => <[key := v]> enhanced
       | None => enhanced
       end)
    keys enhanced_profile.

(** The new profile as a dictionary. *)
Definition schema_default (now : string) : gmap string Py.json :=
  list_to_map (_create_enhanced_profile now).

Definition _migrate_profile_structure (now : string)
    (old_profile : gmap string Py.json) : gmap string Py.json :=
  let enhanced_profile := schema_default now in
  let enhanced_profile := copy_keys migrated_keys old_profile enhanced_profile in
  <["updated_at" := Py.JStr now]> enhanced_profile.

(** A stored profile that names a learning style of its own. *)
Definition textual_learner : gmap string Py.json :=
  {[ "learning_style" := Py.JList [Py.JStr "textual"] ]}.

Lemma copy_keys_lookup keys old : forall enhanced k,
  copy_keys keys old enhanced !! k =
  if decide (k ∈ keys)
  then from_option Some (enhanced !! k) (old !! k)
  else enhanced !! k.
Proof.
  induction keys as [|key keys IH]; intros enhanced k.
  - simpl. destruct (decide (k ∈ [])) as [H|H]; [|reflexivity].
    now apply elem_of_nil in H.
  - unfold copy_keys in *. simpl. rewrite IH.
    destruct (decide (k = key)) as [->|Hne].
    + rewrite (decide_True (P := key ∈ key :: keys)) by apply list_elem_of_here.
      destruct (old !! key) as [v|] eqn:Hold; simpl.
      * rewrite lookup_insert_eq. now case_decide.
      * now case_decide.
    + assert (Hiff : k ∈ key :: keys <-> k ∈ keys)
        by (rewrite elem_of_cons; tauto).
      assert (Hlk : (match old !! key with
                     | Some v => <[key:=v]> enhanced
                     | None => enhanced
                     end) !! k = enhanced !! k)
        by (destruct (old !! key); [now rewrite lookup_insert_ne|reflexivity]).
      rewrite Hlk.
      destruct (decide (k ∈ keys)) as [Hin|Hnin].
      * now rewrite decide_True by now apply Hiff.
      * now rewrite decide_False by now rewrite Hiff.
Qed.

Example migration_of_textual_learner :
  textual_learner !! "learning_style" = Some (Py.JList [Py.JStr "textual"])
  /\ _migrate_profile_structure "" textual_learner !! "learning_style"
     = Some (Py.JList [Py.JStr "visual"]).
Proof. split; reflexivity. Qed.

(** C9, as stated, fails for [_migrate_profile_structure]: not every
    stored key keeps its value, since a stored learning style is replaced
    by the schema default. *)
Lemma migration_overwrites_learning_style :
  ~ (forall (now : string) (stored : gmap string Py.json) k v,
       stored !! k = Some v ->
       _migrate_profile_structure now stored !! k = Some v).
Proof.
  intros H.
  specialize (H "" textual_learner "learning_style" _ eq_refl).
  vm_compute in H. discriminate.
Qed.

(** C9, amended: [get_advanced_user_profile] keeps every stored top-level
    key with its value and adds exactly the top-level keys of the default
    that are missing (nothing is merged below the top level), whereas
    [_migrate_profile_structure] starts from the schema default, refreshes
    [updated_at], and keeps the stored value of five keys only:
    created_at, interactions_count, skill_level, knowledge_areas and
    session_history. *)
Theorem migration_frame (user_id now : string)
    (stored old_profile : gmap string Py.json) :
  AdvancedAgent.get_advanced_user_profile user_id now (Some stored)
    = stored ∪ list_to_map (AdvancedAgent.default_profile user_id now)
  /\ forall k : string,
       _migrate_profile_structure now old_profile !! k =
       if decide (k = "updated_at") then Some (Py.JStr now)
       else if decide (k ∈ migrated_keys)
            then from_option Some (schema_default now !! k)
                   (old_profile !! k)
            else schema_default now !! k.
Proof.
  split.
  - apply AdvancedAgent.merge_defaults_union.
  - intros k. unfold _migrate_profile_structure.
    destruct (decide (k = "updated_at")) as [->|Hne].
    + now rewrite lookup_insert_eq.
    + rewrite lookup_insert_ne by congruence. apply copy_keys_lookup.
Qed.

(** *** Further properties of [_migrate_profile_structure] *)

(** The twelve keys of the enhanced profile. *)
Definition schema_keys : list string := (_create_enhanced_profile "").*1.

Lemma schema_default_dom now :
  dom (schema_default now) = list_to_set schema_keys.
Proof. unfold schema_default. rewrite dom_list_to_map_L. f_equal. Qed.

Lemma migrated_keys_in_schema now k :
  k ∈ migrated_keys -> is_Some (schema_default now !! k).
Proof.
  intros Hk. apply elem_of_dom. rewrite schema_default_dom.
  apply elem_of_list_to_set. unfold migrated_keys in Hk.
  unfold schema_keys. simpl.
  rewrite !elem_of_cons in Hk. rewrite !elem_of_cons.
  rewrite elem_of_nil in Hk. intuition subst; tauto.
Qed.

Lemma schema_default_lookup_time now later k :
  k <> "created_at" -> k <> "updated_at" ->
  schema_default now !! k = schema_default later !! k.
Proof.
  intros Hc Hu. unfold schema_default, _create_enhanced_profile.
  rewrite !(list_to_map_cons _ "created_at"),
          !(list_to_map_cons _ "updated_at").
  now rewrite !lookup_insert_ne by congruence.
Qed.

Lemma migrate_lookup now old k :
  k <> "updated_at" ->
  _migrate_profile_structure now old !! k
  = if decide (k ∈ migrated_keys)
    then from_option Some (schema_default now !! k) (old !! k)
    else schema_default now !! k.
Proof.
  intros Hne. unfold _migrate_profile_structure.
  rewrite lookup_insert_ne by congruence. apply copy_keys_lookup.
Qed.

(** X5: whatever was stored, the migrated profile has exactly the twelve
    keys of the enhanced schema: a missing key is filled in and a key
    outside the schema is dropped. *)
Theorem migrated_profile_has_the_schema_keys now
    (old_profile : gmap string Py.json) :
  dom (_migrate_profile_structure now old_profile) = list_to_set schema_keys.
Proof.
  rewrite <- (schema_default_dom now). apply set_eq. intros k.
  rewrite !elem_of_dom.
  destruct (decide (k = "updated_at")) as [->|Hne].
  - unfold _migrate_profile_structure. rewrite lookup_insert_eq.
    split; [intros _|eauto].
    apply elem_of_dom. rewrite schema_default_dom.
    apply elem_of_list_to_set. unfold schema_keys. simpl.
    rewrite !elem_of_cons. tauto.
  - rewrite migrate_lookup by assumption.
    destruct (decide (k ∈ migrated_keys)) as [Hin|Hnin]; [|reflexivity].
    pose proof (migrated_keys_in_schema now k Hin) as Hsome.
    destruct (old_profile !! k); simpl; [split; eauto|reflexivity].
Qed.

(** X6: loading a migrated profile again changes nothing but [updated_at]. *)
Theorem second_migration_only_refreshes_updated_at now later
    (old_profile : gmap string Py.json) k :
  k <> "updated_at" ->
  _migrate_profile_structure later
    (_migrate_profile_structure now old_profile) !! k
  = _migrate_profile_structure now old_profile !! k.
Proof.
  intros Hne. rewrite (migrate_lookup later) by assumption.
  destruct (decide (k ∈ migrated_keys)) as [Hin|Hnin].
  - assert (Hsome : is_Some (_migrate_profile_structure now old_profile !! k)).
    { rewrite (migrate_lookup now) by assumption.
      rewrite decide_True by assumption.
      destruct (old_profile !! k); simpl; [eauto|].
      now apply migrated_keys_in_schema. }
    destruct Hsome as [v ->]. reflexivity.
  - rewrite (migrate_lookup now) by assumption.
    rewrite decide_False by assumption.
    apply schema_default_lookup_time; [|assumption].
    intros ->. apply Hnin. unfold migrated_keys. apply list_elem_of_here.
Qed.

Lemma second_migration_only_refreshes_updated_at_witness :
  _migrate_profile_structure "later"
    (_migrate_profile_structure "now" textual_learner) !! "created_at"
  = _migrate_profile_structure "now" textual_learner !! "created_at".
Proof.
  apply (second_migration_only_refreshes_updated_at "now" "later"
           textual_learner "created_at").
  discriminate.
Defined.

(** *** [_check_indentation_consistency] *)

(** [len(line) - len(line.lstrip())]. *)
Definition indent_of (line : string) : nat :=
  String.length line - String.length (Py.lstrip line).

(** [if line.strip():] fails. *)
Definition is_blank (line : string) : bool := String.eqb (Py.strip line) "".

Definition indent_sizes (lines : list string) : list nat :=
  List.filter (fun indent => (0 <? indent)%nat)
    (map indent_of (List.filter (fun line => negb (is_blank line)) lines)).

Definition _check_indentation_consistency (lines : list string) : float :=
  match indent_sizes lines with
  | [] => 10
  | sizes =>
      if forallb (fun indent =>
                    (indent mod 2 =? 0)%nat || (indent mod 4 =? 0)%nat) sizes
      then 10 else 5
  end.

Lemma even_or_multiple_of_four (n : nat) :
  ((n mod 2 =? 0) || (n mod 4 =? 0))%nat = Nat.even n.
Proof.
  destruct (Nat.even n) eqn:He.
  - apply Nat.even_spec in He. destruct He as [m ->].
    replace (2 * m mod 2)%nat with 0%nat; [reflexivity|].
    symmetry. apply Nat.Div0.mod_divides. now exists m.
  - apply orb_false_iff. split; apply Nat.eqb_neq; intros H0.
    + apply Nat.Div0.mod_divides in H0 as [m ->].
      rewrite Nat.even_mul in He. discriminate.
    + apply Nat.Div0.mod_divides in H0 as [m ->].
      rewrite Nat.even_mul in He. discriminate.
Qed.

(** X7: the score is 10.0 exactly when every line that is not blank is
    indented by an even number of characters, and 5.0 otherwise: the
    multiple-of-four test adds nothing, so that code mixing indents of two
    and of four still counts as consistent. *)
Theorem indentation_score_is_parity lines :
  _check_indentation_consistency lines
  = if forallb (fun line => is_blank line || Nat.even (indent_of line)) lines
    then 10%float else 5%float.
Proof.
  unfold _check_indentation_consistency, indent_sizes.
  assert (H : forallb
                (fun indent => (indent mod 2 =? 0)%nat || (indent mod 4 =? 0)%nat)
                (List.filter (fun indent => (0 <? indent)%nat)
                   (map indent_of
                      (List.filter (fun line => negb (is_blank line)) lines)))
              = forallb (fun line => is_blank line || Nat.even (indent_of line))
                  lines).
  { induction lines as [|line lines IH]; [reflexivity|].
    cbn [List.filter forallb].
    destruct (is_blank line); cbn [negb orb andb map List.filter];
      [exact IH|].
    destruct (Nat.ltb_spec 0 (indent_of line)) as [Hpos|Hzero];
      cbn [forallb].
    - now rewrite even_or_multiple_of_four, IH.
    - replace (indent_of line) with 0%nat by lia. exact IH. }
  rewrite <- H.
  destruct (List.filter _ (map indent_of _)); [reflexivity|].
  reflexivity.
Qed.

Example two_and_four_spaces_pass :
  _check_indentation_consistency
    ["if (x) {"; "  y();"; "    z();"; "}"] = 10%float
  /\ _check_indentation_consistency ["if (x) {"; "   y();"; "}"] = 5%float.
Proof. split; reflexivity. Qed.

End EnhancedAgent.

(** ** personalization_agent.py: the agent that keeps profiles in Supabase *)
Module DbAgent.
Import Wire.

Record SessionEntry := mkEntry {
  entry_timestamp : string;
  entry_query : string;
  entry_query_type : string;
  inferred_level : option string;
  inferred_learning_styles : option (list string);
  entry_topic : option string
}.

Record FeedbackEntry := mkFeedback {
  feedback_timestamp : string;
  feedback_query : string;
  was_helpful : bool;
  feedback_text : option string
}.

(** The keys of [self.user_profile] that the agent reads or writes; the
    keys it looks up with [get] or guards with [in] may be absent. *)
Record Profile := mkProfile {
  name : option string;
  interactions_count : Z;
  skill_level : string;
  preferred_learning_styles : list string;
  interaction_types : option (gmap string Z);
  session_history : list SessionEntry;
  feedback : option (list FeedbackEntry)
}.

Definition common_topics : list string :=
  ["algorithms"; "data structures"; "programming"; "mathematics";
   "physics"; "chemistry"; "biology"; "machine learning"].

Definition _infer_topic (query : string) : string :=
  default "general"
    (List.find (fun topic => Py.contains (Py.lower topic) (Py.lower query))
       common_topics).

Definition greetings : list string :=
  ["hi"; "hello"; "hey"; "howdy"; "greetings";
   "how are you"; "what's up"; "good morning"; "good afternoon";
   "good evening"; "good day"; "nice to meet you"].

Definition _is_greeting_or_casual (query : string) : bool :=
  Py.any_in greetings (Py.lower query).

Definition memory_keywords : list string :=
  ["memory"; "remember"; "know about me"; "tell me about myself";
   "what do you know"; "profile"; "information about me";
   "who am i"; "about me"; "my information"; "what's in your memory";
   "do you remember me"; "what do you remember"; "my details"; "my data";
   "my goals"; "what are my goals"; "my learning goals"; "my objectives";
   "my skills"; "what are my skills"; "my interests"; "my preferences";
   "my background"; "my experience"; "my education"; "my job"; "my work"].

Definition _is_profile_or_memory_query (query : string) : bool :=
  Py.any_in memory_keywords (Py.lower query).

Definition non_educational_keywords : list string :=
  ["who are you"; "what are you"; "your name"; "tell me about yourself";
   "how do you work"; "what can you do"; "your capabilities"; "help me";
   "weather"; "news"; "time"; "date"; "joke"; "thanks"; "thank you"].

Definition _is_non_educational (query : string) : bool :=
  Py.any_in non_educational_keywords (Py.lower query)
  && negb (_is_profile_or_memory_query query).

(** [for style in styles: if style not in preferred: preferred.append(style)]. *)
Definition add_styles (preferred styles : list string) : list string :=
  fold_left
    (fun acc style => if bool_decide (style ∈ acc) then acc else acc ++ [style])
    styles preferred.

(** The "Update skill level" block; [count] is the incremented
    interaction count and [lvl] is [response.get("level")]. *)
Definition update_skill_level (count : Z) (lvl : option string)
    (skill : string) : string :=
  if 50 <? count then
    if bool_decide (lvl = Some "advanced") then "advanced"
    else if bool_decide (lvl = Some "intermediate")
            && String.eqb skill "beginner"
         then "intermediate" else skill
  else if 20 <? count then
    if bool_decide (lvl = Some "intermediate") && String.eqb skill "beginner"
    then "intermediate" else skill
  else skill.

(** [interaction_types[query_type] += 1], creating what is missing. *)
Definition count_interaction_type (qt : string)
    (types : option (gmap string Z)) : option (gmap string Z) :=
  let m := default ∅ types in
  Some (<[qt := default 0 (m !! qt) + 1]> m).

Definition _update_profile_from_interaction (now : string) (p : Profile)
    (query : string) (r : Response) : Profile :=
  let count := interactions_count p + 1 in
  let qt := default "educational" (query_type r) in
  let educational := String.eqb qt "educational" in
  let session_entry :=
    if educational
    then mkEntry now query qt
           (Some (default "beginner" (level r)))
           (Some (default [] (learning_style r)))
           (Some (_infer_topic query))
    else mkEntry now query qt None None None in
  let styles :=
    if educational
    then add_styles (preferred_learning_styles p)
           (default [] (learning_style r))
    else preferred_learning_styles p in
  let skill :=
    if educational then update_skill_level count (level r) (skill_level p)
    else skill_level p in
  let types :=
    if bool_decide (qt ∈ ["greeting"; "non_educational"])
    then count_interaction_type qt (interaction_types p)
    else interaction_types p in
  mkProfile (name p) count skill styles types
    (session_history p ++ [session_entry]) (feedback p).

Definition provide_feedback (now : string) (p : Profile) (query : string)
    (helpful : bool) (text : option string) : Profile :=
  mkProfile (name p) (interactions_count p) (skill_level p)
    (preferred_learning_styles p) (interaction_types p) (session_history p)
    (Some (default [] (feedback p) ++ [mkFeedback now query helpful text])).

Definition greeting_response : Response :=
  direct "greeting" "Hello! How can I help you learn today?".

Definition non_educational_response : Response :=
  direct "non_educational"
    "I'm an AI educational assistant designed to help with your learning journey.".

(** What [json.loads] makes of the text between the braces, always an
    object. [shaped r]: its values have the types of the prompt's shapes.
    [scalar_learning_style r]: the value under "learning_style" is true or
    a number other than zero, which counts as true and cannot be iterated;
    the other values are those of [r]. Objects that are ill-typed in
    another way do not make the update raise and are left out: a number as
    level or as query_type is written into the session entry as it is, and
    a string as learning_style is iterated character by character. *)
Inductive decoded :=
| shaped (r : Response)
| scalar_learning_style (r : Response).

Definition fields (d : decoded) : Response :=
  match d with
  | shaped r => r
  | scalar_learning_style r => r
  end.

(** The profile when only [interactions_count += 1] has run. *)
Definition counted (p : Profile) : Profile :=
  mkProfile (name p) (interactions_count p + 1) (skill_level p)
    (preferred_learning_styles p) (interaction_types p) (session_history p)
    (feedback p).

(** The call [self._update_profile_from_interaction(query, response_dict)]
    as a method of the agent. For an educational answer whose
    learning_style cannot be iterated, [for style in
    response["learning_style"]] raises TypeError when the count has been
    incremented and nothing else has been written: the session entry is
    still a local variable. *)
Definition record (now query : string) (d : decoded)
    : Py.method Profile unit :=
  fun p =>
    match d with
    | shaped r => (_update_profile_from_interaction now p query r, Py.Ok tt)
    | scalar_learning_style r =>
        if String.eqb (default "educational" (query_type r)) "educational"
        then (counted p, Py.Raise Py.TypeError)
        else (_update_profile_from_interaction now p query r, Py.Ok tt)
    end.

Section ProcessQuery.

(** [json.loads]: [None] stands for [json.JSONDecodeError]. *)
Variable json_loads : string -> option decoded.

(** [_extract_topic_from_query], a total function on strings whose result
    only appears inside the greeting and instruction texts. *)
Variable _extract_topic_from_query : string -> string.

(** The text between the first opening and the last closing brace is
    decoded; without such a span a [ValueError] is raised. *)
Definition parse_response (text : string) : Py.result decoded :=
  let json_start := Py.find "{" text in
  let json_end := Py.rfind "}" text + 1 in
  if (0 <=? json_start) && (json_start <? json_end)
  then match json_loads (Py.slice text json_start json_end) with
       | Some response_dict => Py.Ok response_dict
       | None => Py.Raise Py.JSONDecodeError
       end
  else Py.Raise Py.ValueError.

(** The educational fallback of the [except json.JSONDecodeError] branch. *)
Definition default_response (p : Profile) (query : string) : Response :=
  let display_name := default "there" (name p) in
  let topic := _extract_topic_from_query query in
  let interaction_count := interactions_count p in
  let greeting :=
    if interaction_count =? 0 then
      "Hi " +:+ display_name +:+ "! Let's explore " +:+ topic
        +:+ " together - this is going to be interesting!"
    else if interaction_count <? 5 then
      "Great question, " +:+ display_name
        +:+ "! I love that you're curious about " +:+ topic +:+ "."
    else
      "Welcome back, " +:+ display_name +:+ "! Ready to dive into "
        +:+ topic +:+ "?" in
  mkResponse (Some "educational") None
    (Some (skill_level p))
    (Some (match preferred_learning_styles p with
           | [] => ["visual"; "textual"]
           | styles => styles
           end))
    (Some ["core concepts"]) (Some []) (Some [])
    (Some ("Explain the concept of " +:+ topic +:+ " clearly at a "
             +:+ skill_level p +:+ " level."))
    (Some query) (Some greeting).

(** The educational answer of the outer [except Exception] branch. *)
Definition basic_response (p : Profile) (query : string) : Response :=
  let user_name := default "there" (name p) in
  mkResponse (Some "educational") None
    (Some "beginner") (Some ["visual"; "textual"])
    (Some ["core concepts"]) (Some []) (Some [])
    (Some ("Explain the concept of " +:+ query
             +:+ " in a clear, straightforward manner."))
    (Some query)
    (Some ("Hi " +:+ user_name +:+ "! Let's explore " +:+ query
             +:+ " together!")).

(** The body of the outer [try]. *)
Definition process_query_body (now query : string) (llm : chain_outcome)
    : Py.method Profile Response :=
  if (length (Py.split query) <=? 3)%nat && _is_greeting_or_casual query
  then
    record now query (shaped greeting_response);;
    Py.returns greeting_response
  else
    text ← Py.lift (run llm);
    Py.attempt
      (response_dict ← Py.lift (parse_response text);
       record now query response_dict;;
       Py.returns (fields response_dict))
      Py.is_JSONDecodeError
      (p ← Py.read;
       Py.returns
         (if _is_greeting_or_casual query then greeting_response
          else if _is_non_educational query then non_educational_response
          else default_response p query)).

(** [process_query]: the answer and the profile the agent holds
    afterwards. The outer handler runs on the profile as the body left
    it. *)
Definition process_query (now : string) (p : Profile) (query : string)
    (llm : chain_outcome) : Py.result (Response * Profile) :=
  Py.outcome
    (Py.attempt (process_query_body now query llm) Py.is_Exception
       (p' ← Py.read;
        Py.returns
          (if _is_greeting_or_casual query then greeting_response
           else if _is_non_educational query then non_educational_response
           else basic_response p' query))
       p).

End ProcessQuery.

(** *** Skill level *)

(** A beginner with twenty recorded interactions. *)
Definition twenty_interactions : Profile :=
  mkProfile None 20 "beginner" [] None [] None.

(** An educational answer that reports the level [lvl]. *)
Definition reports_level (lvl : string) : Response :=
  mkResponse (Some "educational") None (Some lvl) None None None None None
    None None.

(** C3, as stated, fails: the skill level after an interaction is not a
    function of the profile alone, since two answers of the collaborator
    take the same profile to different levels. *)
Lemma skill_level_not_a_function_of_the_profile :
  ~ exists Compute : Profile -> string,
      forall now p query r,
        skill_level (_update_profile_from_interaction now p query r)
        = Compute p.
Proof.
  intros [Compute H].
  pose proof (H "" twenty_interactions "recursion"
                (reports_level "intermediate")) as H1.
  pose proof (H "" twenty_interactions "recursion"
                (reports_level "beginner")) as H2.
  rewrite <- H2 in H1. vm_compute in H1. discriminate.
Qed.

(** C3, amended: the skill level changes only when an educational answer
    is recorded, and by the level that answer reports. With n the
    incremented interactions_count, it becomes advanced exactly when
    n > 50 and the answer reports advanced, becomes intermediate exactly
    when n > 20, the answer reports intermediate and the level was
    beginner, and is otherwise left as it was; no success average is
    read. *)
Theorem skill_level_follows_reported_level now p query r :
  let p' := _update_profile_from_interaction now p query r in
  let n := interactions_count p + 1 in
  let educational := default "educational" (query_type r) = "educational" in
  interactions_count p' = n
  /\ skill_level p' =
     if bool_decide (educational /\ 50 < n /\ level r = Some "advanced")
     then "advanced"
     else if bool_decide (educational /\ 20 < n
                          /\ level r = Some "intermediate"
                          /\ skill_level p = "beginner")
          then "intermediate"
          else skill_level p.
Proof.
  intros p' n educational. split; [reflexivity|].
  subst p' n educational. simpl. unfold update_skill_level.
  destruct (String.eqb_spec (default "educational" (query_type r))
              "educational") as [Hq|Hq];
  destruct (Z.ltb_spec 50 (interactions_count p + 1));
  destruct (Z.ltb_spec 20 (interactions_count p + 1));
  destruct (String.eqb_spec (skill_level p) "beginner");
  repeat case_bool_decide; simpl; try reflexivity;
    exfalso; intuition (congruence || lia).
Qed.

(** *** Greetings *)

Example hello_is_a_greeting : _is_greeting_or_casual "Hello!" = true.
Proof. reflexivity. Qed.

Example recursion_is_no_greeting :
  _is_greeting_or_casual "explain recursion in python" = false.
Proof. reflexivity. Qed.

Example profile_question :
  _is_profile_or_memory_query "What do you know about me?" = true.
Proof. reflexivity. Qed.

(** C4 fails on the code: the quick greeting check looks for the greeting
    phrases anywhere in the query, so the one-word query "history" and the
    prompt's own educational example "explain machine learning" are
    answered as greetings without the collaborator being asked. *)
Theorem history_is_answered_as_a_greeting json_loads extract now p llm :
  _is_greeting_or_casual "history" = true
  /\ process_query json_loads extract now p "history" llm
     = Py.Ok (greeting_response,
              _update_profile_from_interaction now p "history"
                greeting_response)
  /\ process_query json_loads extract now p "explain machine learning" llm
     = Py.Ok (greeting_response,
              _update_profile_from_interaction now p
                "explain machine learning" greeting_response).
Proof. repeat split; reflexivity. Qed.

(** *** Failures of the collaborator *)

(** The quick check that answers a short greeting without the
    collaborator. *)
Definition quick_greeting (query : string) : bool :=
  (length (Py.split query) <=? 3)%nat && _is_greeting_or_casual query.

(** The answer that both [except] branches give by the content of the
    query, with [educational] for the remaining queries. *)
Definition by_content (query : string) (educational : Response) : Response :=
  if _is_greeting_or_casual query then greeting_response
  else if _is_non_educational query then non_educational_response
  else educational.

(** The update raises nothing but the TypeError of the loop. *)
Lemma record_raises now query d p p' e :
  record now query d p = (p', Py.Raise e) -> e = Py.TypeError.
Proof.
  unfold record. destruct d as [r|r]; [discriminate|].
  destruct (String.eqb _ "educational"); [|discriminate].
  now intros [= _ <-].
Qed.

(** [process_query] case by case. *)
Lemma db_process_query_cases json_loads extract now p query llm :
  process_query json_loads extract now p query llm
  = if quick_greeting query
    then Py.Ok (greeting_response,
                _update_profile_from_interaction now p query greeting_response)
    else
      match llm with
      | chain_raises => Py.Ok (by_content query (basic_response p query), p)
      | chain_returns text =>
          match parse_response json_loads text with
          | Py.Raise Py.JSONDecodeError =>
              Py.Ok (by_content query (default_response extract p query), p)
          | Py.Raise _ =>
              Py.Ok (by_content query (basic_response p query), p)
          | Py.Ok d =>
              match record now query d p with
              | (p', Py.Ok _) => Py.Ok (fields d, p')
              | (p', Py.Raise _) =>
                  Py.Ok (by_content query (basic_response p' query), p')
              end
          end
      end.
Proof.
  unfold process_query, process_query_body, by_content.
  fold (quick_greeting query).
  destruct (quick_greeting query); [reflexivity|].
  destruct llm as [|text]; [reflexivity|].
  unfold Py.outcome, Py.attempt, mbind, method_bind, Py.and_then, Py.lift,
    Py.read, Py.returns. cbn [run].
  destruct (parse_response json_loads text) as [d|e].
  - destruct (record now query d p) as [p' [[]|e]] eqn:Hrecord;
      [reflexivity|].
    now rewrite (record_raises _ _ _ _ _ _ Hrecord).
  - destruct e; reflexivity.
Qed.

Lemma db_process_query_returns json_loads extract now p query llm :
  exists r p',
    process_query json_loads extract now p query llm = Py.Ok (r, p').
Proof.
  rewrite db_process_query_cases.
  destruct (quick_greeting query); [eauto|].
  destruct llm as [|text]; [eauto|].
  destruct (parse_response json_loads text) as [d|e].
  - destruct (record now query d p) as [p' [[]|e]]; eauto.
  - destruct e; eauto.
Qed.

Lemma db_undecodable_answer json_loads extract now p query text :
  quick_greeting query = false ->
  parse_response json_loads text = Py.Raise Py.JSONDecodeError ->
  process_query json_loads extract now p query (chain_returns text)
  = Py.Ok (by_content query (default_response extract p query), p).
Proof.
  intros Hquick Hparse. now rewrite db_process_query_cases, Hquick, Hparse.
Qed.

(** When the answer holds no brace-delimited span, or the collaborator
    call fails, the outer branch answers from the query alone. *)
Lemma db_answer_without_json json_loads extract now p query llm :
  quick_greeting query = false ->
  match llm with
  | chain_raises => True
  | chain_returns text =>
      parse_response json_loads text = Py.Raise Py.ValueError
  end ->
  process_query json_loads extract now p query llm
  = Py.Ok (by_content query (basic_response p query), p).
Proof.
  intros Hquick Hllm. rewrite db_process_query_cases, Hquick.
  destruct llm as [|text]; [reflexivity|]. now rewrite Hllm.
Qed.

(** A text without an opening brace holds no span to decode. *)
Lemma db_no_brace_no_json json_loads text :
  Py.find "{" text = -1 ->
  parse_response json_loads text = Py.Raise Py.ValueError.
Proof. unfold parse_response. now intros ->. Qed.

(** *** Logs *)

Lemma db_update_history_length now p query r :
  length (session_history (_update_profile_from_interaction now p query r))
  = S (length (session_history p)).
Proof. simpl. rewrite length_app. simpl. lia. Qed.

Lemma db_feedback_length now p query helpful text :
  length (default [] (feedback (provide_feedback now p query helpful text)))
  = S (length (default [] (feedback p))).
Proof. simpl. rewrite length_app. simpl. lia. Qed.

(** A profile whose two logs hold 100 entries each. *)
Definition full_logs : Profile :=
  mkProfile None 100 "beginner" ["visual"; "textual"] None
    (repeat (mkEntry "" "hello" "greeting" None None None) 100)
    (Some (repeat (mkFeedback "" "hello" true None) 100)).

(** C6 fails on this agent: it appends to session_history and to the
    feedback log without trimming them, so both logs of a profile that
    holds 100 entries hold 101 after one more query and one more
    feedback. *)
Theorem db_logs_exceed_100 json_loads extract llm :
  (exists p',
     process_query json_loads extract "" full_logs "hello" llm
       = Py.Ok (greeting_response, p')
     /\ length (session_history p') = 101%nat)
  /\ length (default []
       (feedback (provide_feedback "" full_logs "hello" true None)))
     = 101%nat.
Proof.
  split.
  - eexists. split; [reflexivity|].
    now rewrite db_update_history_length.
  - now rewrite db_feedback_length.
Qed.

(** *** Sequences of recorded interactions *)

(** Successive [_update_profile_from_interaction] calls, each with the
    query and the answer it records. *)
Definition record_all (now : string) (p : Profile)
    (steps : list (string * Response)) : Profile :=
  fold_left (fun p step => _update_profile_from_interaction now p step.1 step.2)
    steps p.

Lemma update_skill_level_cases count lvl skill :
  update_skill_level count lvl skill = skill
  \/ update_skill_level count lvl skill = "advanced"
  \/ (update_skill_level count lvl skill = "intermediate"
      /\ skill = "beginner").
Proof.
  unfold update_skill_level.
  destruct (50 <? count), (20 <? count),
    (bool_decide (lvl = Some "advanced")),
    (bool_decide (lvl = Some "intermediate")),
    (String.eqb_spec skill "beginner"); simpl; auto.
Qed.

Lemma recorded_skill_level_cases now p query r :
  let p' := _update_profile_from_interaction now p query r in
  skill_level p' = skill_level p
  \/ skill_level p' = "advanced"
  \/ (skill_level p' = "intermediate" /\ skill_level p = "beginner").
Proof.
  simpl. destruct (String.eqb _ "educational"); [|auto].
  apply update_skill_level_cases.
Qed.

(** X8: over any sequence of recorded interactions the skill level is never
    set back to beginner and, once advanced, stays advanced; intermediate is
    only ever reached from beginner. *)
Theorem skill_level_never_falls_back now steps : forall p,
  (skill_level p = "advanced" ->
   skill_level (record_all now p steps) = "advanced")
  /\ (skill_level p <> "beginner" ->
      skill_level (record_all now p steps) <> "beginner")
  /\ (skill_level (record_all now p steps) = skill_level p
      \/ skill_level (record_all now p steps) = "advanced"
      \/ (skill_level (record_all now p steps) = "intermediate"
          /\ skill_level p = "beginner")).
Proof.
  induction steps as [|[query r] steps IH]; intros p; [tauto|].
  unfold record_all in *. simpl fold_left.
  destruct (IH (_update_profile_from_interaction now p query r))
    as (IHa & IHb & IHc).
  destruct (recorded_skill_level_cases now p query r) as [H|[H|[H Hb]]].
  - rewrite H in IHa, IHb, IHc. tauto.
  - split; [|split].
    + intros _. now apply IHa.
    + intros _. apply IHb. rewrite H. discriminate.
    + rewrite (IHa H). tauto.
  - split; [|split].
    + intros Ha. rewrite Ha in Hb. discriminate.
    + intros Hnb. contradiction.
    + rewrite H in IHc. destruct IHc as [Hc|[Hc|[_ Hc]]];
        [tauto|tauto|discriminate].
Qed.

(** *** Learning styles *)

Lemma add_styles_spec styles : forall preferred,
  (exists added, add_styles preferred styles = preferred ++ added)
  /\ (NoDup preferred -> NoDup (add_styles preferred styles))
  /\ (forall s, s ∈ styles -> s ∈ add_styles preferred styles).
Proof.
  induction styles as [|style styles IH]; intros preferred.
  - simpl. split; [exists []; now rewrite app_nil_r|].
    split; [tauto|]. intros s Hs. now apply elem_of_nil in Hs.
  - unfold add_styles in *. simpl fold_left.
    case_bool_decide as Hin.
    + destruct (IH preferred) as ((added & Hadd) & Hnd & Hall).
      split; [eauto|]. split; [exact Hnd|].
      intros s Hs. apply elem_of_cons in Hs as [->|Hs]; [|auto].
      rewrite Hadd. apply elem_of_app. now left.
    + destruct (IH (preferred ++ [style])) as ((added & Hadd) & Hnd & Hall).
      split; [exists (style :: added); rewrite Hadd; now rewrite <- app_assoc|].
      split.
      * intros Hp. apply Hnd. apply NoDup_app. split; [exact Hp|].
        split; [|apply NoDup_singleton].
        intros x Hx Hx'. apply list_elem_of_singleton in Hx'. now subst.
      * intros s Hs. apply elem_of_cons in Hs as [->|Hs]; [|auto].
        rewrite Hadd. apply elem_of_app. left. apply elem_of_app. right.
        apply list_elem_of_here.
Qed.

(** X9: recording an interaction never removes or reorders a preferred
    learning style and never introduces a duplicate; the styles of an
    educational answer are all preferred afterwards. *)
Theorem learning_styles_only_grow now p query r :
  let p' := _update_profile_from_interaction now p query r in
  (exists added,
     preferred_learning_styles p' = preferred_learning_styles p ++ added)
  /\ (NoDup (preferred_learning_styles p) ->
      NoDup (preferred_learning_styles p'))
  /\ (default "educational" (query_type r) = "educational" ->
      forall s, s ∈ default [] (learning_style r) ->
                s ∈ preferred_learning_styles p').
Proof.
  simpl.
  destruct (String.eqb_spec (default "educational" (query_type r))
              "educational") as [Hq|Hq].
  - destruct (add_styles_spec (default [] (learning_style r))
                (preferred_learning_styles p)) as (Hadd & Hnd & Hall).
    auto.
  - split; [exists []; now rewrite app_nil_r|]. split; [tauto|contradiction].
Qed.

(** *** Counters of interaction types *)

(** [interaction_types[k]], 0 when the key or the dictionary is missing. *)
Definition counter (p : Profile) (k : string) : Z :=
  default 0 (default ∅ (interaction_types p) !! k).

(** The steps of a sequence whose answer is of type [k]. *)
Definition answers_of_type (k : string) (steps : list (string * Response))
    : nat :=
  length (List.filter
            (fun step =>
               String.eqb (default "educational" (query_type step.2)) k)
            steps).

Lemma counter_after_update now p query r k :
  counter (_update_profile_from_interaction now p query r) k
  = counter p k
    + if bool_decide (k ∈ ["greeting"; "non_educational"])
         && String.eqb (default "educational" (query_type r)) k
      then 1 else 0.
Proof.
  unfold counter. simpl.
  set (qt := default "educational" (query_type r)).
  case_bool_decide as Hqt; unfold count_interaction_type; simpl.
  - destruct (String.eqb_spec qt k) as [->|Hne].
    + rewrite lookup_insert_eq. simpl.
      rewrite bool_decide_true by assumption. simpl. lia.
    + rewrite lookup_insert_ne by assumption.
      rewrite andb_false_r. lia.
  - destruct (String.eqb_spec qt k) as [->|Hne].
    + rewrite bool_decide_false by assumption. simpl. lia.
    + rewrite andb_false_r. lia.
Qed.

(** X10: only greeting and non-educational answers are counted: over any
    sequence of recorded interactions those two counters grow by the number
    of answers of their type, and every other counter, the one for
    educational answers included, keeps its value. *)
Theorem only_casual_answers_are_counted now steps : forall p k,
  counter (record_all now p steps) k
  = counter p k
    + if bool_decide (k ∈ ["greeting"; "non_educational"])
      then Z.of_nat (answers_of_type k steps) else 0.
Proof.
  induction steps as [|[query r] steps IH]; intros p k.
  - unfold answers_of_type. simpl. case_bool_decide; lia.
  - unfold record_all in *. simpl fold_left.
    rewrite IH, counter_after_update.
    unfold answers_of_type. simpl List.filter. simpl snd.
    case_bool_decide; simpl; [|lia].
    destruct (String.eqb _ k); simpl length; lia.
Qed.

(** *** What [process_query] records *)



(** The decoded answer of the prompt's educational shape with 5 as its
    learning_style is counted and not recorded. *)
Example counted_without_session_entry :
  process_query
    (fun _ => Some (scalar_learning_style (reports_level "advanced")))
    (fun q => q) "" twenty_interactions "what is recursion"
    (chain_returns "{...}")
  = Py.Ok (basic_response twenty_interactions "what is recursion",
           counted twenty_interactions).
Proof. reflexivity. Qed.

(** *** [_extract_topic_from_query] *)

Definition topic_map : list (string * string) :=
  [ ("machine learning", "machine learning");
    ("artificial intelligence", "artificial intelligence");
    ("ai", "AI");
    ("python", "Python programming");
    ("javascript", "JavaScript");
    ("programming", "programming");
    ("data science", "data science");
    ("algorithms", "algorithms");
    ("data structures", "data structures");
    ("neural networks", "neural networks");
    ("deep learning", "deep learning");
    ("web development", "web development");
    ("database", "databases");
    ("sql", "SQL");
    ("cloud computing", "cloud computing");
    ("cybersecurity", "cybersecurity");
    ("blockchain", "blockchain");
    ("quantum", "quantum computing");
    ("nlp", "natural language processing");
    ("natural language processing", "natural language processing") ].

(** [parts[1]] when [len(parts) > 1]. *)
Definition second (parts : list string) : option string :=
  match parts with
  | _ :: part :: _ => Some part
  | _ => None
  end.

(** [if topic: return topic]. *)
Definition nonempty (topic : option string) : option string :=
  match topic with
  | Some t => if String.eqb t "" then None else Some t
  | None => None
  end.

Definition remove_words : list string :=
  ["what"; "how"; "why"; "when"; "where"; "is"; "are"; "can"; "you";
   "tell"; "me"; "about"; "explain"; "to"; "the"; "a"; "an"].

Definition after_what_is (query_lower : string) : option string :=
  if Py.contains "what is" query_lower
  then nonempty
         ((fun part => Py.rstrip_char "?" (Py.strip part))
            <$> second (Py.split_on "what is" query_lower))
  else None.

Definition after_explain (query_lower : string) : option string :=
  if Py.contains "explain" query_lower
  then nonempty
         ((fun part =>
             Py.strip
               (Py.replace "how" ""
                  (Py.replace "to me" ""
                     (Py.rstrip_char "?" (Py.strip part)))))
            <$> second (Py.split_on "explain" query_lower))
  else None.

Definition after_how_does (query_lower : string) : option string :=
  if Py.contains "how does" query_lower || Py.contains "how do" query_lower
  then if Py.contains "how does" query_lower
       then nonempty
              ((fun part =>
                  Py.rstrip_char "?" (Py.strip (Py.replace "work" "" part)))
                 <$> second (Py.split_on "how does" query_lower))
       else None
  else None.

Definition after_tell_me_about (query_lower : string) : option string :=
  if Py.contains "tell me about" query_lower
  then nonempty
         ((fun part => Py.rstrip_char "?" (Py.strip part))
            <$> second (Py.split_on "tell me about" query_lower))
  else None.

Definition cleaned (query_lower : string) : string :=
  Py.rstrip_char "?"
    (Py.strip
       (fold_left
          (fun clean_query remove_word =>
             Py.replace (" " +:+ remove_word +:+ " ") " " clean_query)
          remove_words query_lower)).

Definition _extract_topic_from_query (query : string) : string :=
  let query_lower := Py.lower query in
  match List.find (fun kv => Py.contains kv.1 query_lower) topic_map with
  | Some kv => kv.2
  | None =>
  match after_what_is query_lower with
  | Some topic => topic
  | None =>
  match after_explain query_lower with
  | Some topic => topic
  | None =>
  match after_how_does query_lower with
  | Some topic => topic
  | None =>
  match after_tell_me_about query_lower with
  | Some topic => topic
  | None =>
      let clean_query := cleaned query_lower in
      if (0 <? String.length clean_query)%nat
         && (String.length clean_query <? 50)%nat
      then clean_query else "this topic"
  end end end end end.

Example topic_of_what_is :
  _extract_topic_from_query "What is recursion?" = "recursion".
Proof. reflexivity. Qed.

Example topic_of_how_does :
  _extract_topic_from_query "How does TCP/IP work?" = "tcp/ip ".
Proof. reflexivity. Qed.

Example topic_of_tell_me_about :
  _extract_topic_from_query "Tell me about sorting" = "sorting".
Proof. reflexivity. Qed.

Example topic_of_plain_words :
  _extract_topic_from_query "why is the sky blue?" = "why sky blue".
Proof. reflexivity. Qed.

Example topic_of_explain :
  _extract_topic_from_query "explain neural networks" = "AI".
Proof. reflexivity. Qed.

Lemma nonempty_Some topic t : nonempty topic = Some t -> t <> "".
Proof.
  destruct topic as [s|]; simpl; [|discriminate].
  destruct (String.eqb_spec s ""); [discriminate|]. now intros [= <-].
Qed.

(** X12: the extracted topic is never the empty string, so that the greeting
    and the instruction built from it always name something. *)
Theorem extracted_topic_is_not_empty query :
  _extract_topic_from_query query <> "".
Proof.
  unfold _extract_topic_from_query. cbv zeta.
  destruct (List.find _ topic_map) as [kv|] eqn:Hfind.
  - apply find_some in Hfind as [Hin _].
    unfold topic_map in Hin. simpl in Hin.
    repeat (destruct Hin as [<-|Hin]; [discriminate|]). contradiction.
  - destruct (after_what_is _) as [t|] eqn:H1;
      [unfold after_what_is in H1; destruct (Py.contains _ _);
       [now apply nonempty_Some in H1|discriminate]|].
    destruct (after_explain _) as [t|] eqn:H2;
      [unfold after_explain in H2; destruct (Py.contains _ _);
       [now apply nonempty_Some in H2|discriminate]|].
    destruct (after_how_does _) as [t|] eqn:H3;
      [unfold after_how_does in H3; destruct (_ || _);
       [destruct (Py.contains _ _);
        [now apply nonempty_Some in H3|discriminate]|discriminate]|].
    destruct (after_tell_me_about _) as [t|] eqn:H4;
      [unfold after_tell_me_about in H4; destruct (Py.contains _ _);
       [now apply nonempty_Some in H4|discriminate]|].
    generalize (cleaned (Py.lower query)). intros clean_query.
    destruct clean_query as [|c t]; [simpl; intros H; discriminate H|].
    cbn [String.length]. destruct (_ && _); intros H; discriminate H.
Qed.

Lemma contains_explain_ai s :
  Py.contains "explain" s = true -> Py.contains "ai" s = true.
Proof.
  induction s as [|c0 t IH]; [discriminate|].
  cbn [Py.contains]. rewrite !orb_true_iff. intros [Hp|Ht].
  - right. cbn [String.prefix] in Hp.
    destruct (ascii_dec "e" c0); [|discriminate].
    destruct t as [|c1 t]; cbn [String.prefix] in Hp; [discriminate|].
    destruct (ascii_dec "x" c1); [|discriminate].
    destruct t as [|c2 t]; cbn [String.prefix] in Hp; [discriminate|].
    destruct (ascii_dec "p" c2); [|discriminate].
    destruct t as [|c3 t]; cbn [String.prefix] in Hp; [discriminate|].
    destruct (ascii_dec "l" c3); [|discriminate].
    destruct t as [|c4 t]; cbn [String.prefix] in Hp; [discriminate|].
    destruct (ascii_dec "a" c4) as [<-|]; [|discriminate].
    destruct t as [|c5 t]; cbn [String.prefix] in Hp; [discriminate|].
    destruct (ascii_dec "i" c5) as [<-|]; [|discriminate].
    cbn [Py.contains String.prefix]. rewrite !orb_true_iff.
    right. right. right. left.
    destruct (ascii_dec "a" "a"); [|congruence].
    destruct (ascii_dec "i" "i"); [|congruence].
    now destruct t.
  - right. now apply IH.
Qed.

(** X13: a query that holds the word "explain" holds the key "ai" inside it,
    so its topic is always one of the first three entries of the topic map
    and the branch that cuts the text after "explain" is never reached. *)
Theorem explain_queries_are_about_ai query :
  Py.contains "explain" (Py.lower query) = true ->
  _extract_topic_from_query query = "machine learning"
  \/ _extract_topic_from_query query = "artificial intelligence"
  \/ _extract_topic_from_query query = "AI".
Proof.
  intros H. apply contains_explain_ai in H.
  unfold _extract_topic_from_query, topic_map. cbn [List.find fst snd].
  destruct (Py.contains "machine learning" _); [auto|].
  destruct (Py.contains "artificial intelligence" _); [auto|].
  rewrite H. auto.
Qed.

Lemma explain_queries_are_about_ai_witness :
  _extract_topic_from_query "Explain Python programming to me"
    = "machine learning"
  \/ _extract_topic_from_query "Explain Python programming to me"
     = "artificial intelligence"
  \/ _extract_topic_from_query "Explain Python programming to me" = "AI".
Proof.
  apply (explain_queries_are_about_ai "Explain Python programming to me").
  reflexivity.
Defined.

End DbAgent.

(** ** personalization/agent.py: the agent that keeps profiles in files *)
Module FileAgent.
Import Wire.

Record SessionEntry := mkEntry {
  entry_timestamp : string;
  entry_query : string;
  entry_query_type : string;
  entry_topic : option string
}.

Record FeedbackEntry := mkFeedback {
  feedback_timestamp : string;
  feedback_query : string;
  was_helpful : bool;
  feedback_text : option string
}.

Record KnowledgeArea := mkArea {
  interactions : Z;
  last_interaction : string;
  estimated_skill : string
}.

(** [self.user_profile]: the dictionary that [json.load] read from the
    user's file or from the template default.json, or the one that
    [_load_user_profile] made from scratch. The agent looks every key up
    with [profile[key]], and a file need not hold them all: a field is
    [None] when its key is missing. The values that are there have the
    types the agent writes. *)
Record Profile := mkProfile {
  interactions_count : option Z;
  preferred_learning_styles : option (list string);
  skill_level : option string;
  knowledge_areas : option (gmap string KnowledgeArea);
  areas_for_improvement : option (list string);
  session_history : option (list SessionEntry);
  topic_interests : option (list string);
  interaction_types : option (gmap string Z);
  feedback : option (list FeedbackEntry)
}.

(** [self.user_profile[key]]: KeyError when the key is missing. *)
Definition getitem {A} (field : Profile -> option A) : Py.method Profile A :=
  fun p =>
    match field p with
    | Some value => (p, Py.Ok value)
    | None => (p, Py.Raise Py.KeyError)
    end.

Definition set_interactions_count (n : Z) (p : Profile) : Profile :=
  mkProfile (Some n) (preferred_learning_styles p) (skill_level p)
    (knowledge_areas p) (areas_for_improvement p) (session_history p)
    (topic_interests p) (interaction_types p) (feedback p).

Definition set_knowledge_areas (areas : gmap string KnowledgeArea)
    (p : Profile) : Profile :=
  mkProfile (interactions_count p) (preferred_learning_styles p)
    (skill_level p) (Some areas) (areas_for_improvement p)
    (session_history p) (topic_interests p) (interaction_types p)
    (feedback p).

Definition set_areas_for_improvement (topics : list string)
    (p : Profile) : Profile :=
  mkProfile (interactions_count p) (preferred_learning_styles p)
    (skill_level p) (knowledge_areas p) (Some topics) (session_history p)
    (topic_interests p) (interaction_types p) (feedback p).

Definition set_session_history (history : list SessionEntry)
    (p : Profile) : Profile :=
  mkProfile (interactions_count p) (preferred_learning_styles p)
    (skill_level p) (knowledge_areas p) (areas_for_improvement p)
    (Some history) (topic_interests p) (interaction_types p) (feedback p).

Definition set_topic_interests (topics : list string) (p : Profile)
    : Profile :=
  mkProfile (interactions_count p) (preferred_learning_styles p)
    (skill_level p) (knowledge_areas p) (areas_for_improvement p)
    (session_history p) (Some topics) (interaction_types p) (feedback p).

Definition set_interaction_types (types : gmap string Z) (p : Profile)
    : Profile :=
  mkProfile (interactions_count p) (preferred_learning_styles p)
    (skill_level p) (knowledge_areas p) (areas_for_improvement p)
    (session_history p) (topic_interests p) (Some types) (feedback p).

Definition set_feedback (log : list FeedbackEntry) (p : Profile) : Profile :=
  mkProfile (interactions_count p) (preferred_learning_styles p)
    (skill_level p) (knowledge_areas p) (areas_for_improvement p)
    (session_history p) (topic_interests p) (interaction_types p) (Some log).

Definition _infer_topic (query : string) : string :=
  let q := Py.lower query in
  if Py.contains "python" q then "python"
  else if Py.contains "javascript" q || Py.contains "js" q then "javascript"
  else if Py.contains "math" q || Py.contains "calculus" q then "mathematics"
  else if Py.contains "history" q then "history"
  else if Py.contains "physics" q then "physics"
  else if Py.contains "chemistry" q then "chemistry"
  else if Py.contains "biology" q then "biology"
  else "general".

Definition greetings : list string :=
  ["hello"; "hi"; "hey"; "greetings"; "good morning"; "good afternoon";
   "good evening"; "how are you"; "what's up"].

Definition _is_greeting_or_casual (query : string) : bool :=
  Py.any_in greetings (Py.lower query).

Definition non_educational : list string :=
  ["your name"; "who are you"; "what can you do"; "help me";
   "created you"; "made you"; "about you"; "how do you work"].

Definition _is_non_educational (query : string) : bool :=
  Py.any_in non_educational (Py.lower query).

(** [log = log[-100:]] when the log has more than 100 entries. *)
Definition limit_100 {A} (log : list A) : list A :=
  if (100 <? length log)%nat then Py.last_n 100 log else log.

Definition touch_area (now : string) (t : string)
    (areas : gmap string KnowledgeArea) : gmap string KnowledgeArea :=
  match areas !! t with
  | None => <[t := mkArea 1 now "beginner"]> areas
  | Some a => <[t := mkArea (interactions a + 1) now (estimated_skill a)]> areas
  end.

(** What [json.loads] makes of the collaborator's whole text, as far as
    this agent looks at it. [shaped r]: an object whose values have the
    types of the prompt's shapes. [unhashable_query_type r]: an object
    whose query_type is a list or an object, which cannot be a dictionary
    key; the other values are those of [r]. [not_an_object]: a list, a
    string, a number, true, false or null, none of which has a [get]. An
    object with a number, true, false or null as query_type is recorded
    like one with a string that is not "educational", under a key of its
    own, and is left out. *)
Inductive decoded :=
| shaped (r : Response)
| unhashable_query_type (r : Response)
| not_an_object.

(** The decoded value as the answer that [process_query] returns; it is
    an object whenever the update that precedes the [return] returned. *)
Definition fields (response : decoded) : Response :=
  match response with
  | shaped r => r
  | unhashable_query_type r => r
  | not_an_object =>
      mkResponse None None None None None None None None None None
  end.

(** [response.get]: AttributeError on a value that is no dictionary. *)
Definition as_object (response : decoded) : Py.result Response :=
  match response with
  | shaped r => Py.Ok r
  | unhashable_query_type r => Py.Ok r
  | not_an_object => Py.Raise Py.AttributeError
  end.

(** [query_type in self.user_profile["interaction_types"]] hashes the
    query type: TypeError on a list or a dictionary. *)
Definition hash_query_type (response : decoded) : Py.result unit :=
  match response with
  | unhashable_query_type _ => Py.Raise Py.TypeError
  | _ => Py.Ok tt
  end.

(** [_update_profile_from_interaction], statement by statement: what an
    earlier statement wrote stays written when a later one raises. *)
Definition _update_profile_from_interaction (now query : string)
    (response : decoded) : Py.method Profile unit :=
  count ← getitem interactions_count;
  Py.write (set_interactions_count (count + 1));;
  r ← Py.lift (as_object response);
  let qt := default "educational" (query_type r) in
  let educational := String.eqb qt "educational" in
  let t := _infer_topic query in
  let session_entry :=
    mkEntry now query qt (if educational then Some t else None) in
  types ← getitem interaction_types;
  Py.lift (hash_query_type response);;
  Py.write (set_interaction_types (<[qt := default 0 (types !! qt) + 1]> types));;
  (if educational then
     areas ← getitem knowledge_areas;
     Py.write (set_knowledge_areas (touch_area now t areas));;
     interests ← getitem topic_interests;
     Py.write (set_topic_interests
                 (if bool_decide (t ∈ interests) then interests
                  else interests ++ [t]))
   else Py.returns tt);;
  history ← getitem session_history;
  Py.write (set_session_history (limit_100 (history ++ [session_entry]))).

Definition provide_feedback (now query : string) (helpful : bool)
    (text : option string) : Py.method Profile unit :=
  log ← getitem feedback;
  Py.write (set_feedback (limit_100 (log ++ [mkFeedback now query helpful text])));;
  if helpful then Py.returns tt
  else
    let t := _infer_topic query in
    areas ← getitem knowledge_areas;
    match areas !! t with
    | Some a =>
        if negb (String.eqb (estimated_skill a) "beginner")
        then Py.write (set_knowledge_areas
                         (<[t := mkArea (interactions a) (last_interaction a)
                                   "beginner"]> areas))
        else Py.returns tt
    | None => Py.returns tt
    end;;
    topics ← getitem areas_for_improvement;
    Py.write (set_areas_for_improvement
                (if bool_decide (t ∈ topics) then topics else topics ++ [t])).

Definition greeting_response : Response :=
  direct "greeting" "Hello! How can I help with your learning today?".

Definition non_educational_response : Response :=
  direct "non_educational"
    "I'm your AI learning assistant, designed to help you understand educational concepts in a personalized way.".

(** The dictionary [basic_response] of the two handlers. *)
Definition basic_response_of (level : string) (styles : list string)
    (query : string) : Response :=
  mkResponse (Some "educational") None
    (Some level) (Some styles)
    None None None
    (Some "Explain this concept clearly with examples.")
    (Some query) None.

Section ProcessQuery.

(** [json.loads] on the whole answer: [None] stands for
    [json.JSONDecodeError]. *)
Variable json_loads : string -> option decoded.

Definition decode (text : string) : Py.result decoded :=
  match json_loads text with
  | Some parsed_response => Py.Ok parsed_response
  | None => Py.Raise Py.JSONDecodeError
  end.

(** What both handlers do: build the basic response from the profile,
    record it and return it. *)
Definition answer_basic (now query : string) : Py.method Profile Response :=
  level ← getitem skill_level;
  styles ← getitem preferred_learning_styles;
  let basic_response := basic_response_of level styles query in
  _update_profile_from_interaction now query (shaped basic_response);;
  Py.returns basic_response.

(** [process_query]: the two keyword checks and their updates run before
    the [try]; what the inner handler raises is caught by the outer one,
    what the outer handler raises reaches the caller. *)
Definition process_query (now query : string) (llm : chain_outcome)
    : Py.method Profile Response :=
  if _is_greeting_or_casual query then
    _update_profile_from_interaction now query (shaped greeting_response);;
    Py.returns greeting_response
  else if _is_non_educational query then
    _update_profile_from_interaction now query
      (shaped non_educational_response);;
    Py.returns non_educational_response
  else
    Py.attempt
      (chain_response ← Py.lift (run llm);
       Py.attempt
         (parsed_response ← Py.lift (decode chain_response);
          _update_profile_from_interaction now query parsed_response;;
          Py.returns (fields parsed_response))
         Py.is_JSONDecodeError (answer_basic now query))
      Py.is_Exception (answer_basic now query).

End ProcessQuery.

(** The profile that [_load_user_profile] creates from scratch. *)
Definition new_profile : Profile :=
  mkProfile (Some 0) (Some ["visual"; "textual"]) (Some "beginner") (Some ∅)
    (Some []) (Some []) (Some [])
    (Some (<["greeting" := 0]> (<["non_educational" := 0]>
       (<["educational" := 0]> ∅)))) (Some []).

(** A profile that holds every key. *)
Definition complete (p : Profile) : Prop :=
  is_Some (interactions_count p)
  /\ is_Some (preferred_learning_styles p)
  /\ is_Some (skill_level p)
  /\ is_Some (knowledge_areas p)
  /\ is_Some (areas_for_improvement p)
  /\ is_Some (session_history p)
  /\ is_Some (topic_interests p)
  /\ is_Some (interaction_types p)
  /\ is_Some (feedback p).


(** *** The update, statement by statement *)

(** The session entry that records [query] with the answer [r]. *)
Definition entry_for (now query : string) (r : Response) : SessionEntry :=
  let qt := default "educational" (query_type r) in
  mkEntry now query qt
    (if String.eqb qt "educational" then Some (_infer_topic query) else None).

(** The counters after one more answer of the type of [r]. *)
Definition count_type (r : Response) (types : gmap string Z) : gmap string Z :=
  let qt := default "educational" (query_type r) in
  <[qt := default 0 (types !! qt) + 1]> types.

Definition add_topic (t : string) (topics : list string) : list string :=
  if bool_decide (t ∈ topics) then topics else topics ++ [t].

Definition is_educational (r : Response) : bool :=
  String.eqb (default "educational" (query_type r)) "educational".

Ltac run_update :=
  cbv [_update_profile_from_interaction getitem Py.write mbind method_bind
       Py.and_then Py.lift Py.returns as_object hash_query_type
       set_interactions_count set_interaction_types set_knowledge_areas
       set_topic_interests set_session_history
       interactions_count preferred_learning_styles skill_level
       knowledge_areas areas_for_improvement session_history topic_interests
       interaction_types feedback fst snd].

(** An update that returns has found its keys and written everything. *)
Lemma update_returns now query response p p' :
  _update_profile_from_interaction now query response p = (p', Py.Ok tt) ->
  exists r count types history,
    response = shaped r
    /\ interactions_count p = Some count
    /\ interaction_types p = Some types
    /\ session_history p = Some history
    /\ p' = mkProfile (Some (count + 1)) (preferred_learning_styles p)
              (skill_level p)
              (if is_educational r
               then touch_area now (_infer_topic query) <$> knowledge_areas p
               else knowledge_areas p)
              (areas_for_improvement p)
              (Some (limit_100 (history ++ [entry_for now query r])))
              (if is_educational r
               then add_topic (_infer_topic query) <$> topic_interests p
               else topic_interests p)
              (Some (count_type r types)) (feedback p)
    /\ (is_educational r = true ->
        is_Some (knowledge_areas p) /\ is_Some (topic_interests p)).
Proof.
  destruct p as [[count|] styles level [areas|] improve [history|]
                 [interests|] [types|] log];
    destruct response as [r|r|]; run_update; try discriminate;
    destruct (String.eqb (default "educational" (query_type r)) "educational")
      eqn:Hedu; try discriminate;
    intros [= <-]; exists r; do 3 eexists;
    unfold is_educational, entry_for, count_type, add_topic; rewrite Hedu;
    repeat split; eauto; discriminate.
Qed.

(** An answer that is no object, or whose query type cannot be hashed,
    makes the update raise when only the count has been written. *)
Lemma update_aborts now query response p p' e :
  _update_profile_from_interaction now query response p = (p', Py.Raise e) ->
  e <> Py.KeyError ->
  (forall r, response <> shaped r)
  /\ exists count,
       interactions_count p = Some count
       /\ p' = set_interactions_count (count + 1) p.
Proof.
  destruct p as [[count|] styles level [areas|] improve [history|]
                 [interests|] [types|] log];
    destruct response as [r|r|]; run_update; try congruence;
    try (destruct (String.eqb (default "educational" (query_type r))
                     "educational"); congruence);
    intros [= <- <-] _; (split; [congruence|]); eexists; split; reflexivity.
Qed.

(** The update never adds or removes a key. *)
Definition same_keys (p p' : Profile) : Prop :=
  (is_Some (interactions_count p') <-> is_Some (interactions_count p))
  /\ (is_Some (preferred_learning_styles p')
      <-> is_Some (preferred_learning_styles p))
  /\ (is_Some (skill_level p') <-> is_Some (skill_level p))
  /\ (is_Some (knowledge_areas p') <-> is_Some (knowledge_areas p))
  /\ (is_Some (areas_for_improvement p')
      <-> is_Some (areas_for_improvement p))
  /\ (is_Some (session_history p') <-> is_Some (session_history p))
  /\ (is_Some (topic_interests p') <-> is_Some (topic_interests p))
  /\ (is_Some (interaction_types p') <-> is_Some (interaction_types p))
  /\ (is_Some (feedback p') <-> is_Some (feedback p)).

Lemma update_same_keys now query response p :
  same_keys p (_update_profile_from_interaction now query response p).1.
Proof.
  destruct p as [[count|] styles level [areas|] improve [history|]
                 [interests|] [types|] log];
    destruct response as [r|r|]; run_update; unfold same_keys;
    try (destruct (String.eqb (default "educational" (query_type r))
                     "educational"));
    cbn; unfold is_Some; repeat split; eauto.
Qed.

(** With its keys in place, a shaped answer is recorded. *)
Lemma update_records now query r p :
  is_Some (interactions_count p) ->
  is_Some (interaction_types p) ->
  is_Some (session_history p) ->
  (is_educational r = true ->
   is_Some (knowledge_areas p) /\ is_Some (topic_interests p)) ->
  (_update_profile_from_interaction now query (shaped r) p).2 = Py.Ok tt.
Proof.
  unfold is_educational.
  destruct p as [[count|] styles level [areas|] improve [history|]
                 [interests|] [types|] log];
    run_update; intros [? Hc] [? Ht] [? Hh] Hedu; try discriminate;
    destruct (String.eqb (default "educational" (query_type r)) "educational");
    try reflexivity;
    destruct (Hedu eq_refl) as [[? Ha] [? Hi]]; discriminate.
Qed.

(** The exceptions of the update. *)
Lemma update_exn now query response p p' e :
  _update_profile_from_interaction now query response p = (p', Py.Raise e) ->
  Py.is_JSONDecodeError e = false.
Proof.
  destruct p as [[count|] styles level [areas|] improve [history|]
                 [interests|] [types|] log];
    destruct response as [r|r|]; run_update;
    try (destruct (String.eqb (default "educational" (query_type r))
                     "educational"));
    intros [= _ <-] || discriminate; reflexivity.
Qed.

(** What the update never touches, and what it leaves alone when it
    raises. *)
Lemma update_frame now query response p :
  let out := _update_profile_from_interaction now query response p in
  preferred_learning_styles out.1 = preferred_learning_styles p
  /\ skill_level out.1 = skill_level p
  /\ areas_for_improvement out.1 = areas_for_improvement p
  /\ feedback out.1 = feedback p
  /\ interactions_count out.1 = (fun n => n + 1) <$> interactions_count p
  /\ (out.2 <> Py.Ok tt -> session_history out.1 = session_history p)
  /\ (knowledge_areas out.1 = knowledge_areas p
      \/ knowledge_areas out.1
         = touch_area now (_infer_topic query) <$> knowledge_areas p)
  /\ (topic_interests out.1 = topic_interests p
      \/ (topic_interests out.1
          = add_topic (_infer_topic query) <$> topic_interests p
          /\ knowledge_areas out.1
             = touch_area now (_infer_topic query) <$> knowledge_areas p
          /\ is_Some (knowledge_areas p))).
Proof.
  unfold add_topic.
  destruct p as [[count|] styles level [areas|] improve [history|]
                 [interests|] [types|] log];
    destruct response as [r|r|]; run_update;
    try (destruct (String.eqb (default "educational" (query_type r))
                     "educational"));
    cbn; repeat split; eauto; congruence.
Qed.

(** *** [process_query], branch by branch *)

Lemma answer_basic_cases now query p :
  answer_basic now query p
  = match skill_level p, preferred_learning_styles p with
    | Some level, Some styles =>
        let basic_response := basic_response_of level styles query in
        match _update_profile_from_interaction now query
                (shaped basic_response) p with
        | (p', Py.Ok _) => (p', Py.Ok basic_response)
        | (p', Py.Raise e) => (p', Py.Raise e)
        end
    | _, _ => (p, Py.Raise Py.KeyError)
    end.
Proof.
  unfold answer_basic, getitem, mbind, method_bind,
    Py.and_then, Py.returns.
  destruct (skill_level p), (preferred_learning_styles p); reflexivity.
Qed.

Lemma process_query_cases json_loads now query llm p :
  process_query json_loads now query llm p
  = if _is_greeting_or_casual query then
      match _update_profile_from_interaction now query
              (shaped greeting_response) p with
      | (p', Py.Ok _) => (p', Py.Ok greeting_response)
      | (p', Py.Raise e) => (p', Py.Raise e)
      end
    else if _is_non_educational query then
      match _update_profile_from_interaction now query
              (shaped non_educational_response) p with
      | (p', Py.Ok _) => (p', Py.Ok non_educational_response)
      | (p', Py.Raise e) => (p', Py.Raise e)
      end
    else
      match llm with
      | chain_raises => answer_basic now query p
      | chain_returns text =>
          match json_loads text with
          | None =>
              match answer_basic now query p with
              | (p', Py.Ok r) => (p', Py.Ok r)
              | (p', Py.Raise _) => answer_basic now query p'
              end
          | Some parsed_response =>
              match _update_profile_from_interaction now query
                      parsed_response p with
              | (p', Py.Ok _) => (p', Py.Ok (fields parsed_response))
              | (p', Py.Raise _) => answer_basic now query p'
              end
          end
      end.
Proof.
  unfold process_query.
  destruct (_is_greeting_or_casual query); [reflexivity|].
  destruct (_is_non_educational query); [reflexivity|].
  unfold Py.attempt at 1, mbind at 1, method_bind at 1, Py.and_then at 1,
    Py.lift at 1.
  destruct llm as [|text]; cbn [run]; [reflexivity|].
  unfold Py.attempt, mbind, method_bind, Py.and_then, Py.lift, Py.returns,
    decode.
  destruct (json_loads text) as [parsed_response|].
  - destruct (_update_profile_from_interaction _ _ _ p) as [p' [[]|e]] eqn:Hu;
      [reflexivity|].
    now rewrite (update_exn _ _ _ _ _ _ Hu).
  - cbn. destruct (answer_basic now query p) as [p' [r|e]]; reflexivity.
Qed.

(** A KeyError of the update means that one of its keys is missing. *)
Lemma update_key_error now query response p p' :
  _update_profile_from_interaction now query response p
    = (p', Py.Raise Py.KeyError) ->
  ~ (is_Some (interactions_count p) /\ is_Some (interaction_types p)
     /\ is_Some (session_history p) /\ is_Some (knowledge_areas p)
     /\ is_Some (topic_interests p)).
Proof.
  destruct p as [[count|] styles level [areas|] improve [history|]
                 [interests|] [types|] log];
    destruct response as [r|r|]; run_update;
    try (destruct (String.eqb (default "educational" (query_type r))
                     "educational"));
    try discriminate; intros _ ([? ?] & [? ?] & [? ?] & [? ?] & [? ?]);
    discriminate.
Qed.

Lemma recorded_once now query r p p' :
  _update_profile_from_interaction now query (shaped r) p = (p', Py.Ok tt) ->
  exists count history,
    interactions_count p = Some count
    /\ session_history p = Some history
    /\ interactions_count p' = Some (count + 1)
    /\ session_history p'
       = Some (limit_100 (history ++ [entry_for now query r])).
Proof.
  intros H. apply update_returns in H
    as (r0 & count & types & history & [= <-] & Hc & _ & Hh & -> & _).
  exists count, history. auto.
Qed.

Lemma answer_basic_returns now query p p' r :
  answer_basic now query p = (p', Py.Ok r) ->
  _update_profile_from_interaction now query (shaped r) p = (p', Py.Ok tt)
  /\ exists level styles,
       skill_level p = Some level
       /\ preferred_learning_styles p = Some styles
       /\ r = basic_response_of level styles query.
Proof.
  rewrite answer_basic_cases.
  destruct (skill_level p) as [level|]; [|discriminate].
  destruct (preferred_learning_styles p) as [styles|]; [|discriminate].
  cbv zeta.
  destruct (_update_profile_from_interaction _ _ _ p) as [p1 [[]|e]] eqn:Hu;
    [|discriminate].
  intros [= <- <-]. split; [exact Hu|]. eauto.
Qed.

(** The state that [answer_basic] leaves: the profile itself, or the
    profile after one update. *)
Lemma answer_basic_state now query p :
  (answer_basic now query p).1 = p
  \/ exists r,
       answer_basic now query p
       = ((_update_profile_from_interaction now query (shaped r) p).1,
          match (_update_profile_from_interaction now query (shaped r) p).2
          with
          | Py.Ok _ => Py.Ok r
          | Py.Raise e => Py.Raise e
          end).
Proof.
  rewrite answer_basic_cases.
  destruct (skill_level p) as [level|]; [|now left].
  destruct (preferred_learning_styles p) as [styles|]; [|now left].
  right. exists (basic_response_of level styles query). cbv zeta.
  destruct (_update_profile_from_interaction _ _ _ p) as [p1 [[]|e]];
    reflexivity.
Qed.

(** A basic answer that could not be recorded cannot be recorded at the
    second attempt either. *)
Lemma answer_basic_after_raise now query p p1 e p' r :
  answer_basic now query p = (p1, Py.Raise e) ->
  answer_basic now query p1 = (p', Py.Ok r) -> False.
Proof.
  intros H1 H2. apply answer_basic_returns in H2
    as (Hu2 & level & styles & Hl & Hs & ->).
  apply update_returns in Hu2
    as (r0 & count & types & history & [= <-] & Hc & Ht & Hh & _ & Hedu).
  destruct (Hedu eq_refl) as [Ha Hi].
  rewrite answer_basic_cases in H1.
  destruct (skill_level p) as [level0|] eqn:Hl0;
    [|injection H1 as <- _; congruence].
  destruct (preferred_learning_styles p) as [styles0|] eqn:Hs0;
    [|injection H1 as <- _; congruence].
  cbv zeta in H1.
  destruct (_update_profile_from_interaction now query
              (shaped (basic_response_of level0 styles0 query)) p)
    as [p2 [[]|e2]] eqn:Hu1; [discriminate|].
  injection H1 as -> ->.
  pose proof (update_same_keys now query
                (shaped (basic_response_of level0 styles0 query)) p) as Hk.
  rewrite Hu1 in Hk. cbn [fst] in Hk. destruct Hk as (Kc & _ & _ & Ka & _ & Kh & Ki & Kt & _).
  pose proof (update_records now query
                (basic_response_of level0 styles0 query) p) as Hok.
  rewrite Hu1 in Hok. simpl in Hok.
  enough (Py.Raise e = Py.Ok tt) by discriminate.
  apply Hok.
  - apply Kc. rewrite Hc. eauto.
  - apply Kt. rewrite Ht. eauto.
  - apply Kh. rewrite Hh. eauto.
  - intros _. split; [apply Ka|apply Ki]; assumption.
Qed.

(** A basic answer that is recorded after an update raised: the update was
    given a value it could not read, and had counted it. *)
Lemma answer_basic_after_abort now query response p p1 e p' r :
  _update_profile_from_interaction now query response p = (p1, Py.Raise e) ->
  answer_basic now query p1 = (p', Py.Ok r) ->
  (forall r0, response <> shaped r0)
  /\ exists count,
       interactions_count p = Some count
       /\ _update_profile_from_interaction now query (shaped r)
            (set_interactions_count (count + 1) p) = (p', Py.Ok tt).
Proof.
  intros H1 H2. apply answer_basic_returns in H2
    as (Hu2 & level & styles & Hl & Hs & ->).
  pose proof Hu2 as Hrec. apply update_returns in Hrec
    as (r0 & count & types & history0 & [= <-] & Hc & Ht & Hh & _ & Hedu).
  destruct (Hedu eq_refl) as [Ha Hi].
  assert (He : e <> Py.KeyError).
  { intros ->. apply (update_key_error _ _ _ _ _ H1).
    pose proof (update_same_keys now query response p) as Hk.
    rewrite H1 in Hk. cbn [fst] in Hk.
    destruct Hk as (Kc & _ & _ & Ka & _ & Kh & Ki & Kt & _).
    repeat split.
    - apply Kc. rewrite Hc. eauto.
    - apply Kt. rewrite Ht. eauto.
    - apply Kh. rewrite Hh. eauto.
    - now apply Ka.
    - now apply Ki. }
  destruct (update_aborts _ _ _ _ _ _ H1 He) as (Hshape & count0 & Hc0 & ->).
  split; [exact Hshape|]. eauto.
Qed.

(** *** Logs *)

Lemma limit_100_last_n {A} (log : list A) :
  limit_100 log = Py.last_n 100 log.
Proof.
  unfold limit_100, Py.last_n.
  destruct (Nat.ltb_spec 100 (length log)) as [H|H]; [reflexivity|].
  now replace (length log - 100)%nat with 0%nat by lia.
Qed.

Lemma limit_100_length {A} (log : list A) :
  (length (limit_100 log) <= 100)%nat.
Proof.
  rewrite limit_100_last_n. unfold Py.last_n. rewrite length_skipn. lia.
Qed.

Lemma limit_100_newest {A} (log : list A) (x : A) :
  List.last (limit_100 (log ++ [x])) x = x.
Proof.
  rewrite limit_100_last_n. unfold Py.last_n.
  rewrite length_app. simpl length.
  rewrite skipn_app.
  replace (length log + 1 - 100 - length log)%nat with 0%nat by lia.
  simpl. now rewrite List.last_last.
Qed.

(** *** What [process_query] records *)

(** The collaborator's text decodes to a value that the update cannot
    read, for a query that holds neither kind of phrase. *)
Definition counted_twice (json_loads : string -> option decoded)
    (query : string) (llm : chain_outcome) : bool :=
  negb (_is_greeting_or_casual query) && negb (_is_non_educational query)
  && match llm with
     | chain_raises => false
     | chain_returns text =>
         match json_loads text with
         | Some (unhashable_query_type _) | Some not_an_object => true
         | _ => false
         end
     end.

(** The profile after a call that returned: the answer recorded on the
    profile before the call, or on that profile with the query counted
    once already. *)
Lemma process_query_returned json_loads now query llm p r p' :
  process_query json_loads now query llm p = (p', Py.Ok r) ->
  exists count,
    interactions_count p = Some count
    /\ _update_profile_from_interaction now query (shaped r)
         (if counted_twice json_loads query llm
          then set_interactions_count (count + 1) p else p)
       = (p', Py.Ok tt).
Proof.
  assert (Hcount : forall r0 p1,
    _update_profile_from_interaction now query (shaped r0) p = (p1, Py.Ok tt) ->
    exists count,
      interactions_count p = Some count
      /\ _update_profile_from_interaction now query (shaped r0) p
         = (p1, Py.Ok tt)).
  { intros r0 p1 Hu. pose proof Hu as Hr.
    apply recorded_once in Hr as (count & _ & Hc & _). eauto. }
  intros H. rewrite process_query_cases in H. unfold counted_twice.
  destruct (_is_greeting_or_casual query).
  { destruct (_update_profile_from_interaction _ _ _ p) as [p1 [[]|e]] eqn:Hu;
      [|discriminate].
    injection H as <- <-. now apply Hcount. }
  destruct (_is_non_educational query).
  { destruct (_update_profile_from_interaction _ _ _ p) as [p1 [[]|e]] eqn:Hu;
      [|discriminate].
    injection H as <- <-. now apply Hcount. }
  cbn [negb andb].
  destruct llm as [|text].
  { apply answer_basic_returns in H as [Hu _]. now apply Hcount. }
  destruct (json_loads text) as [parsed_response|].
  - destruct (_update_profile_from_interaction _ _ _ p) as [p1 [[]|e]] eqn:Hu.
    + injection H as <- <-.
      pose proof Hu as Hr.
      apply update_returns in Hr as (r0 & _ & _ & _ & -> & _).
      now apply Hcount.
    + destruct (answer_basic_after_abort _ _ _ _ _ _ _ _ Hu H)
        as (Hshape & count & Hc & Hu').
      exists count.
      destruct parsed_response as [r0| |]; [now destruct (Hshape r0)| |];
        auto.
  - destruct (answer_basic now query p) as [p1 [r1|e]] eqn:Hb.
    + injection H as <- <-. apply answer_basic_returns in Hb as [Hu _].
      now apply Hcount.
    + destruct (answer_basic_after_raise _ _ _ _ _ _ _ Hb H).
Qed.

(** X14: every answer that [process_query] returns is recorded, a fallback
    included: the session history is the last 100 entries of the old
    history followed by the entry of this query, which is therefore its
    newest entry. interactions_count grows by one, or by two when the
    decoded text of the collaborator was no object or held a query type
    that cannot be hashed: the update that raised on it had counted the
    query already. *)
Theorem file_process_query_always_records json_loads now query llm p r p' :
  process_query json_loads now query llm p = (p', Py.Ok r) ->
  exists count history,
    interactions_count p = Some count
    /\ session_history p = Some history
    /\ interactions_count p'
       = Some (count + if counted_twice json_loads query llm then 2 else 1)
    /\ session_history p'
       = Some (Py.last_n 100 (history ++ [entry_for now query r]))
    /\ List.last (Py.last_n 100 (history ++ [entry_for now query r]))
         (entry_for now query r)
       = entry_for now query r
    /\ (length (Py.last_n 100 (history ++ [entry_for now query r])) <= 100)%nat.
Proof.
  intros H. apply process_query_returned in H as (count & Hc & Hu).
  apply recorded_once in Hu as (count1 & history & Hc1 & Hh & Hc' & Hh').
  exists count, history. rewrite <- !limit_100_last_n.
  split; [exact Hc|].
  destruct (counted_twice json_loads query llm); simpl in Hc1, Hh.
  - injection Hc1 as <-. repeat split; try assumption.
    + rewrite Hc'. f_equal. lia.
    + apply limit_100_newest.
    + apply limit_100_length.
  - rewrite Hc in Hc1. injection Hc1 as <-. repeat split; try assumption.
    + apply limit_100_newest.
    + apply limit_100_length.
Qed.

(** A new profile answered once with a list as the collaborator's text. *)
Definition decodes_to_list (text : string) : option decoded :=
  Some not_an_object.

Lemma file_process_query_always_records_witness :
  let out :=
    process_query decodes_to_list "" "what is recursion" (chain_returns "[]")
      new_profile in
  out.2 = Py.Ok (basic_response_of "beginner" ["visual"; "textual"]
                   "what is recursion")
  /\ interactions_count out.1 = Some (0 + 2).
Proof.
  intros out.
  assert (H : out = (out.1, Py.Ok (basic_response_of "beginner"
                                     ["visual"; "textual"]
                                     "what is recursion"))).
  { rewrite (surjective_pairing out) at 1. f_equal. }
  split; [now rewrite H|].
  destruct (file_process_query_always_records decodes_to_list ""
              "what is recursion" (chain_returns "[]") new_profile _ _ H)
    as (count & history & [= <-] & _ & Hc & _).
  exact Hc.
Defined.

(** *** Profiles that hold every key *)

Lemma same_keys_complete p p' : same_keys p p' -> complete p -> complete p'.
Proof.
  unfold same_keys, complete. intuition.
Qed.

Lemma update_on_complete now query r p :
  complete p ->
  exists p',
    _update_profile_from_interaction now query (shaped r) p = (p', Py.Ok tt)
    /\ complete p'.
Proof.
  intros Hp.
  pose proof (update_records now query r p) as Hok.
  pose proof (update_same_keys now query (shaped r) p) as Hk.
  destruct (_update_profile_from_interaction now query (shaped r) p)
    as [p' o]. cbn [fst snd] in *.
  exists p'. split; [|now apply (same_keys_complete p)].
  f_equal. unfold complete in Hp. apply Hok; tauto.
Qed.

Lemma answer_basic_on_complete now query p :
  complete p ->
  exists p' r, answer_basic now query p = (p', Py.Ok r) /\ complete p'.
Proof.
  intros Hp. rewrite answer_basic_cases.
  pose proof Hp as (_ & [styles ->] & [level ->] & _).
  cbv zeta.
  destruct (update_on_complete now query
              (basic_response_of level styles query) p Hp) as (p' & -> & Hp').
  eauto.
Qed.

(** [process_query] returns on every profile that holds its keys. *)
Lemma file_process_query_returns json_loads now query llm p :
  complete p ->
  exists p' r,
    process_query json_loads now query llm p = (p', Py.Ok r) /\ complete p'.
Proof.
  intros Hp. rewrite process_query_cases.
  destruct (_is_greeting_or_casual query).
  { destruct (update_on_complete now query greeting_response p Hp)
      as (p' & -> & Hp'). eauto. }
  destruct (_is_non_educational query).
  { destruct (update_on_complete now query non_educational_response p Hp)
      as (p' & -> & Hp'). eauto. }
  destruct llm as [|text]; [now apply answer_basic_on_complete|].
  destruct (json_loads text) as [parsed_response|].
  - pose proof (update_same_keys now query parsed_response p) as Hk.
    destruct (_update_profile_from_interaction now query parsed_response p)
      as [p1 [[]|e]] eqn:Hu; cbn [fst] in Hk.
    + exists p1, (fields parsed_response).
      split; [reflexivity|now apply (same_keys_complete p)].
    + apply answer_basic_on_complete. now apply (same_keys_complete p).
  - destruct (answer_basic_on_complete now query p Hp) as (p' & r & -> & Hp').
    eauto.
Qed.

(** *** Failures of the collaborator *)

(** For a query that holds neither kind of phrase, a failed collaborator
    call or an undecodable text is answered from the profile. *)
Lemma file_fallback json_loads now query llm p :
  complete p ->
  _is_greeting_or_casual query = false ->
  _is_non_educational query = false ->
  match llm with
  | chain_raises => True
  | chain_returns text => json_loads text = None
  end ->
  exists p' level styles,
    process_query json_loads now query llm p
    = (p', Py.Ok (basic_response_of level styles query))
    /\ skill_level p = Some level
    /\ preferred_learning_styles p = Some styles.
Proof.
  intros Hp Hg Hn Hllm. rewrite process_query_cases, Hg, Hn.
  destruct (answer_basic_on_complete now query p Hp) as (p' & r & Hb & _).
  pose proof Hb as Hr.
  apply answer_basic_returns in Hr as (_ & level & styles & Hl & Hs & ->).
  exists p', level, styles.
  destruct llm as [|text]; [auto|]. rewrite Hllm, Hb. auto.
Qed.

(** Without the key interaction_types every call raises KeyError to its
    caller, whatever the query and the collaborator. *)
Lemma update_without_types now query response p :
  interaction_types p = None ->
  exists p' e,
    _update_profile_from_interaction now query response p = (p', Py.Raise e)
    /\ interaction_types p' = None
    /\ (forall r, response = shaped r -> e = Py.KeyError).
Proof.
  destruct p as [[count|] styles level areas improve history interests
                 [types|] log];
    [discriminate| |discriminate|]; intros _;
    destruct response as [r|r|]; run_update; do 2 eexists;
    (split; [reflexivity|]); split; try reflexivity; congruence.
Qed.

Lemma answer_basic_without_types now query p :
  interaction_types p = None ->
  exists p',
    answer_basic now query p = (p', Py.Raise Py.KeyError)
    /\ interaction_types p' = None.
Proof.
  intros Ht. rewrite answer_basic_cases.
  destruct (skill_level p) as [level|]; [|eauto].
  destruct (preferred_learning_styles p) as [styles|]; [|eauto].
  cbv zeta.
  destruct (update_without_types now query
              (shaped (basic_response_of level styles query)) p Ht)
    as (p' & e & -> & Ht' & He).
  rewrite (He _ eq_refl). eauto.
Qed.

Lemma file_missing_key_raises json_loads now query llm p :
  interaction_types p = None ->
  (process_query json_loads now query llm p).2 = Py.Raise Py.KeyError.
Proof.
  intros Ht. rewrite process_query_cases.
  destruct (_is_greeting_or_casual query).
  { destruct (update_without_types now query (shaped greeting_response) p Ht)
      as (p' & e & -> & _ & He). now rewrite (He _ eq_refl). }
  destruct (_is_non_educational query).
  { destruct (update_without_types now query
                (shaped non_educational_response) p Ht)
      as (p' & e & -> & _ & He). now rewrite (He _ eq_refl). }
  destruct llm as [|text].
  { destruct (answer_basic_without_types now query p Ht) as (p' & -> & _).
    reflexivity. }
  destruct (json_loads text) as [parsed_response|].
  - destruct (update_without_types now query parsed_response p Ht)
      as (p1 & e & -> & Ht1 & _).
    destruct (answer_basic_without_types now query p1 Ht1) as (p' & -> & _).
    reflexivity.
  - destruct (answer_basic_without_types now query p Ht) as (p1 & -> & Ht1).
    destruct (answer_basic_without_types now query p1 Ht1) as (p' & -> & _).
    reflexivity.
Qed.

(** *** Greetings *)

Lemma contains_history_hi s :
  Py.contains "history" s = true -> Py.contains "hi" s = true.
Proof.
  induction s as [|c t IH]; [discriminate|].
  cbn [Py.contains]. rewrite !orb_true_iff. intros [Hp|Ht].
  - left. cbn [String.prefix] in *.
    destruct (ascii_dec "h" c); [|discriminate].
    destruct t as [|d t]; [discriminate|].
    cbn [String.prefix] in *.
    destruct (ascii_dec "i" d); [now destruct t|discriminate].
  - right. now apply IH.
Qed.

(** A query that [_infer_topic] files under "history" is answered as a
    greeting before any topic is inferred. *)
Lemma file_history_queries_are_greetings query :
  Py.contains "history" (Py.lower query) = true ->
  _is_greeting_or_casual query = true.
Proof.
  intros H. apply contains_history_hi in H.
  unfold _is_greeting_or_casual, Py.any_in, greetings.
  cbn [existsb]. rewrite H. now rewrite orb_true_r.
Qed.

(** *** Feedback, statement by statement *)

Ltac run_feedback :=
  cbv [provide_feedback getitem Py.write mbind method_bind
       Py.and_then Py.lift Py.returns
       set_feedback set_knowledge_areas set_areas_for_improvement
       interactions_count preferred_learning_styles skill_level
       knowledge_areas areas_for_improvement session_history topic_interests
       interaction_types feedback fst snd].

(** A knowledge area set back to beginner. *)
Definition reset_area (t : string) (areas : gmap string KnowledgeArea)
    : gmap string KnowledgeArea :=
  match areas !! t with
  | Some a =>
      if negb (String.eqb (estimated_skill a) "beginner")
      then <[t := mkArea (interactions a) (last_interaction a) "beginner"]>
             areas
      else areas
  | None => areas
  end.

Lemma feedback_frame now query helpful text p :
  let out := provide_feedback now query helpful text p in
  interactions_count out.1 = interactions_count p
  /\ preferred_learning_styles out.1 = preferred_learning_styles p
  /\ skill_level out.1 = skill_level p
  /\ session_history out.1 = session_history p
  /\ topic_interests out.1 = topic_interests p
  /\ interaction_types out.1 = interaction_types p
  /\ feedback out.1
     = (fun log => limit_100 (log ++ [mkFeedback now query helpful text]))
         <$> feedback p
  /\ (knowledge_areas out.1 = knowledge_areas p
      \/ knowledge_areas out.1
         = reset_area (_infer_topic query) <$> knowledge_areas p)
  /\ same_keys p out.1.
Proof.
  unfold reset_area, same_keys.
  destruct p as [count styles level [areas|] [improve|] history interests
                 types [log|]];
    destruct helpful; run_feedback; cbn;
    try (destruct (areas !! _infer_topic query) as [a|];
         try destruct (negb (String.eqb (estimated_skill a) "beginner")));
    cbn; repeat split; auto; unfold is_Some; eauto.
Qed.

(** The file-backed agent keeps both logs at 100 entries at most, drops the
    oldest entries first and retains the newest one. *)
Lemma file_logs_capped now query response helpful text p history log :
  session_history p = Some history ->
  feedback p = Some log ->
  let p1 := (_update_profile_from_interaction now query response p).1 in
  let p2 := (provide_feedback now query helpful text p).1 in
  (session_history p1 = Some history
   \/ exists e, session_history p1 = Some (Py.last_n 100 (history ++ [e]))
                /\ List.last (Py.last_n 100 (history ++ [e])) e = e
                /\ (length (Py.last_n 100 (history ++ [e])) <= 100)%nat)
  /\ exists e, feedback p2 = Some (Py.last_n 100 (log ++ [e]))
               /\ List.last (Py.last_n 100 (log ++ [e])) e = e
               /\ (length (Py.last_n 100 (log ++ [e])) <= 100)%nat.
Proof.
  intros Hh Hl p1 p2. split.
  - subst p1.
    destruct (_update_profile_from_interaction now query response p)
      as [p1 [[]|e]] eqn:Hu; cbn [fst].
    + right. apply update_returns in Hu
        as (r & count & types & history0 & -> & _ & _ & Hh0 & -> & _).
      rewrite Hh in Hh0. injection Hh0 as <-.
      exists (entry_for now query r). cbn [session_history].
      rewrite <- limit_100_last_n.
      split; [reflexivity|].
      split; [apply limit_100_newest|apply limit_100_length].
    + left. pose proof (update_frame now query response p) as Hf.
      rewrite Hu in Hf. cbn [fst snd] in Hf.
      destruct Hf as (_ & _ & _ & _ & _ & Hs & _).
      rewrite Hs by discriminate. exact Hh.
  - subst p2.
    destruct (feedback_frame now query helpful text p)
      as (_ & _ & _ & _ & _ & _ & Hf & _).
    rewrite Hf, Hl. cbn [fmap option_fmap option_map].
    eexists. rewrite <- limit_100_last_n.
    split; [reflexivity|].
    split; [apply limit_100_newest|apply limit_100_length].
Qed.

(** *** Sequences of events *)

(** What happens to an agent: [_update_profile_from_interaction] is called
    with a query and an answer, [process_query] is called with a query and
    the collaborator does something, or [provide_feedback] is called. The
    agent keeps its profile when a call raises. *)
Inductive event :=
| Recorded (query : string) (response : decoded)
| Asked (query : string) (llm : chain_outcome)
| Rated (query : string) (helpful : bool) (text : option string).

Section Runs.

Variable json_loads : string -> option decoded.

Definition apply_event (now : string) (p : Profile) (e : event) : Profile :=
  match e with
  | Recorded query response =>
      (_update_profile_from_interaction now query response p).1
  | Asked query llm => (process_query json_loads now query llm p).1
  | Rated query helpful text => (provide_feedback now query helpful text p).1
  end.

Definition run (now : string) (p : Profile) (events : list event) : Profile :=
  fold_left (apply_event now) events p.

(** The updates that an event starts ... *)
Definition updates_started (e : event) : Z :=
  match e with
  | Recorded _ _ => 1
  | Asked query llm => if counted_twice json_loads query llm then 2 else 1
  | Rated _ _ _ => 0
  end.

(** ... and the updates that it completes, on a profile that holds every
    key. *)
Definition updates_completed (e : event) : Z :=
  match e with
  | Recorded _ (shaped _) => 1
  | Recorded _ _ => 0
  | Asked _ _ => 1
  | Rated _ _ _ => 0
  end.

Definition sum_over (f : event -> Z) (events : list event) : Z :=
  fold_right (fun e acc => f e + acc) 0 events.

(** An invariant of the update is an invariant of [process_query]. *)
Lemma process_query_preserves (I : Profile -> Prop) :
  (forall now query response p,
     I p -> I (_update_profile_from_interaction now query response p).1) ->
  forall now query llm p,
    I p -> I (process_query json_loads now query llm p).1.
Proof.
  intros Hupdate now query llm p Hp.
  assert (Hbasic : forall p0, I p0 -> I (answer_basic now query p0).1).
  { intros p0 Hp0.
    destruct (answer_basic_state now query p0) as [->|[r ->]];
      [exact Hp0|now apply Hupdate]. }
  assert (Hfirst : forall response (r : Response),
    I (match _update_profile_from_interaction now query response p with
       | (p', Py.Ok _) => (p', Py.Ok r)
       | (p', Py.Raise e) => (p', Py.Raise e)
       end).1).
  { intros response r. pose proof (Hupdate now query response p Hp) as H.
    destruct (_update_profile_from_interaction now query response p)
      as [p' [[]|e]]; exact H. }
  rewrite process_query_cases.
  destruct (_is_greeting_or_casual query); [apply Hfirst|].
  destruct (_is_non_educational query); [apply Hfirst|].
  destruct llm as [|text]; [now apply Hbasic|].
  destruct (json_loads text) as [parsed_response|].
  - pose proof (Hupdate now query parsed_response p Hp) as H.
    destruct (_update_profile_from_interaction now query parsed_response p)
      as [p' [[]|e]]; [exact H|now apply Hbasic].
  - pose proof (Hbasic p Hp) as H.
    destruct (answer_basic now query p) as [p' [r|e]];
      [exact H|now apply Hbasic].
Qed.

End Runs.

(** The sum of the counters of [interaction_types]. *)
Definition total (types : gmap string Z) : Z :=
  map_fold (fun _ n acc => n + acc) 0 types.

Lemma total_insert (types : gmap string Z) k n :
  total (<[k := n]> types) = total types - default 0 (types !! k) + n.
Proof.
  unfold total. destruct (types !! k) as [m|] eqn:Hk; simpl.
  - rewrite <- (insert_delete_eq types).
    rewrite map_fold_insert_L; [|intros; lia|apply lookup_delete_eq].
    rewrite (map_fold_delete_L _ _ k m types); [lia|intros; lia|exact Hk].
  - rewrite map_fold_insert_L; [lia|intros; lia|exact Hk].
Qed.

(** The count and the sum of the counters after an update that
    returned. *)
Lemma recorded_counters now query r p p' :
  _update_profile_from_interaction now query (shaped r) p = (p', Py.Ok tt) ->
  exists count types,
    interactions_count p = Some count
    /\ interaction_types p = Some types
    /\ interactions_count p' = Some (count + 1)
    /\ exists types', interaction_types p' = Some types'
                      /\ total types' = total types + 1.
Proof.
  intros H. apply update_returns in H
    as (r0 & count & types & history & [= <-] & Hc & Ht & _ & -> & _).
  exists count, types. repeat split; try assumption.
  eexists. split; [reflexivity|]. unfold count_type. rewrite total_insert. lia.
Qed.

(** One event on a profile that holds every key. *)
Lemma counters_after_event json_loads now e p count types :
  complete p ->
  interactions_count p = Some count ->
  interaction_types p = Some types ->
  let p' := apply_event json_loads now p e in
  complete p'
  /\ interactions_count p' = Some (count + updates_started json_loads e)
  /\ exists types', interaction_types p' = Some types'
                    /\ total types' = total types + updates_completed e.
Proof.
  intros Hp Hc Ht. destruct e as [query response|query llm|query helpful text];
    cbn [apply_event updates_started updates_completed].
  - destruct response as [r| |].
    + destruct (update_on_complete now query r p Hp) as (p' & Hu & Hp').
      rewrite Hu. cbn [fst]. split; [exact Hp'|].
      apply recorded_counters in Hu
        as (count0 & types0 & Hc0 & Ht0 & Hc' & types' & Ht' & Htotal).
      rewrite Hc in Hc0. rewrite Ht in Ht0.
      injection Hc0 as <-. injection Ht0 as <-. eauto.
    + pose proof (update_same_keys now query (unhashable_query_type r) p) as Hk.
      pose proof (update_frame now query (unhashable_query_type r) p) as Hf.
      destruct (_update_profile_from_interaction now query
                  (unhashable_query_type r) p) as [p' [[]|e]] eqn:Hu;
        [apply update_returns in Hu as (? & ? & ? & ? & ? & _); discriminate|].
      cbn [fst snd] in *. split; [now apply (same_keys_complete p)|].
      destruct Hf as (_ & _ & _ & _ & Hc' & _).
      rewrite Hc', Hc. split; [reflexivity|].
      assert (He : e <> Py.KeyError).
      { intros ->. apply (update_key_error _ _ _ _ _ Hu).
        unfold complete in Hp. tauto. }
      destruct (update_aborts _ _ _ _ _ _ Hu He) as (_ & count0 & _ & ->).
      exists types. split; [exact Ht|lia].
    + pose proof (update_same_keys now query not_an_object p) as Hk.
      pose proof (update_frame now query not_an_object p) as Hf.
      destruct (_update_profile_from_interaction now query not_an_object p)
        as [p' [[]|e]] eqn:Hu;
        [apply update_returns in Hu as (? & ? & ? & ? & ? & _); discriminate|].
      cbn [fst snd] in *. split; [now apply (same_keys_complete p)|].
      destruct Hf as (_ & _ & _ & _ & Hc' & _).
      rewrite Hc', Hc. split; [reflexivity|].
      assert (He : e <> Py.KeyError).
      { intros ->. apply (update_key_error _ _ _ _ _ Hu).
        unfold complete in Hp. tauto. }
      destruct (update_aborts _ _ _ _ _ _ Hu He) as (_ & count0 & _ & ->).
      exists types. split; [exact Ht|lia].
  - destruct (file_process_query_returns json_loads now query llm p Hp)
      as (p' & r & Hq & Hp').
    rewrite Hq. cbn [fst]. split; [exact Hp'|].
    apply process_query_returned in Hq as (count0 & Hc0 & Hu).
    rewrite Hc in Hc0. injection Hc0 as <-.
    apply recorded_counters in Hu
      as (count1 & types1 & Hc1 & Ht1 & Hc' & types' & Ht' & Htotal).
    destruct (counted_twice json_loads query llm); cbn in Hc1, Ht1.
    + injection Hc1 as <-. rewrite Ht in Ht1. injection Ht1 as <-.
      split; [rewrite Hc'; f_equal; lia|eauto].
    + rewrite Hc in Hc1. injection Hc1 as <-.
      rewrite Ht in Ht1. injection Ht1 as <-. eauto.
  - destruct (feedback_frame now query helpful text p)
      as (Hc' & _ & _ & _ & _ & Ht' & _ & _ & Hk).
    split; [now apply (same_keys_complete p)|].
    rewrite Hc', Hc, Ht', Ht. split; [f_equal; lia|].
    exists types. split; [reflexivity|lia].
Qed.

(** X15: from a new profile on, interactions_count is the number of
    updates that were started and the interaction-type counters add up to
    the number of updates that were completed; feedback counts as
    neither. A call of [process_query] completes one update, and starts two
    when the collaborator's text decoded to a value that the first update
    could not read, so the count runs ahead of the counters by one for each
    such call. *)
Theorem interactions_count_is_the_sum_of_counters json_loads now events :
  let p := run json_loads now new_profile events in
  interactions_count p
    = Some (sum_over (updates_started json_loads) events)
  /\ exists types,
       interaction_types p = Some types
       /\ total types = sum_over updates_completed events
       /\ sum_over updates_completed events
          <= sum_over (updates_started json_loads) events.
Proof.
  assert (H : forall p count types,
    complete p -> interactions_count p = Some count ->
    interaction_types p = Some types ->
    interactions_count (run json_loads now p events)
      = Some (count + sum_over (updates_started json_loads) events)
    /\ exists types',
         interaction_types (run json_loads now p events) = Some types'
         /\ total types'
            = total types + sum_over updates_completed events).
  { induction events as [|e events IH]; intros p count types Hp Hc Ht.
    - cbn. split; [rewrite Hc; f_equal; lia|].
      exists types. split; [exact Ht|lia].
    - destruct (counters_after_event json_loads now e p count types Hp Hc Ht)
        as (Hp' & Hc' & types' & Ht' & Htotal).
      destruct (IH _ _ _ Hp' Hc' Ht') as (IHc & types'' & IHt & IHtotal).
      unfold run, sum_over in *. cbn [fold_left fold_right].
      split; [rewrite IHc; f_equal; lia|].
      exists types''. split; [exact IHt|]. rewrite IHtotal, Htotal. lia. }
  assert (Hle : sum_over updates_completed events
                <= sum_over (updates_started json_loads) events).
  { clear H. unfold sum_over.
    induction events as [|e events IH]; cbn [fold_right]; [lia|].
    assert (updates_completed e <= updates_started json_loads e).
    { destruct e as [query [| |]|query llm|]; cbn; try lia.
      destruct (counted_twice json_loads query llm); lia. }
    lia. }
  assert (Hnew : complete new_profile)
    by (unfold complete, new_profile; cbn; unfold is_Some; repeat split; eauto).
  destruct (H new_profile 0 _ Hnew eq_refl eq_refl)
    as (Hc & types & Ht & Htotal).
  cbv zeta. split; [rewrite Hc; f_equal; lia|].
  exists types. split; [exact Ht|]. split; [|exact Hle].
  rewrite Htotal.
  assert (H0 : forall m : gmap string Z,
    m = <["greeting" := 0]> (<["non_educational" := 0]>
          (<["educational" := 0]> ∅)) -> total m = 0).
  { intros m ->. rewrite !total_insert. reflexivity. }
  rewrite (H0 _ eq_refl). lia.
Qed.

(** *** Topics *)

(** Every topic of interest has a knowledge area and is listed once. *)
Definition topics_consistent (p : Profile) : Prop :=
  NoDup (default [] (topic_interests p))
  /\ forall t, t ∈ default [] (topic_interests p) ->
       exists areas, knowledge_areas p = Some areas /\ is_Some (areas !! t).

Lemma touch_area_keeps now t (areas : gmap string KnowledgeArea) k :
  is_Some (areas !! k) \/ k = t -> is_Some (touch_area now t areas !! k).
Proof.
  intros Hk. unfold touch_area.
  destruct (decide (k = t)) as [->|Hne].
  - destruct (areas !! t); rewrite lookup_insert_eq; eauto.
  - destruct Hk as [Hk|Hk]; [|contradiction].
    destruct (areas !! t); now rewrite lookup_insert_ne.
Qed.

Lemma reset_area_keeps t (areas : gmap string KnowledgeArea) k :
  is_Some (areas !! k) -> is_Some (reset_area t areas !! k).
Proof.
  intros Hk. unfold reset_area.
  destruct (areas !! t) as [a|] eqn:Ha; [|exact Hk].
  destruct (negb _); [|exact Hk].
  destruct (decide (k = t)) as [->|Hne].
  - rewrite lookup_insert_eq. eauto.
  - now rewrite lookup_insert_ne.
Qed.

Lemma add_topic_NoDup t topics : NoDup topics -> NoDup (add_topic t topics).
Proof.
  intros Hnd. unfold add_topic. case_bool_decide as Hin; [exact Hnd|].
  apply NoDup_app. split; [exact Hnd|]. split; [|apply NoDup_singleton].
  intros x Hx Hx'. apply list_elem_of_singleton in Hx'. now subst.
Qed.

Lemma add_topic_elem t topics k :
  k ∈ add_topic t topics -> k ∈ topics \/ k = t.
Proof.
  unfold add_topic. case_bool_decide; [auto|].
  intros Hk. apply elem_of_app in Hk as [Hk|Hk]; [auto|].
  right. now apply list_elem_of_singleton in Hk.
Qed.

Lemma topics_consistent_update now query response p :
  topics_consistent p ->
  topics_consistent (_update_profile_from_interaction now query response p).1.
Proof.
  intros [Hnd Hareas].
  destruct (update_frame now query response p)
    as (_ & _ & _ & _ & _ & _ & Ha & Hi).
  set (p' := (_update_profile_from_interaction now query response p).1) in *.
  set (t := _infer_topic query) in *.
  unfold topics_consistent.
  destruct Hi as [Hi|(Hi & Ha' & [areas Hsome])].
  - rewrite Hi. split; [exact Hnd|]. intros k Hk.
    destruct (Hareas k Hk) as (areas & Hp & Hin).
    destruct Ha as [Ha|Ha]; rewrite Ha, Hp; [eauto|].
    eexists. split; [reflexivity|]. apply touch_area_keeps. now left.
  - rewrite Hi, Ha', Hsome. clear Ha.
    destruct (topic_interests p) as [topics|] eqn:Ht; cbn in *.
    + split; [now apply add_topic_NoDup|]. intros k Hk.
      eexists. split; [reflexivity|]. apply touch_area_keeps.
      apply add_topic_elem in Hk as [Hk|Hk]; [left|now right].
      destruct (Hareas k Hk) as (areas0 & Hp & Hin).
      rewrite Hsome in Hp. injection Hp as <-. exact Hin.
    + split; [exact Hnd|]. intros k Hk. now apply elem_of_nil in Hk.
Qed.

Lemma topics_consistent_feedback now query helpful text p :
  topics_consistent p ->
  topics_consistent (provide_feedback now query helpful text p).1.
Proof.
  intros [Hnd Hareas].
  destruct (feedback_frame now query helpful text p)
    as (_ & _ & _ & _ & Hi & _ & _ & Ha & _).
  unfold topics_consistent. rewrite Hi. split; [exact Hnd|].
  intros k Hk. destruct (Hareas k Hk) as (areas & Hp & Hin).
  destruct Ha as [Ha|Ha]; rewrite Ha, Hp; [eauto|].
  eexists. split; [reflexivity|]. now apply reset_area_keeps.
Qed.

(** X16: over any sequence of updates, queries and feedbacks, starting from
    a new profile and whatever the collaborator answers, the topics of
    interest stay free of duplicates and each of them has a knowledge
    area, also when a call raises half-way. *)
Theorem topics_of_interest_stay_consistent json_loads now events :
  topics_consistent (run json_loads now new_profile events).
Proof.
  assert (H : forall p, topics_consistent p ->
                        topics_consistent (run json_loads now p events)).
  { induction events as [|e events IH]; intros p Hp; [exact Hp|].
    unfold run in *. cbn [fold_left]. apply IH.
    destruct e as [query response|query llm|query helpful text];
      cbn [apply_event].
    - now apply topics_consistent_update.
    - apply (process_query_preserves json_loads topics_consistent);
        [|exact Hp].
      intros; now apply topics_consistent_update.
    - now apply topics_consistent_feedback. }
  apply H. split; [apply NoDup_nil_2|].
  intros t Ht. now apply elem_of_nil in Ht.
Qed.

(** *** Logs over a run *)

(** Both logs hold at most 100 entries; a missing log counts as empty. *)
Definition logs_within_100 (p : Profile) : Prop :=
  (length (default [] (session_history p)) <= 100)%nat
  /\ (length (default [] (feedback p)) <= 100)%nat.

Lemma logs_within_100_update now query response p :
  logs_within_100 p ->
  logs_within_100 (_update_profile_from_interaction now query response p).1.
Proof.
  intros [Hs Hf]. unfold logs_within_100.
  destruct (update_frame now query response p)
    as (_ & _ & _ & Hf' & _ & Hs' & _).
  destruct (_update_profile_from_interaction now query response p)
    as [p' [[]|e]] eqn:Hu; cbn [fst snd] in *.
  - rewrite Hf'. split; [|exact Hf].
    apply update_returns in Hu as (r & ? & ? & ? & _ & _ & _ & _ & -> & _).
    cbn. apply limit_100_length.
  - rewrite Hf', Hs' by discriminate. auto.
Qed.

(** X17: in this agent both logs hold at most 100 entries after every event
    of any run that starts with logs of at most 100 entries, whatever the
    profile holds otherwise, whatever the collaborator answers and also
    when a call raises. *)
Theorem file_logs_stay_within_100 json_loads now events : forall p,
  (length (default [] (session_history p)) <= 100)%nat ->
  (length (default [] (feedback p)) <= 100)%nat ->
  (length (default [] (session_history (run json_loads now p events)))
   <= 100)%nat
  /\ (length (default [] (feedback (run json_loads now p events)))
      <= 100)%nat.
Proof.
  induction events as [|e events IH]; intros p Hs Hf; [auto|].
  unfold run in *. cbn [fold_left].
  assert (H : logs_within_100 (apply_event json_loads now p e)).
  { destruct e as [query response|query llm|query helpful text];
      cbn [apply_event].
    - now apply logs_within_100_update.
    - apply (process_query_preserves json_loads logs_within_100);
        [|now split].
      intros; now apply logs_within_100_update.
    - destruct (feedback_frame now query helpful text p)
        as (_ & _ & _ & Hs' & _ & _ & Hf' & _).
      unfold logs_within_100. rewrite Hs', Hf'. split; [exact Hs|].
      destruct (feedback p); cbn; [apply limit_100_length|lia]. }
  destruct H as [Hs' Hf']. now apply IH.
Qed.

(** A profile whose session history holds 100 entries. *)
Definition full_history : Profile :=
  set_session_history (repeat (mkEntry "" "hello" "greeting" None) 100)
    new_profile.

Lemma file_logs_stay_within_100_witness :
  (length (default []
     (session_history
        (run (fun _ => None) "" full_history
           [Asked "hello" chain_raises; Rated "hello" false None])))
   <= 100)%nat.
Proof.
  apply (file_logs_stay_within_100 (fun _ => None) ""
           [Asked "hello" chain_raises; Rated "hello" false None]
           full_history).
  - apply Nat.leb_le. vm_compute. reflexivity.
  - apply Nat.leb_le. vm_compute. reflexivity.
Defined.

(** *** Feedback *)

(** X18: a helpful feedback only extends the feedback log. An unhelpful
    one, on a profile that holds the three keys it reads, also lists the
    inferred topic among the areas for improvement, once, and sets an
    existing knowledge area of that topic back to beginner without touching
    its interaction count or any other area. *)
Theorem unhelpful_feedback_marks_the_topic now p query text :
  let t := _infer_topic query in
  let good := (provide_feedback now query true text p).1 in
  let bad := (provide_feedback now query false text p).1 in
  good = mkProfile (interactions_count p) (preferred_learning_styles p)
           (skill_level p) (knowledge_areas p) (areas_for_improvement p)
           (session_history p) (topic_interests p) (interaction_types p)
           (feedback good)
  /\ (forall log,
        feedback p = Some log ->
        feedback good
        = Some (Py.last_n 100 (log ++ [mkFeedback now query true text])))
  /\ (forall log areas topics,
        feedback p = Some log ->
        knowledge_areas p = Some areas ->
        areas_for_improvement p = Some topics ->
        exists areas' topics',
          (provide_feedback now query false text p).2 = Py.Ok tt
          /\ knowledge_areas bad = Some areas'
          /\ areas_for_improvement bad = Some topics'
          /\ t ∈ topics'
          /\ (NoDup topics -> NoDup topics')
          /\ (forall a, areas !! t = Some a ->
                areas' !! t
                = Some (mkArea (interactions a) (last_interaction a)
                          "beginner"))
          /\ (forall k, k <> t -> areas' !! k = areas !! k)).
Proof.
  cbv zeta. set (t := _infer_topic query). split; [|split].
  - destruct p as [count styles level areas improve history interests
                   types [log|]]; reflexivity.
  - intros log Hl.
    destruct (feedback_frame now query true text p)
      as (_ & _ & _ & _ & _ & _ & Hf & _).
    rewrite Hf, Hl. cbn. now rewrite limit_100_last_n.
  - intros log areas topics Hl Ha Hi.
    destruct p as [count styles level areas0 improve history interests
                   types log0]; cbn in Hl, Ha, Hi; subst.
    exists (reset_area t areas), (add_topic t topics).
    assert (Hrun :
      provide_feedback now query false text
        (mkProfile count styles level (Some areas) (Some topics) history
           interests types (Some log))
      = (mkProfile count styles level (Some (reset_area t areas))
           (Some (add_topic t topics)) history interests types
           (Some (limit_100 (log ++ [mkFeedback now query false text]))),
         Py.Ok tt)).
    { unfold reset_area, add_topic. run_feedback. fold t.
      destruct (areas !! t) as [a|]; [|reflexivity].
      destruct (negb (String.eqb (estimated_skill a) "beginner"));
        reflexivity. }
    rewrite Hrun. cbn [fst snd knowledge_areas areas_for_improvement].
    repeat split.
    + unfold add_topic. case_bool_decide as Hin; [exact Hin|].
      apply elem_of_app. right. apply list_elem_of_here.
    + apply add_topic_NoDup.
    + intros a Hat. unfold reset_area. rewrite Hat.
      destruct (String.eqb_spec (estimated_skill a) "beginner") as [He|He];
        cbn [negb].
      * rewrite Hat. destruct a; cbn in *. now subst.
      * now rewrite lookup_insert_eq.
    + intros k Hk. unfold reset_area.
      destruct (areas !! t) as [a|]; [|reflexivity].
      destruct (negb _); [|reflexivity].
      now rewrite lookup_insert_ne by congruence.
Qed.

End FileAgent.

(** ** The fallback of [process_query] in the two agents *)
Module Fallback.
Import Wire.

(** A learner whom the Supabase-backed agent holds as advanced. *)
Definition advanced_learner : DbAgent.Profile :=
  DbAgent.mkProfile (Some "Ada") 60 "advanced" ["code_examples"] None []
    None.

(** An educational question: it holds no greeting, profile or
    non-educational phrase of either agent. *)
Definition question : string := "explain recursion in python".

(** An answer of the collaborator without any JSON in it. *)
Definition prose : string := "I am sorry, I cannot help with that.".

(** [json.loads] on the text of an empty object. *)
Definition empty_object : Response :=
  mkResponse None None None None None None None None None None.

Definition loads_empty_object (text : string) : option DbAgent.decoded :=
  if String.eqb text "{}" then Some (DbAgent.shaped empty_object) else None.

(** A profile file of the file-backed agent that was written without the
    key interaction_types. *)
Definition older_file : FileAgent.Profile :=
  FileAgent.mkProfile (Some 3) (Some ["visual"]) (Some "intermediate")
    (Some ∅) (Some []) (Some []) (Some []) None (Some []).

(** C5 fails on the code, in both of its parts. The collaborator's answer
    to an educational question is prose without a brace, or the call
    fails: the Supabase-backed agent answers an advanced learner at level
    beginner with the styles visual and textual, not with the level and
    the styles of the profile, because the ValueError for a text without
    JSON passes the handler for undecodable JSON, which does build the
    answer from the profile, and reaches the outer handler. A decoded
    empty object is returned as it is, without any level. And the
    file-backed agent raises KeyError to its caller, whatever the
    collaborator does, when the profile file lacks the key
    interaction_types: the two keyword branches update the profile before
    the [try] and the outer handler updates it where nothing catches. *)
Theorem process_query_misses_the_fallback :
  (DbAgent._is_greeting_or_casual question = false
   /\ DbAgent._is_profile_or_memory_query question = false
   /\ DbAgent._is_non_educational question = false
   /\ FileAgent._is_greeting_or_casual question = false
   /\ FileAgent._is_non_educational question = false)
  /\ (forall json_loads extract now llm,
        llm = chain_raises \/ llm = chain_returns prose ->
        exists r,
          DbAgent.process_query json_loads extract now advanced_learner
            question llm = Py.Ok (r, advanced_learner)
          /\ query_type r = Some "educational"
          /\ tailored_query r = Some question
          /\ level r = Some "beginner"
          /\ level r <> Some (DbAgent.skill_level advanced_learner)
          /\ learning_style r = Some ["visual"; "textual"]
          /\ learning_style r
             <> Some (DbAgent.preferred_learning_styles advanced_learner))
  /\ (forall extract now,
        exists p',
          DbAgent.process_query loads_empty_object extract now
            advanced_learner question (chain_returns "{}")
          = Py.Ok (empty_object, p')
          /\ query_type empty_object = None
          /\ level empty_object = None)
  /\ (forall json_loads now query llm,
        (FileAgent.process_query json_loads now query llm older_file).2
        = Py.Raise Py.KeyError).
Proof.
  split; [repeat split|]. split; [|split].
  - intros json_loads extract now llm Hllm. eexists. split.
    + apply DbAgent.db_answer_without_json; [reflexivity|].
      destruct Hllm as [->| ->]; [exact I|].
      now apply DbAgent.db_no_brace_no_json.
    + repeat split; discriminate.
  - intros extract now. eexists. split; [reflexivity|]. split; reflexivity.
  - intros json_loads now query llm.
    now apply FileAgent.file_missing_key_raises.
Qed.

End Fallback.

(** ** personalization/router.py: the /personalize route *)
Module Router.
Import Wire.

(** The pydantic model [PersonalizationResponse]: six required fields;
    other keys of the answer are ignored. *)
Record PersonalizationResponse := mkPersonalizationResponse {
  level : string;
  learning_style : list string;
  emphasis : list string;
  knowledge_gaps : list string;
  connections : list string;
  tailored_instruction : string
}.

(** The model built from the keys of the answer: [None] stands for the
    validation error raised when a required field is missing. *)
Definition validate (r : Response) : option PersonalizationResponse :=
  lvl ← Wire.level r;
  styles ← Wire.learning_style r;
  emph ← Wire.emphasis r;
  gaps ← Wire.knowledge_gaps r;
  conns ← Wire.connections r;
  instruction ← Wire.tailored_instruction r;
  Some (mkPersonalizationResponse lvl styles emph gaps conns instruction).

Inductive http :=
| Http200 (body : PersonalizationResponse)
| Http500.

Section Route.

Variable json_loads : string -> option FileAgent.decoded.

(** [_load_user_profile], run when an agent is created: what the user's
    file or the template holds, or a new profile. *)
Variable load : string -> FileAgent.Profile.

(** [PersonalizationAgent(user_id)]: the constructor formats
    [self.user_profile['interactions_count']] into its log line, KeyError
    when the loaded profile lacks the key. The client of the collaborator
    is taken to be created without error. *)
Definition new_agent (user_id : string) : Py.result FileAgent.Profile :=
  let user_profile := load user_id in
  match FileAgent.interactions_count user_profile with
  | Some _ => Py.Ok user_profile
  | None => Py.Raise Py.KeyError
  end.

(** [get_agent]: the agent of the cache, created and cached on first use;
    the cache maps a user to the profile that the user's agent holds. *)
Definition get_agent (user_id : string)
    : Py.method (gmap string FileAgent.Profile) FileAgent.Profile :=
  fun agent_cache =>
    match agent_cache !! user_id with
    | Some agent => (agent_cache, Py.Ok agent)
    | None =>
        match new_agent user_id with
        | Py.Ok agent => (<[user_id := agent]> agent_cache, Py.Ok agent)
        | Py.Raise e => (agent_cache, Py.Raise e)
        end
    end.

(** [personalize_explanation]: any exception becomes status 500; the agent
    of the cache keeps what [process_query] wrote, also when it raised. *)
Definition personalize_explanation (now : string)
    (agent_cache : gmap string FileAgent.Profile) (user_id query : string)
    (llm : chain_outcome) : http * gmap string FileAgent.Profile :=
  match get_agent user_id agent_cache with
  | (agent_cache, Py.Raise _) => (Http500, agent_cache)
  | (agent_cache, Py.Ok agent) =>
      let '(agent', answer) :=
        FileAgent.process_query json_loads now query llm agent in
      (match answer with
       | Py.Ok response =>
           match validate response with
           | Some body => Http200 body
           | None => Http500
           end
       | Py.Raise _ => Http500
       end, <[user_id := agent']> agent_cache)
  end.

(** The answers that the agent makes up itself lack required fields. *)
Lemma own_answers_do_not_validate level styles query :
  validate FileAgent.greeting_response = None
  /\ validate FileAgent.non_educational_response = None
  /\ validate (FileAgent.basic_response_of level styles query) = None.
Proof. repeat split. Qed.

(** An answer of the agent validates only if it is the decoded answer of
    the collaborator. *)
Lemma answer_of_the_collaborator now query llm p p' r :
  FileAgent.process_query json_loads now query llm p = (p', Py.Ok r) ->
  validate r = None
  \/ (FileAgent._is_greeting_or_casual query = false
      /\ FileAgent._is_non_educational query = false
      /\ exists text, llm = chain_returns text
                      /\ json_loads text = Some (FileAgent.shaped r)).
Proof.
  assert (Hbasic : forall p0 p1 r0,
    FileAgent.answer_basic now query p0 = (p1, Py.Ok r0) ->
    validate r0 = None).
  { intros p0 p1 r0 H. apply FileAgent.answer_basic_returns in H
      as (_ & level & styles & _ & _ & ->). reflexivity. }
  rewrite FileAgent.process_query_cases.
  destruct (FileAgent._is_greeting_or_casual query).
  { destruct (FileAgent._update_profile_from_interaction _ _ _ p)
      as [p1 [[]|e]]; [|discriminate].
    intros [= _ <-]. now left. }
  destruct (FileAgent._is_non_educational query).
  { destruct (FileAgent._update_profile_from_interaction _ _ _ p)
      as [p1 [[]|e]]; [|discriminate].
    intros [= _ <-]. now left. }
  destruct llm as [|text]; [intros H; left; eapply Hbasic; eassumption|].
  destruct (json_loads text) as [parsed_response|] eqn:Hd.
  - destruct (FileAgent._update_profile_from_interaction _ _ _ p)
      as [p1 [[]|e]] eqn:Hu.
    + intros [= _ <-]. right.
      apply FileAgent.update_returns in Hu as (r0 & _ & _ & _ & -> & _).
      repeat split. eauto.
    + intros H. left. eapply Hbasic; eassumption.
  - destruct (FileAgent.answer_basic now query p) as [p1 [r1|e]] eqn:Hb.
    + intros [= _ <-]. left. eapply Hbasic; eassumption.
    + intros H. left. eapply Hbasic; eassumption.
Qed.

(** X19: the route answers with status 500 whenever the agent answers by
    itself: for a query with a greeting or a non-educational phrase, when
    the collaborator fails and when its text cannot be decoded or decodes
    to a value that the update cannot read; also when the agent cannot be
    created. Status 200 needs a decoded object that holds all six fields.
    The agent of the cache keeps what the call wrote: for a profile that
    holds every key the query is counted once, or twice when the decoded
    value made the first update raise. *)
Theorem personalize_fails_on_own_answers now agent_cache user_id query llm :
  let out := personalize_explanation now agent_cache user_id query llm in
  (forall agent,
     (get_agent user_id agent_cache).2 = Py.Ok agent ->
     FileAgent.complete agent ->
     exists count agent',
       FileAgent.interactions_count agent = Some count
       /\ out.2 !! user_id = Some agent'
       /\ FileAgent.interactions_count agent'
          = Some (count + if FileAgent.counted_twice json_loads query llm
                          then 2 else 1))
  /\ (FileAgent._is_greeting_or_casual query = true
      \/ FileAgent._is_non_educational query = true
      \/ llm = chain_raises
      \/ (exists text,
            llm = chain_returns text
            /\ forall r, json_loads text <> Some (FileAgent.shaped r))
      \/ (exists e, (get_agent user_id agent_cache).2 = Py.Raise e) ->
      out.1 = Http500)
  /\ (forall body, out.1 = Http200 body ->
        exists text r, llm = chain_returns text
                       /\ json_loads text = Some (FileAgent.shaped r)
                       /\ validate r = Some body).
Proof.
  cbv zeta. unfold personalize_explanation.
  destruct (get_agent user_id agent_cache) as [cache' [agent|e]] eqn:Hget;
    cbn [fst snd].
  2:{ split; [discriminate|]. split; [reflexivity|discriminate]. }
  destruct (FileAgent.process_query json_loads now query llm agent)
    as [agent' answer] eqn:Hrun. cbn [fst snd].
  split; [|split].
  - intros agent0 [= <-] Hcomplete.
    destruct (FileAgent.file_process_query_returns json_loads now query llm
                agent Hcomplete) as (p' & r & Hq & _).
    rewrite Hrun in Hq. injection Hq as <- ->.
    destruct (FileAgent.process_query_returned _ _ _ _ _ _ _ Hrun)
      as (count & Hc & Hu).
    apply FileAgent.recorded_once in Hu as (count1 & _ & Hc1 & _ & Hc' & _).
    exists count, agent'. rewrite lookup_insert_eq.
    split; [exact Hc|]. split; [reflexivity|]. rewrite Hc'. f_equal.
    destruct (FileAgent.counted_twice json_loads query llm); cbn in Hc1.
    + injection Hc1 as <-. lia.
    + rewrite Hc in Hc1. injection Hc1 as <-. lia.
  - intros Hown. destruct answer as [r|e]; [|reflexivity].
    destruct (answer_of_the_collaborator _ _ _ _ _ _ Hrun)
      as [->|(Hg & Hn & text & -> & Hd)]; [reflexivity|].
    destruct Hown as [Hf|[Hf|[Hf|[(text' & [= <-] & Hf)|[e Hf]]]]];
      try congruence.
  - intros body Hbody. destruct answer as [r|e]; [|discriminate].
    destruct (answer_of_the_collaborator _ _ _ _ _ _ Hrun)
      as [Hv|(Hg & Hn & text & -> & Hd)]; [now rewrite Hv in Hbody|].
    exists text, r. repeat split; [exact Hd|].
    destruct (validate r); [now inversion Hbody|discriminate].
Qed.

End Route.

End Router.

(** ** personalization/user_context.py *)
Module UserContext.

(** *** The fallback file store *)

Definition fallback_directory : string := "user_profiles".

(** A user id is any Python string, a sequence of Unicode code points;
    [codes] gives the code points of an ASCII literal. *)
Definition codes (s : string) : list N :=
  N_of_ascii <$> list_ascii_of_string s.

(** [os.path.join(a, b)] on POSIX, over code points; 47 is the slash. *)
Definition path_join (a b : list N) : list N :=
  match b with
  | 47%N :: _ => b
  | _ =>
      if bool_decide (a = []) || (List.last a 0 =? 47)%N
      then a ++ b
      else a ++ [47%N] ++ b
  end.

Section FileStore.

(** [c.isalnum()] on one character. Python decides it by the Unicode
    category of the code point, so that the letters and digits of every
    script are alphanumeric; the table is left open here. *)
Variable isalnum : N -> bool.

(** [c if c.isalnum() or c in "._-@" else "_"]; 95 is the underscore. *)
Definition safe_char (c : N) : N :=
  if isalnum c || bool_decide (c ∈ codes "._-@") then c else 95%N.

(** ["".join(... for c in user_id)]. *)
Definition safe_user_id (user_id : list N) : list N :=
  safe_char <$> user_id.

Definition file_name (user_id : list N) : list N :=
  codes "user_" ++ safe_user_id user_id ++ codes ".json".

(** The path that [_save_to_file] writes and [_load_from_file] reads. *)
Definition file_path (user_id : list N) : list N :=
  path_join (codes fallback_directory) (file_name user_id).

(** Alphanumeric or one of the four characters that are kept. *)
Definition allowed (c : N) : bool :=
  isalnum c || bool_decide (c ∈ codes "._-@").

End FileStore.

(** What is used of [str.isalnum]: on ASCII it holds of the letters A to
    Z and a to z and of the digits, and of nothing else. *)
Definition isalnum_on_ascii (isalnum : N -> bool) : Prop :=
  forall c, (c < 128)%N -> isalnum c = Py.isalnum (ascii_of_N c).

(** A table that is Python's on ASCII and on three characters beyond it:
    e with acute accent (233), the fraction one half (189) and the Chinese
    character for middle (20013) are alphanumeric. *)
Definition isalnum_sample (c : N) : bool :=
  if (c <? 128)%N then Py.isalnum (ascii_of_N c)
  else bool_decide (c ∈ [233; 189; 20013]%N).

(** The two path separators, slash and backslash. *)
Definition is_separator (c : N) : bool := ((c =? 47) || (c =? 92))%N.

(** *** Recommendations *)

(** The keys of the context that the recommendations read; a missing list
    reads as the empty list. *)
Record Context := mkContext {
  userId : string;
  skillLevel : option string;
  learningStyle : option string;
  weakTopics : list string;
  goals : list string;
  topics : list string
}.

(** The preferences and session data of [_create_default_context]. *)
Definition default_context (user_id : string) : Context :=
  mkContext user_id None (Some "visual") [] ["Master coding concepts"] [].

Record Flashcard := mkFlashcard {
  flashcard_id : string;
  flashcard_title : string;
  flashcard_description : string;
  flashcard_difficulty : string;
  flashcard_count : Z
}.

Record Game := mkGame {
  game_id : string;
  game_title : string;
  game_description : string;
  game_difficulty : string;
  game_type : string
}.

Record Resource := mkResource {
  resource_id : string;
  resource_title : string;
  resource_description : string;
  resource_type : string;
  resource_format : string
}.

Record Recommendations := mkRecommendations {
  flashcards : list Flashcard;
  games : list Game;
  resources : list Resource;
  nextSteps : list string
}.

(** The Gemini model of the context: [None] when no API key is set,
    otherwise what its successive [generate_content] calls answer, a text
    or [None] for a call that raises. *)
Definition Gemini := option (list (option string)).

Definition goal_topics : list string :=
  ["python"; "javascript"; "algorithms"; "data structures";
   "database"; "sql"; "machine learning"; "operating systems"].

(** [_extract_topic_from_goal]: the topic, if any, and the model
    afterwards. *)
Definition _extract_topic_from_goal (g : Gemini) (goal : string)
    : option string * Gemini :=
  match g with
  | None =>
      (List.find (fun topic => Py.contains topic (Py.lower goal)) goal_topics,
       None)
  | Some [] => (None, Some [])
  | Some (answer :: later) =>
      (match answer with
       | Some text =>
           if String.eqb text "" then None
           else Some (Py.lower (Py.strip text))
       | None => None
       end, Some later)
  end.

(** [if topic:] on an optional string. *)
Definition truthy (topic : option string) : option string :=
  match topic with
  | Some t => if String.eqb t "" then None else Some t
  | None => None
  end.

Definition weak_flashcard (n : nat) (topic : string) : Flashcard :=
  mkFlashcard ("flashcard_" +:+ Py.str_of_nat (n + 1))
    (Py.title topic +:+ " Flashcards")
    ("Practice " +:+ topic +:+ " concepts to strengthen your understanding")
    "medium" 10.

Definition goal_flashcard (n : nat) (topic : string) : Flashcard :=
  mkFlashcard ("flashcard_" +:+ Py.str_of_nat (n + 1))
    (Py.title topic +:+ " Flashcards")
    ("Learn key " +:+ topic +:+ " concepts to help reach your goal")
    "beginner" 5.

Definition general_flashcard : Flashcard :=
  mkFlashcard "flashcard_general" "Computer Science Fundamentals"
    "Review core CS concepts to build a strong foundation" "beginner" 10.

(** The loop over the goals, which stops at three flashcards. *)
Fixpoint goal_loop (g : Gemini) (goals : list string) (acc : list Flashcard)
    : list Flashcard * Gemini :=
  match goals with
  | [] => (acc, g)
  | goal :: rest =>
      if (3 <=? length acc)%nat then (acc, g)
      else
        let '(topic, g') := _extract_topic_from_goal g goal in
        match truthy topic with
        | Some t => goal_loop g' rest (acc ++ [goal_flashcard (length acc) t])
        | None => goal_loop g' rest acc
        end
  end.

Definition _get_flashcard_recommendations (g : Gemini) (ctx : Context)
    : list Flashcard * Gemini :=
  let weak :=
    fold_left (fun acc topic => acc ++ [weak_flashcard (length acc) topic])
      (firstn 2 (weakTopics ctx)) [] in
  let '(cards, g') := goal_loop g (goals ctx) weak in
  (match cards with [] => [general_flashcard] | _ => cards end, g').

(** Weak topics first, then the session topics that are not weak. *)
Definition combined_topics (ctx : Context) : list string :=
  weakTopics ctx
  ++ List.filter (fun t => negb (Py.mem t (weakTopics ctx))) (topics ctx).

Definition _get_game_recommendations (ctx : Context) : list Game :=
  let learning_style := default "visual" (learningStyle ctx) in
  let ts := combined_topics ctx in
  let games := [] in
  let games :=
    if Py.mem "os" ts || Py.mem "operating systems" ts
    then games ++ [mkGame "game_os_visualization" "OS Visualization Game"
                     "Interactive visualization of operating system concepts"
                     "medium" "visualization"]
    else games in
  let games :=
    if Py.mem "recursion" ts || Py.mem "algorithms" ts
    then games ++ [mkGame "game_recursion_puzzle" "Recursion Puzzle"
                     "Solve recursive problems visually" "hard" "puzzle"]
    else games in
  let games :=
    if Py.mem "dbms" ts || Py.mem "sql" ts || Py.mem "database" ts
    then games ++ [mkGame "game_dbms_challenge" "Database Query Challenge"
                     "Practice SQL queries in a game environment"
                     "medium" "quiz"]
    else games in
  let games :=
    if String.eqb learning_style "visual" && (length games <? 2)%nat
    then games ++ [mkGame "game_memory_match" "CS Concept Memory Match"
                     "Match related computer science concepts"
                     "easy" "memory"]
    else games in
  match games with
  | [] => [mkGame "game_coding_challenge" "Quick Coding Challenge"
             "Test your coding skills with a quick challenge"
             "medium" "challenge"]
  | _ => games
  end.

Definition _get_resource_recommendations (ctx : Context) : list Resource :=
  let skill_level := default "beginner" (skillLevel ctx) in
  let ts := combined_topics ctx in
  let resources :=
    fold_left
      (fun acc topic =>
         acc ++ [mkResource ("resource_" +:+ Py.str_of_nat (length acc + 1))
                   (Py.title topic +:+ " Tutorial")
                   ("Comprehensive " +:+ skill_level +:+ " guide to " +:+ topic)
                   "tutorial" "interactive"])
      (firstn 2 ts) [] in
  let resources :=
    match ts with
    | first :: _ =>
        resources
        ++ [mkResource ("resource_" +:+ Py.str_of_nat (length resources + 1))
              (Py.title first +:+ " Video Series")
              ("Visual explanation of key " +:+ first +:+ " concepts")
              "video" "playlist"]
    | [] => resources
    end in
  match resources with
  | [] => [mkResource "resource_general" "Computer Science Fundamentals"
             "Core CS concepts explained clearly" "guide" "interactive"]
  | _ => resources
  end.

Definition general_steps : list string :=
  ["Take a practice quiz to identify knowledge gaps";
   "Complete a learning assessment to update your profile";
   "Try a visualization exercise for a difficult concept";
   "Attempt the interactive coding exercises"].

(** [while len(next_steps) < 3:] append the first general step that is not
    in the list yet; a pass that finds none leaves the list as it is.
    [None] when the loop is still running after [fuel] passes. *)
Fixpoint pad_next_steps (fuel : nat) (next_steps : list string)
    : option (list string) :=
  if (length next_steps <? 3)%nat then
    match fuel with
    | O => None
    | S fuel' =>
        match List.find (fun step => negb (Py.mem step next_steps))
                general_steps with
        | Some step => pad_next_steps fuel' (next_steps ++ [step])
        | None => pad_next_steps fuel' next_steps
        end
    end
  else Some next_steps.

Definition _get_next_steps (fuel : nat) (g : Gemini) (ctx : Context)
    : option (list string) * Gemini :=
  let skill_level := default "beginner" (skillLevel ctx) in
  let next_steps :=
    match weakTopics ctx with
    | [] => []
    | w0 :: more =>
        ["Complete the " +:+ Py.title w0 +:+ " practice exercises"]
        ++ match more with
           | w1 :: _ => ["Review the " +:+ Py.title w1 +:+ " flashcards"]
           | [] => []
           end
    end in
  let '(next_steps, g') :=
    match goals ctx with
    | goal :: _ =>
        let '(topic, g') := _extract_topic_from_goal g goal in
        (match truthy topic with
         | Some t =>
             next_steps ++ ["Take the " +:+ Py.title t +:+ " assessment quiz"]
         | None => next_steps
         end, g')
    | [] => (next_steps, g)
    end in
  let next_steps :=
    next_steps
    ++ [if String.eqb skill_level "beginner"
        then "Complete the CS Fundamentals interactive tutorial"
        else if String.eqb skill_level "intermediate"
             then "Try the programming challenge to test your skills"
             else "Tackle the advanced algorithm optimization exercises"] in
  (firstn 3 <$> pad_next_steps fuel next_steps, g').

(** [get_personalized_recommendations]; [None] when the padding loop of
    [_get_next_steps] did not finish within [fuel] passes. *)
Definition get_personalized_recommendations (fuel : nat) (g : Gemini)
    (ctx : Context) : option Recommendations :=
  let '(cards, g1) := _get_flashcard_recommendations g ctx in
  let games := _get_game_recommendations ctx in
  let resources := _get_resource_recommendations ctx in
  let '(steps, _) := _get_next_steps fuel g1 ctx in
  mkRecommendations cards games resources <$> steps.

(** *** File names of the fallback store *)

Lemma isalnum_sample_on_ascii : isalnum_on_ascii isalnum_sample.
Proof.
  intros c Hc. unfold isalnum_sample.
  destruct (N.ltb_spec c 128); [reflexivity|lia].
Qed.

Lemma safe_char_allowed isalnum c : allowed isalnum (safe_char isalnum c) = true.
Proof.
  unfold safe_char, allowed.
  destruct (isalnum c || bool_decide (c ∈ codes "._-@")) eqn:H;
    [exact H|].
  apply orb_true_iff. now right.
Qed.

Lemma allowed_not_separator isalnum c :
  isalnum_on_ascii isalnum ->
  allowed isalnum c = true -> is_separator c = false.
Proof.
  intros Hascii. unfold allowed, is_separator.
  destruct (N.eqb_spec c 47) as [->|H47].
  { rewrite Hascii by lia. discriminate. }
  destruct (N.eqb_spec c 92) as [->|H92]; [|reflexivity].
  rewrite Hascii by lia. discriminate.
Qed.

Lemma safe_user_id_allowed isalnum user_id :
  Forall (fun c => allowed isalnum c = true) (safe_user_id isalnum user_id).
Proof.
  unfold safe_user_id. apply Forall_fmap, Forall_forall.
  intros c _. apply safe_char_allowed.
Qed.

Lemma safe_user_id_length isalnum user_id :
  length (safe_user_id isalnum user_id) = length user_id.
Proof. apply length_fmap. Qed.

Lemma file_path_in_directory isalnum user_id :
  file_path isalnum user_id
  = codes fallback_directory ++ codes "/" ++ file_name isalnum user_id.
Proof. reflexivity. Qed.

Example traversal_attempt :
  file_path isalnum_sample (codes "../../etc/passwd")
  = codes "user_profiles/user_.._.._etc_passwd.json".
Proof. reflexivity. Qed.

Example mail_address_kept :
  file_name isalnum_sample (codes "Ada.L@example.org")
  = codes "user_Ada.L@example.org.json".
Proof. reflexivity. Qed.

(** The user id made of e with acute accent keeps its letter. *)
Example accented_letter_kept :
  file_name isalnum_sample [233%N] = codes "user_" ++ [233%N] ++ codes ".json".
Proof. reflexivity. Qed.

(** C10: the fallback file of a user is named "user_", then the user id
    with every character that is neither alphanumeric nor one of . _ - @
    replaced by an underscore, then ".json"; the name holds no path
    separator, so the file lies directly in the fallback directory,
    whatever the user id. A user id is any sequence of Unicode code
    points, and alphanumeric is what [str.isalnum] says. *)
Theorem fallback_file_stays_in_directory isalnum user_id :
  isalnum_on_ascii isalnum ->
  file_name isalnum user_id
  = codes "user_" ++ safe_user_id isalnum user_id ++ codes ".json"
  /\ Forall (fun c => allowed isalnum c = true) (safe_user_id isalnum user_id)
  /\ Forall (fun c => is_separator c = false) (file_name isalnum user_id)
  /\ file_path isalnum user_id
     = codes fallback_directory ++ codes "/" ++ file_name isalnum user_id.
Proof.
  intros Hascii.
  split; [reflexivity|]. split; [apply safe_user_id_allowed|]. split.
  - unfold file_name. rewrite !Forall_app. repeat split.
    + repeat constructor.
    + eapply Forall_impl; [apply safe_user_id_allowed|].
      intros c. now apply allowed_not_separator.
    + repeat constructor.
  - apply file_path_in_directory.
Qed.

(** A user id with an accented letter, two separators and two dots. *)
Lemma fallback_file_stays_in_directory_witness :
  file_path isalnum_sample [233; 47; 46; 46; 92; 97]%N
  = codes "user_profiles/user_" ++ [233; 95; 46; 46; 95; 97]%N
    ++ codes ".json".
Proof.
  destruct (fallback_file_stays_in_directory isalnum_sample
              [233; 47; 46; 46; 92; 97]%N isalnum_sample_on_ascii)
    as (_ & _ & _ & H).
  rewrite H. reflexivity.
Defined.

(** *** Recommendations for a new user *)

Lemma flashcards_never_empty g ctx :
  fst (_get_flashcard_recommendations g ctx) <> [].
Proof.
  unfold _get_flashcard_recommendations.
  destruct (goal_loop g (goals ctx) _) as [cards g'].
  destruct cards; simpl; discriminate.
Qed.

Lemma games_never_empty ctx : _get_game_recommendations ctx <> [].
Proof.
  unfold _get_game_recommendations.
  match goal with |- match ?l with _ => _ end <> _ => destruct l end;
    discriminate.
Qed.

Lemma resources_never_empty ctx : _get_resource_recommendations ctx <> [].
Proof.
  unfold _get_resource_recommendations.
  match goal with |- match ?l with _ => _ end <> _ => destruct l end;
    discriminate.
Qed.

(** The two shapes of the first three next steps of a new user. *)
Definition new_user_steps (topic : option string) : list string :=
  match topic with
  | Some t =>
      ["Take the " +:+ Py.title t +:+ " assessment quiz";
       "Complete the CS Fundamentals interactive tutorial";
       "Take a practice quiz to identify knowledge gaps"]
  | None =>
      ["Complete the CS Fundamentals interactive tutorial";
       "Take a practice quiz to identify knowledge gaps";
       "Complete a learning assessment to update your profile"]
  end.

Lemma new_user_steps_distinct topic :
  length (new_user_steps topic) = 3%nat /\ NoDup (new_user_steps topic).
Proof.
  destruct topic as [t|]; simpl; (split; [reflexivity|]);
    repeat (apply NoDup_cons; split;
            [rewrite ?elem_of_cons, elem_of_nil; intuition discriminate|]);
    apply NoDup_nil_2.
Qed.

Lemma pad_next_steps_done fuel next_steps :
  (3 <= length next_steps)%nat ->
  pad_next_steps fuel next_steps = Some next_steps.
Proof.
  intros H. destruct fuel; simpl;
    destruct (Nat.ltb_spec (length next_steps) 3); (reflexivity || lia).
Qed.

Lemma next_steps_of_new_user fuel g user_id :
  (2 <= fuel)%nat ->
  exists topic,
    fst (_get_next_steps fuel g (default_context user_id))
    = Some (new_user_steps topic).
Proof.
  intros Hfuel. destruct fuel as [|[|fuel]]; try lia.
  unfold _get_next_steps.
  cbn beta iota delta [goals weakTopics skillLevel default_context].
  destruct (_extract_topic_from_goal g "Master coding concepts")
    as [topic g'] eqn:Hextract.
  destruct (truthy topic) as [t|] eqn:Htopic.
  - exists (Some t). reflexivity.
  - exists None. cbn -[pad_next_steps].
    change (pad_next_steps (S (S fuel)) ?l)
      with (pad_next_steps fuel (new_user_steps None)).
    now rewrite pad_next_steps_done.
Qed.

(** C8: on the default context of a new user, whatever the Gemini model
    answers and provided the padding loop is given at least two passes,
    [get_personalized_recommendations] returns flashcards, games and
    resources that are not empty and exactly three next steps without
    duplicates. *)
Theorem recommendations_for_new_user fuel g user_id :
  (2 <= fuel)%nat ->
  exists recs,
    get_personalized_recommendations fuel g (default_context user_id)
    = Some recs
    /\ flashcards recs <> [] /\ games recs <> [] /\ resources recs <> []
    /\ length (nextSteps recs) = 3%nat /\ NoDup (nextSteps recs).
Proof.
  intros Hfuel. unfold get_personalized_recommendations.
  pose proof (flashcards_never_empty g (default_context user_id)) as Hcards.
  destruct (_get_flashcard_recommendations g (default_context user_id))
    as [cards g1].
  destruct (next_steps_of_new_user fuel g1 user_id Hfuel) as [topic Hsteps].
  destruct (_get_next_steps fuel g1 (default_context user_id)) as [steps g2].
  simpl in Hsteps, Hcards. subst steps. simpl.
  eexists. split; [reflexivity|]. simpl.
  repeat split; auto using games_never_empty, resources_never_empty;
    apply new_user_steps_distinct.
Qed.

Lemma recommendations_for_new_user_witness :
  exists recs,
    get_personalized_recommendations 3 None (default_context "guest")
    = Some recs
    /\ flashcards recs <> [] /\ games recs <> [] /\ resources recs <> []
    /\ length (nextSteps recs) = 3%nat /\ NoDup (nextSteps recs).
Proof.
  apply (recommendations_for_new_user 3 None "guest"). lia.
Defined.

(** *** Sanitized user ids *)

Lemma safe_char_id isalnum c :
  allowed isalnum c = true -> safe_char isalnum c = c.
Proof. unfold allowed, safe_char. now intros ->. Qed.

Lemma safe_user_id_id isalnum user_id :
  Forall (fun c => allowed isalnum c = true) user_id ->
  safe_user_id isalnum user_id = user_id.
Proof.
  induction 1 as [|c t Hc Ht IH]; [reflexivity|].
  unfold safe_user_id in *. cbn [fmap list_fmap].
  fold (list_fmap N N (safe_char isalnum) t).
  now rewrite (safe_char_id isalnum c Hc), IH.
Qed.

(** X20: sanitizing is idempotent and leaves an id of allowed characters as
    it is, so two different such ids never share a file; ids with other
    characters can collide, as "a/b" and "a_b" do. This holds for every
    user id, a sequence of Unicode code points, with [str.isalnum] for
    alphanumeric. *)
Theorem sanitizing_keeps_safe_ids_apart isalnum :
  isalnum_on_ascii isalnum ->
  (forall user_id,
     safe_user_id isalnum (safe_user_id isalnum user_id)
     = safe_user_id isalnum user_id)
  /\ (forall u v,
        Forall (fun c => allowed isalnum c = true) u ->
        Forall (fun c => allowed isalnum c = true) v ->
        file_path isalnum u = file_path isalnum v -> u = v)
  /\ (file_path isalnum (codes "a/b") = file_path isalnum (codes "a_b")
      /\ codes "a/b" <> codes "a_b").
Proof.
  intros Hascii. split; [|split].
  - intros user_id. apply safe_user_id_id, safe_user_id_allowed.
  - intros u v Hu Hv. rewrite !file_path_in_directory. unfold file_name.
    rewrite (safe_user_id_id isalnum u Hu), (safe_user_id_id isalnum v Hv).
    intros H. do 3 apply app_inv_head in H. now apply app_inv_tail in H.
  - split; [|discriminate].
    rewrite !file_path_in_directory. do 2 f_equal.
    unfold file_name, safe_user_id. f_equal. f_equal.
    cbn [codes list_ascii_of_string fmap list_fmap]. unfold safe_char.
    rewrite !Hascii by (vm_compute; reflexivity). reflexivity.
Qed.

Lemma sanitizing_keeps_safe_ids_apart_witness :
  file_path isalnum_sample (codes "a/b") = file_path isalnum_sample (codes "a_b")
  /\ safe_user_id isalnum_sample (safe_user_id isalnum_sample [233; 47]%N)
     = safe_user_id isalnum_sample [233; 47]%N.
Proof.
  destruct (sanitizing_keeps_safe_ids_apart isalnum_sample
              isalnum_sample_on_ascii) as (Hidem & _ & Hsame & _).
  split; [exact Hsame|apply Hidem].
Defined.

(** *** Recommendations for every context *)




(** *** Next steps for every context *)

Lemma some_general_step_is_new next_steps :
  (length next_steps < 3)%nat ->
  exists step,
    List.find (fun step => negb (Py.mem step next_steps)) general_steps
    = Some step.
Proof.
  intros Hlen.
  destruct next_steps as [|a [|b [|c l]]]; [| | |simpl in Hlen; lia];
    unfold general_steps, Py.mem; cbn [List.find existsb negb orb];
    eauto;
    repeat match goal with
           | |- context [String.eqb ?x ?y] =>
               destruct (String.eqb_spec x y); cbn [negb orb]; eauto
           end;
    exfalso; congruence.
Qed.

Lemma pad_next_steps_finishes fuel : forall next_steps,
  (3 - length next_steps <= fuel)%nat ->
  exists steps,
    pad_next_steps fuel next_steps = Some steps
    /\ (3 <= length steps)%nat.
Proof.
  induction fuel as [|fuel IH]; intros next_steps Hfuel.
  - exists next_steps. rewrite pad_next_steps_done by lia. split; [reflexivity|lia].
  - destruct (Nat.ltb_spec (length next_steps) 3) as [Hlt|Hge].
    + destruct (some_general_step_is_new next_steps Hlt) as [step Hstep].
      cbn [pad_next_steps].
      destruct (Nat.ltb_spec (length next_steps) 3); [|lia].
      rewrite Hstep. apply IH. rewrite length_app. simpl. lia.
    + exists next_steps. rewrite pad_next_steps_done by lia.
      split; [reflexivity|lia].
Qed.

(** X22: for every context and whatever the Gemini model answers, the
    padding loop of [_get_next_steps] ends within two passes and exactly
    three next steps are returned. *)
Theorem next_steps_are_always_three fuel g ctx :
  (2 <= fuel)%nat ->
  exists steps,
    (_get_next_steps fuel g ctx).1 = Some steps /\ length steps = 3%nat.
Proof.
  intros Hfuel. unfold _get_next_steps.
  destruct (match goals ctx with
            | [] => _
            | goal :: _ => _
            end) as [before g'].
  match goal with
  | |- context [pad_next_steps fuel ?l] =>
      destruct (pad_next_steps_finishes fuel l) as (steps & Hpad & Hlen);
        [rewrite length_app; simpl; lia|]
  end.
  rewrite Hpad. simpl. eexists. split; [reflexivity|].
  rewrite length_firstn. lia.
Qed.

Lemma next_steps_are_always_three_witness :
  exists steps,
    (_get_next_steps 2 None
       (mkContext "guest" (Some "advanced") None ["sql"; "recursion"]
          ["Learn python"] [])).1 = Some steps
    /\ length steps = 3%nat.
Proof.
  apply (next_steps_are_always_three 2 None
           (mkContext "guest" (Some "advanced") None ["sql"; "recursion"]
              ["Learn python"] [])).
  lia.
Defined.

(** *** The whole context and its updates *)

Record Conversation := mkConversation {
  conversation_timestamp : string;
  conversation_query : string;
  conversation_response : option string;
  conversation_topic : option string
}.

(** The context dictionary: [context] holds userId, skillLevel, the
    preferences and the topics of sessionData; the other fields are
    top-level keys, [top_weakTopics] and [top_goals] being the keys
    "weakTopics" and "goals" beside "preferences". A missing list reads as
    the empty list. *)
Record State := mkState {
  context : Context;
  interactionCount : Z;
  recentQuestions : list string;
  lastActivity : option string;
  top_weakTopics : list string;
  top_goals : list string;
  conversationHistory : list Conversation;
  lastUpdated : string
}.

(** One item of the [updates] dictionary. *)
Inductive update :=
| recent_question (query : string)
| weak_topic (topic : string)
| weak_topic_list (topics : list string)
| goal (text : string)
| goal_list (texts : list string)
| last_activity (text : string)
| session_data (count : Z) (topics : list string)
| preferences (style : option string) (weak goals : list string).

Definition with_context (st : State) (c : Context) : State :=
  mkState c (interactionCount st) (recentQuestions st) (lastActivity st)
    (top_weakTopics st) (top_goals st) (conversationHistory st)
    (lastUpdated st).

Definition apply_update (st : State) (u : update) : State :=
  let c := context st in
  match u with
  | recent_question query =>
      mkState c (interactionCount st)
        (Py.last_n 5 (recentQuestions st ++ [query]))
        (lastActivity st) (top_weakTopics st) (top_goals st)
        (conversationHistory st) (lastUpdated st)
  | weak_topic topic =>
      mkState c (interactionCount st) (recentQuestions st) (lastActivity st)
        (if Py.mem topic (top_weakTopics st) then top_weakTopics st
         else top_weakTopics st ++ [topic])
        (top_goals st) (conversationHistory st) (lastUpdated st)
  | weak_topic_list topics =>
      mkState c (interactionCount st) (recentQuestions st) (lastActivity st)
        topics (top_goals st) (conversationHistory st) (lastUpdated st)
  | goal text =>
      mkState c (interactionCount st) (recentQuestions st) (lastActivity st)
        (top_weakTopics st)
        (if Py.mem text (top_goals st) then top_goals st
         else top_goals st ++ [text])
        (conversationHistory st) (lastUpdated st)
  | goal_list texts =>
      mkState c (interactionCount st) (recentQuestions st) (lastActivity st)
        (top_weakTopics st) texts (conversationHistory st) (lastUpdated st)
  | last_activity text =>
      mkState c (interactionCount st) (recentQuestions st) (Some text)
        (top_weakTopics st) (top_goals st) (conversationHistory st)
        (lastUpdated st)
  | session_data count ts =>
      mkState
        (mkContext (userId c) (skillLevel c) (learningStyle c) (weakTopics c)
           (goals c) ts)
        count (recentQuestions st) (lastActivity st) (top_weakTopics st)
        (top_goals st) (conversationHistory st) (lastUpdated st)
  | preferences style weak gs =>
      with_context st
        (mkContext (userId c) (skillLevel c) style weak gs (topics c))
  end.

(** [update_user_context]: the items are applied in order, then the time
    of the update is set; [now] stands for each reading of the clock. *)
Definition update_user_context (now : string) (st : State)
    (updates : list update) : State :=
  let st' := fold_left apply_update updates st in
  mkState (context st') (interactionCount st') (recentQuestions st')
    (lastActivity st') (top_weakTopics st') (top_goals st')
    (conversationHistory st') now.

Definition query_topics : list (string * list string) :=
  [ ("python", ["python"; "py"]);
    ("javascript", ["javascript"; "js"]);
    ("algorithms", ["algorithm"; "sorting"; "searching"]);
    ("data structures", ["array"; "list"; "tree"; "graph"; "stack"; "queue"]);
    ("database", ["database"; "sql"; "mysql"; "postgresql"]);
    ("dbms", ["dbms"; "normalization"; "sql"]);
    ("machine learning", ["machine learning"; "ml"; "neural network"]);
    ("operating systems", ["os"; "operating system"; "process"; "thread"]);
    ("recursion", ["recursion"; "recursive"]);
    ("networking", ["network"; "tcp"; "http"; "api"]) ].

Definition _extract_topic_from_query (query : string) : option string :=
  fst <$> List.find (fun entry => Py.any_in entry.2 (Py.lower query))
            query_topics.

(** [response[:200] + "..." if response and len(response) > 200 else
    response]. *)
Definition shortened (response : option string) : option string :=
  match response with
  | Some text =>
      if negb (String.eqb text "") && (200 <? String.length text)%nat
      then Some (String.substring 0 200 text +:+ "...")
      else Some text
  | None => None
  end.

(** [_infer_topic_from_query]: one call of the model. *)
Definition _infer_topic_from_query (g : Gemini) : option string * Gemini :=
  match g with
  | None => (None, None)
  | Some [] => (None, Some [])
  | Some (answer :: later) =>
      (match answer with
       | Some text =>
           if String.eqb text "" then None
           else Some (Py.lower (Py.strip text))
       | None => None
       end, Some later)
  end.

(** [_is_struggling_with_topic]: one call of the model. *)
Definition _is_struggling_with_topic (g : Gemini) : bool * Gemini :=
  match g with
  | None => (false, None)
  | Some [] => (false, Some [])
  | Some (answer :: later) =>
      (match answer with
       | Some text =>
           negb (String.eqb text "") && Py.contains "yes" (Py.lower text)
       | None => false
       end, Some later)
  end.

(** The part of [update_from_query] that runs when a model is set. *)
Definition note_topic (now : string) (st : State) (response : option string)
    (g : Gemini) : State * Gemini :=
  match g with
  | None => (st, g)
  | Some _ =>
      let '(topic, g1) := _infer_topic_from_query g in
      match truthy topic with
      | None => (st, g1)
      | Some t =>
          let st1 :=
            if Py.mem t (topics (context st)) then st
            else update_user_context now st
                   [session_data (interactionCount st)
                      (topics (context st) ++ [t])] in
          if Py.mem t (weakTopics (context st1)) then (st1, g1)
          else
            match response with
            | Some text =>
                if String.eqb text "" then (st1, g1)
                else
                  let '(struggling, g2) := _is_struggling_with_topic g1 in
                  if struggling
                  then (update_user_context now st1 [weak_topic t], g2)
                  else (st1, g2)
            | None => (st1, g1)
            end
      end
  end.

Definition conversation_entry (now query : string) (response : option string)
    : Conversation :=
  mkConversation now query (shortened response)
    (_extract_topic_from_query query).

Definition update_from_query (now : string) (st : State) (query : string)
    (response : option string) (g : Gemini) : State * Gemini :=
  let st := update_user_context now st [recent_question query] in
  let st := update_user_context now st [last_activity ("Viewed " +:+ query)] in
  let history :=
    conversationHistory st ++ [conversation_entry now query response] in
  let history :=
    if (50 <? length history)%nat then Py.last_n 50 history else history in
  let st :=
    mkState (context st) (interactionCount st) (recentQuestions st)
      (lastActivity st) (top_weakTopics st) (top_goals st) history
      (lastUpdated st) in
  let st :=
    update_user_context now st
      [session_data (interactionCount st + 1) (topics (context st))] in
  note_topic now st response g.

(** Successive tracked queries, each with its response. *)
Fixpoint track_queries (now : string) (st : State)
    (queries : list (string * option string)) (g : Gemini) : State * Gemini :=
  match queries with
  | [] => (st, g)
  | (query, response) :: rest =>
      let '(st', g') := update_from_query now st query response g in
      track_queries now st' rest g'
  end.

(** What [note_topic] leaves alone. *)
Lemma note_topic_frame now st response g :
  let st' := (note_topic now st response g).1 in
  weakTopics (context st') = weakTopics (context st)
  /\ goals (context st') = goals (context st)
  /\ learningStyle (context st') = learningStyle (context st)
  /\ skillLevel (context st') = skillLevel (context st)
  /\ interactionCount st' = interactionCount st
  /\ recentQuestions st' = recentQuestions st
  /\ lastActivity st' = lastActivity st
  /\ conversationHistory st' = conversationHistory st.
Proof.
  unfold note_topic. destruct g as [script|]; [|simpl; tauto].
  destruct (_infer_topic_from_query (Some script)) as [topic g1].
  destruct (truthy topic) as [t|]; [|simpl; tauto].
  destruct (Py.mem t (topics (context st))); simpl.
  - destruct (Py.mem t (weakTopics (context st))); [simpl; tauto|].
    destruct response as [text|]; [|simpl; tauto].
    destruct (String.eqb text ""); [simpl; tauto|].
    destruct (_is_struggling_with_topic g1) as [[] g2]; simpl; tauto.
  - destruct (Py.mem t (weakTopics (context st))); [simpl; tauto|].
    destruct response as [text|]; [|simpl; tauto].
    destruct (String.eqb text ""); [simpl; tauto|].
    destruct (_is_struggling_with_topic g1) as [[] g2]; simpl; tauto.
Qed.

Lemma last_n_last_n {A} n (l r : list A) :
  Py.last_n n (Py.last_n n l ++ r) = Py.last_n n (l ++ r).
Proof.
  unfold Py.last_n. rewrite !length_app, length_skipn.
  destruct (Nat.le_gt_cases (length l) n) as [Hle|Hgt].
  - replace (length l - n)%nat with 0%nat by lia. simpl.
    now replace (length l - 0)%nat with (length l) by lia.
  - replace (length l - (length l - n) + length r - n)%nat
      with (length r) by lia.
    replace (length l + length r - n)%nat
      with ((length l - n) + length r)%nat by lia.
    rewrite <- (drop_drop (l ++ r)).
    rewrite (drop_app_le l r (length l - n)) by lia. reflexivity.
Qed.

(** X23: after any number of tracked queries the recent questions are the
    last five of the earlier ones followed by the tracked ones, in order,
    and the interaction count of the session has grown by one per query,
    whatever the Gemini model answers. *)
Theorem recent_questions_are_the_last_five now queries : forall st g,
  let st' := (track_queries now st queries g).1 in
  recentQuestions st'
    = (if (length queries =? 0)%nat then recentQuestions st
       else Py.last_n 5 (recentQuestions st ++ queries.*1))
  /\ interactionCount st'
     = interactionCount st + Z.of_nat (length queries).
Proof.
  induction queries as [|[query response] queries IH]; intros st g.
  - simpl. split; [reflexivity|lia].
  - cbn [track_queries].
    destruct (update_from_query now st query response g) as [st1 g1] eqn:Hq.
    assert (H1 : recentQuestions st1
                 = Py.last_n 5 (recentQuestions st ++ [query])
                 /\ interactionCount st1 = interactionCount st + 1).
    { unfold update_from_query in Hq.
      match type of Hq with
      | note_topic now ?s response g = _ =>
          pose proof (note_topic_frame now s response g) as Hframe;
          rewrite Hq in Hframe; simpl in Hframe
      end.
      destruct Hframe as (_ & _ & _ & _ & Hc & Hr & _). split; assumption. }
    destruct H1 as [Hr Hc]. destruct (IH st1 g1) as [IHr IHc].
    split.
    + rewrite IHr. cbn [length Nat.eqb fmap list_fmap fst].
      destruct queries as [|q queries]; [simpl; exact Hr|].
      cbn [length Nat.eqb]. rewrite Hr, last_n_last_n.
      now rewrite <- app_assoc.
    + rewrite IHc, Hc. cbn [length]. lia.
Qed.

Lemma mem_after_append t (l : list string) :
  Py.mem t (if Py.mem t l then l else l ++ [t]) = true.
Proof.
  destruct (Py.mem t l) eqn:Hmem; [exact Hmem|].
  unfold Py.mem. rewrite existsb_app. simpl.
  rewrite String.eqb_refl. now rewrite orb_true_r.
Qed.

(** X24: a tracked query never changes the weak topics and goals of the
    preferences, which the recommendations read, so the flashcard
    recommendations stay the same: a topic that the model names and then
    reports as a struggle is stored under the top-level key weakTopics, a
    list that only grows. *)
Theorem tracked_struggles_never_reach_preferences now st query response g g0 :
  let st' := (update_from_query now st query response g).1 in
  weakTopics (context st') = weakTopics (context st)
  /\ goals (context st') = goals (context st)
  /\ _get_flashcard_recommendations g0 (context st')
     = _get_flashcard_recommendations g0 (context st)
  /\ (forall t, t ∈ top_weakTopics st -> t ∈ top_weakTopics st')
  /\ (forall named verdict later text,
        let t := Py.lower (Py.strip named) in
        g = Some (Some named :: Some verdict :: later) ->
        named <> "" -> t <> "" ->
        Py.mem t (weakTopics (context st)) = false ->
        response = Some text -> text <> "" ->
        verdict <> "" -> Py.contains "yes" (Py.lower verdict) = true ->
        Py.mem t (top_weakTopics st') = true).
Proof.
  unfold update_from_query.
  match goal with
  | |- context [note_topic now ?s response g] => set (mid := s)
  end.
  assert (Hmid : weakTopics (context mid) = weakTopics (context st)
                 /\ goals (context mid) = goals (context st)
                 /\ top_weakTopics mid = top_weakTopics st)
    by (repeat split).
  destruct Hmid as (Hmw & Hmg & Hmt). clearbody mid.
  destruct (note_topic_frame now mid response g) as (Hw & Hg & _).
  cbv zeta. rewrite Hw, Hg, Hmw, Hmg.
  split; [reflexivity|]. split; [reflexivity|]. split; [|split].
  - unfold _get_flashcard_recommendations. now rewrite Hw, Hg, Hmw, Hmg.
  - intros t Ht. rewrite <- Hmt in Ht.
    unfold note_topic. destruct g as [script|]; [|exact Ht].
    destruct (_infer_topic_from_query (Some script)) as [topic g1].
    destruct (truthy topic) as [t'|]; [|exact Ht].
    set (st1 := if Py.mem t' (topics (context mid)) then mid else _).
    assert (Hst1 : top_weakTopics st1 = top_weakTopics mid)
      by (subst st1; destruct (Py.mem t' _); reflexivity).
    destruct (Py.mem t' (weakTopics (context st1))); simpl;
      [now rewrite Hst1|].
    destruct response as [text|]; simpl; [|now rewrite Hst1].
    destruct (String.eqb text ""); simpl; [now rewrite Hst1|].
    destruct (_is_struggling_with_topic g1) as [[] g2]; simpl;
      [|now rewrite Hst1].
    rewrite Hst1. destruct (Py.mem t' (top_weakTopics mid)); [exact Ht|].
    apply elem_of_app. now left.
  - intros named verdict later text Hg' Hnamed Ht Hweak Hresponse Htext
      Hverdict Hyes.
    subst g response. unfold note_topic, _infer_topic_from_query, truthy.
    apply String.eqb_neq in Hnamed, Ht, Htext, Hverdict.
    rewrite Hnamed, Ht.
    set (t := Py.lower (Py.strip named)) in *.
    set (st1 := if Py.mem t (topics (context mid)) then mid else _).
    assert (Hst1 : weakTopics (context st1) = weakTopics (context mid))
      by (subst st1; destruct (Py.mem t (topics (context mid)));
          reflexivity).
    rewrite Hst1, Hmw, Hweak, Htext.
    unfold _is_struggling_with_topic. rewrite Hverdict, Hyes. simpl.
    apply mem_after_append.
Qed.

(** A model that names recursion and answers yes marks it as weak at the
    top level. *)
Lemma tracked_struggles_never_reach_preferences_witness :
  Py.mem "recursion"
    (top_weakTopics
       (update_from_query "t"
          (mkState (default_context "u") 0 [] None [] [] [] "")
          "why does my recursion never stop?" (Some "It has no base case.")
          (Some [Some " Recursion "; Some "Yes"])).1) = true.
Proof.
  apply (proj2 (proj2 (proj2 (proj2
           (tracked_struggles_never_reach_preferences "t"
              (mkState (default_context "u") 0 [] None [] [] [] "")
              "why does my recursion never stop?"
              (Some "It has no base case.")
              (Some [Some " Recursion "; Some "Yes"]) None))))
           " Recursion " "Yes" [] "It has no base case.");
    first [reflexivity | discriminate].
Defined.

Lemma shortened_length response text :
  shortened response = Some text -> (String.length text <= 203)%nat.
Proof.
  destruct response as [r|]; simpl; [|discriminate].
  destruct (negb _ && _) eqn:Hlong; intros [= <-].
  - apply andb_true_iff in Hlong as [_ Hlong].
    apply Nat.ltb_lt in Hlong.
    assert (Happ : forall a b, String.length (a +:+ b)
                               = (String.length a + String.length b)%nat).
    { intros a b. induction a as [|c a IHa]; simpl; [reflexivity|].
      now rewrite IHa. }
    assert (Hsub : forall n s, (n <= String.length s)%nat ->
                               String.length (String.substring 0 n s) = n).
    { intros n. induction n as [|n IHn]; intros s Hs.
      - now destruct s.
      - destruct s as [|c s]; simpl in *; [lia|]. rewrite IHn; lia. }
    rewrite Happ, Hsub by lia. simpl. lia.
  - apply andb_false_iff in Hlong as [Hempty|Hshort].
    + apply negb_false_iff, String.eqb_eq in Hempty. subst r. simpl. lia.
    + apply Nat.ltb_ge in Hshort. lia.
Qed.

(** X25: every tracked query adds one entry to the conversation history,
    which keeps its last 50 entries; the response stored in the entry, cut
    to 200 characters plus an ellipsis when it was longer, never exceeds 203
    characters. *)
Theorem conversation_history_keeps_fifty now st query response g :
  let st' := (update_from_query now st query response g).1 in
  conversationHistory st'
    = Py.last_n 50
        (conversationHistory st ++ [conversation_entry now query response])
  /\ (length (conversationHistory st') <= 50)%nat
  /\ (forall text,
        conversation_response (conversation_entry now query response)
          = Some text ->
        (String.length text <= 203)%nat).
Proof.
  unfold update_from_query.
  match goal with
  | |- context [note_topic now ?s response g] => set (mid := s)
  end.
  destruct (note_topic_frame now mid response g)
    as (_ & _ & _ & _ & _ & _ & _ & Hh).
  cbv zeta. rewrite Hh. subst mid. simpl.
  set (history := conversationHistory st ++ _).
  assert (Hcap : (if (50 <? length history)%nat
                  then Py.last_n 50 history else history)
                 = Py.last_n 50 history).
  { destruct (Nat.ltb_spec 50 (length history)); [reflexivity|].
    unfold Py.last_n.
    now replace (length history - 50)%nat with 0%nat by lia. }
  rewrite Hcap. split; [reflexivity|]. split.
  - unfold Py.last_n. rewrite length_skipn. lia.
  - intros text. apply shortened_length.
Qed.

(** *** The database row *)

(** A list-valued column of the row: null, the JSON text of a list of
    strings (what [json.dumps] gives, a Python [str]), or the list. *)
Inductive cell :=
| Null
| Text (items : list string)
| Items (items : list string).

(** The columns that [_standardize_user_data] reads; [row_goals] is [None]
    when the row has no key "goals". *)
Record Row := mkRow {
  row_user_id : string;
  row_learning_style : cell;
  row_weak_topics : cell;
  row_learning_goals : cell;
  row_goals : option cell;
  row_skill_level : string;
  row_last_activity_date : option string
}.

(** The context that [_standardize_user_data] builds. *)
Record Loaded := mkLoaded {
  loaded_userId : string;
  loaded_learningStyle : string;
  loaded_weakTopics : cell;
  loaded_goals : cell;
  loaded_skillLevel : string;
  loaded_lastActivity : option string;
  loaded_recentQuestions : list string;
  loaded_interactionCount : Z;
  loaded_topics : list string
}.

Definition _prepare_for_database (user_id : string) (st : State) : Row :=
  let c := context st in
  mkRow user_id
    (Text [default "visual" (learningStyle c)])
    (Text (weakTopics c))
    (Text (goals c))
    None
    (default "beginner" (skillLevel c))
    (lastActivity st).

(** [json.loads] on a field that holds a string. *)
Definition decoded (value : cell) : cell :=
  match value with
  | Text items => Items items
  | other => other
  end.

(** The loop of [_load_from_database] over [json_fields], which names
    learning_style, goals and weak_topics but not learning_goals. *)
Definition decode_json_fields (row : Row) : Row :=
  mkRow (row_user_id row)
    (decoded (row_learning_style row))
    (decoded (row_weak_topics row))
    (row_learning_goals row)
    (decoded <$> row_goals row)
    (row_skill_level row)
    (row_last_activity_date row).

(** Truth value of a column in [a or b]; a JSON text is never empty. *)
Definition cell_truthy (value : cell) : bool :=
  match value with
  | Null => false
  | Text _ => true
  | Items [] => false
  | Items (_ :: _) => true
  end.

(** [_standardize_user_data]; [None] is the IndexError of indexing an
    empty learning_style list. *)
Definition _standardize_user_data (row : Row) : option Loaded :=
  style ← match row_learning_style row with
          | Items (first :: _) => Some first
          | Items [] => None
          | _ => Some "visual"
          end;
  Some (mkLoaded (row_user_id row) style (row_weak_topics row)
          (if cell_truthy (row_learning_goals row)
           then row_learning_goals row
           else default (Items []) (row_goals row))
          (row_skill_level row) (row_last_activity_date row) [] 0 []).

(** [_load_from_database] on the row that the query returns, if any; an
    exception is answered by [None]. *)
Definition _load_from_database (found : option Row) : option Loaded :=
  row ← found; _standardize_user_data (decode_json_fields row).

(** X26: a context saved to the database and loaded from the row as written
    always loads (the stored learning style list is never empty), with its
    skill level, learning style, weak topics and last activity; but the
    goals come back as the JSON text and not as a list, because
    learning_goals is not among the decoded fields, and recent questions,
    interaction count and session topics start again from nothing. *)
Theorem saved_context_loads_with_goals_as_text user_id st :
  _load_from_database (Some (_prepare_for_database user_id st))
    = Some (mkLoaded user_id
              (default "visual" (learningStyle (context st)))
              (Items (weakTopics (context st)))
              (Text (goals (context st)))
              (default "beginner" (skillLevel (context st)))
              (lastActivity st) [] 0 [])
  /\ (forall row loaded,
        _load_from_database (Some row) = Some loaded ->
        cell_truthy (row_learning_goals row) = true ->
        loaded_goals loaded = row_learning_goals row).
Proof.
  split; [reflexivity|].
  intros row loaded. unfold _load_from_database, _standardize_user_data.
  simpl. destruct (row_learning_style row) as [|[|first rest]|[|first rest]];
    simpl; try discriminate; intros [= <-] Hgoals; simpl;
    now rewrite Hgoals.
Qed.

End UserContext.
